(** * smart-credit-script: the report normaliser [normalize_report] of main.py

    A shallow embedding of [normalize_report] (main.py, lines 52-728) with its
    two local helpers [safe_number] and [safe_string], followed by the
    properties of the natural-language specification that concern it.

    Conventions of the embedding.
    - A Python value that can occur in a decoded JSON document is a [json].
      Python's [None] is [JNull]; a [dict] is an association list in insertion
      order with pairwise distinct keys, read by [dict_get] (first binding).
    - A Python [str] is a [string]; a character is a code point below 256.
    - An exception is a value of [exn]; code that can raise returns a
      [result].  A [try] block is the [match] on that result.
    - [print] appends a [warning] to the log the function returns.
    - The builtins that are not part of the repository ([float], [repr] of a
      float, [json.loads], [datetime.strptime]/[strftime]) are the fields of
      the classes [PyFloat] and [PyRuntime]; every theorem holds for every
      implementation of them. *)

From Stdlib Require Import String Ascii List ZArith Bool Lia DecimalString.
From Stdlib Require Import Floats.SpecFloat.
Import ListNotations.
Local Open Scope list_scope.
Local Open Scope string_scope.

(** ** Python floats *)

Class PyFloat : Type := {
  pyfloat : Type;
  (** [float(n)] for an [int]; [None] is [OverflowError]. *)
  float_of_int : Z -> option pyfloat;
  (** [float(s)] for a [str]; [None] is [ValueError]. *)
  float_of_str : string -> option pyfloat;
  (** [bool(x)]. *)
  float_nonzero : pyfloat -> bool;
  (** [str(x)], which is [repr(x)]. *)
  float_repr : pyfloat -> string;
  (** [x == y] on two floats, and on a float and an int. *)
  float_eqb : pyfloat -> pyfloat -> bool;
  float_eq_int : pyfloat -> Z -> bool
}.

(** ** JSON-shaped Python values *)

Section Values.
Context {FL : PyFloat}.

#[local] Set Warnings "-register-all".

Inductive json : Type :=
| JNull
| JBool (b : bool)
| JInt (z : Z)
| JFloat (f : pyfloat)
| JStr (s : string)
| JArr (l : list json)
| JObj (d : list (string * json)).

Definition dict : Type := list (string * json).

(** What [json.loads] does with a [str]: it returns the document, or raises
    [json.JSONDecodeError] on a text that is not JSON, a plain [ValueError] on
    an integer literal over the digit limit of [int] (4300 digits), or
    [RecursionError] on a nesting too deep. *)
Inductive loaded : Type :=
| Document (doc : json)
| NotJson
| TooManyDigits
| TooDeep.

End Values.

(** ** The rest of the Python runtime *)

Class PyRuntime {FL : PyFloat} : Type := {
  (** [json.loads(s)] for a [str]. *)
  json_loads : string -> loaded;
  (** [datetime.strptime(s, "%Y-%m-%d").strftime("%b %d, %Y")] for a [str];
      [None] is the [ValueError] of [strptime]. *)
  strptime_strftime : string -> option string
}.

(** ** Exceptions and results *)

Inductive exn : Type :=
| AttributeError
| TypeError
| ValueError
| JSONDecodeError
| OverflowError
| KeyError
| IndexError
| RecursionError.

Inductive result (A : Type) : Type :=
| Ok (a : A)
| Raise (e : exn).
Arguments Ok {A} a.
Arguments Raise {A} e.

Definition bind {A B : Type} (r : result A) (k : A -> result B) : result B :=
  match r with
  | Ok a => k a
  | Raise e => Raise e
  end.

Notation "x <- r ;; k" := (bind r (fun x => k))
  (at level 61, r at next level, k at level 200).
Notation "' p <- r ;; k" := (bind r (fun x => let 'p := x in k))
  (at level 61, p pattern, r at next level, k at level 200).

(** [for x in l: acc = step x acc], where the body can raise. *)
Fixpoint foldM {A S : Type} (step : A -> S -> result S) (l : list A) (s : S)
  : result S :=
  match l with
  | [] => Ok s
  | x :: l' => s' <- step x s ;; foldM step l' s'
  end.

(** A loop inside a [try] whose handler keeps what was written before the
    exception: a step yields the state it reached and the exception it raised,
    if any; the loop stops at the first exception. *)
Fixpoint fold_try {A S : Type} (step : A -> S -> S * option exn) (l : list A) (s : S)
  : S * option exn :=
  match l with
  | [] => (s, None)
  | x :: l' =>
      match step x s with
      | (s', None) => fold_try step l' s'
      | (s', Some e) => (s', Some e)
      end
  end.

(** A step that writes only when it ends normally. *)
Definition attempt {S : Type} (r : result S) (s : S) : S * option exn :=
  match r with
  | Ok s' => (s', None)
  | Raise e => (s, Some e)
  end.

(** ** Strings *)

Definition chars (s : string) : list ascii := list_ascii_of_string s.
Definition of_chars (l : list ascii) : string := string_of_list_ascii l.

Definition code (c : ascii) : nat := nat_of_ascii c.

(** [c.isspace()] on the code points below 256. *)
Definition is_space (c : ascii) : bool :=
  let n := code c in
  ((9 <=? n) && (n <=? 13) || (28 <=? n) && (n <=? 32)
   || (n =? 133) || (n =? 160))%nat.

Fixpoint drop_while (p : ascii -> bool) (l : list ascii) : list ascii :=
  match l with
  | [] => []
  | c :: l' => if p c then drop_while p l' else l
  end.

Definition strip_with (p : ascii -> bool) (s : string) : string :=
  of_chars (rev (drop_while p (rev (drop_while p (chars s))))).

(** [s.strip()] *)
Definition strip (s : string) : string := strip_with is_space s.

(** [s.strip(', ')] *)
Definition strip_comma_space (s : string) : string :=
  strip_with (fun c => Ascii.eqb c "," || Ascii.eqb c " ")%char s.

Definition nonempty (s : string) : bool :=
  match s with
  | EmptyString => false
  | String _ _ => true
  end.

Fixpoint is_prefix (p s : string) : bool :=
  match p, s with
  | EmptyString, _ => true
  | String a p', String b s' => Ascii.eqb a b && is_prefix p' s'
  | String _ _, EmptyString => false
  end.

(** [needle in s] on two strings. *)
Fixpoint substring_in (needle s : string) : bool :=
  is_prefix needle s ||
  match s with
  | EmptyString => false
  | String _ s' => substring_in needle s'
  end.

(** [sep.join(parts)] on strings. *)
Fixpoint join (sep : string) (parts : list string) : string :=
  match parts with
  | [] => ""
  | [p] => p
  | p :: rest => p ++ sep ++ join sep rest
  end.

(** [str(n)] for an [int]. *)
Definition string_of_Z (z : Z) : string := NilZero.string_of_int (Z.to_int z).

Definition hex_digit (n : nat) : ascii :=
  ascii_of_nat (if (n <? 10)%nat then 48 + n else 87 + n).

(** [repr(s)] for a [str]: the quote is the double quote when [s] has a single
    quote and no double quote, the single quote otherwise; backslash, the
    quote, tab, newline and carriage return are escaped, and so is every
    non-printable code point, as [\xhh]. *)
Definition printable (c : ascii) : bool :=
  let n := code c in
  ((32 <=? n) && (n <? 127) || (161 <=? n) && negb (n =? 173))%nat.

Definition has_char (c : ascii) (s : string) : bool :=
  existsb (Ascii.eqb c) (chars s).

Definition double_quote : ascii := ascii_of_nat 34.

Definition repr_quote (s : string) : ascii :=
  if has_char "'"%char s && negb (has_char double_quote s)
  then double_quote else "'"%char.

Definition repr_char (q c : ascii) : list ascii :=
  let n := code c in
  if Ascii.eqb c q || Ascii.eqb c "\"%char then ["\"%char; c]
  else if (n =? 9)%nat then ["\"%char; "t"%char]
  else if (n =? 10)%nat then ["\"%char; "n"%char]
  else if (n =? 13)%nat then ["\"%char; "r"%char]
  else if printable c then [c]
  else ["\"%char; "x"%char; hex_digit (n / 16); hex_digit (n mod 16)].

Definition repr_str (s : string) : string :=
  let q := repr_quote s in
  of_chars (q :: flat_map (repr_char q) (chars s) ++ [q])%list.

(** ** Python operations on JSON-shaped values *)

Section Python.
Context {FL : PyFloat} {RT : PyRuntime}.

(** [bool(v)] *)
Definition truthy (v : json) : bool :=
  match v with
  | JNull => false
  | JBool b => b
  | JInt z => negb (Z.eqb z 0)
  | JFloat f => float_nonzero f
  | JStr s => nonempty s
  | JArr l => match l with [] => false | _ => true end
  | JObj d => match d with [] => false | _ => true end
  end.

(** [a or b] *)
Definition py_or (a b : json) : json := if truthy a then a else b.

(** [isinstance(v, dict)], [isinstance(v, list)] *)
Definition is_dict (v : json) : bool :=
  match v with JObj _ => true | _ => false end.
Definition is_list (v : json) : bool :=
  match v with JArr _ => true | _ => false end.

(** [d.get(k)] on a dict. *)
Fixpoint dict_get (d : dict) (k : string) : option json :=
  match d with
  | [] => None
  | (k', v) :: d' => if String.eqb k' k then Some v else dict_get d' k
  end.

(** [d[k] = v] on a dict: the binding is replaced in place, or appended. *)
Fixpoint dict_set (d : dict) (k : string) (v : json) : dict :=
  match d with
  | [] => [(k, v)]
  | (k', v') :: d' =>
      if String.eqb k' k then (k', v) :: d' else (k', v') :: dict_set d' k v
  end.

(** [v.get(k, default)]: only a dict has [get]. *)
Definition get_or (v : json) (k : string) (default : json) : result json :=
  match v with
  | JObj d => Ok (match dict_get d k with Some x => x | None => default end)
  | _ => Raise AttributeError
  end.

(** [v.get(k)] *)
Definition get (v : json) (k : string) : result json := get_or v k JNull.

(** [v.get(k) or {}], [v.get(k, {})], [v.get(k, [])], [v.get(k, "")] *)
Definition get_dict (v : json) (k : string) : result json := get_or v k (JObj []).
Definition get_list (v : json) (k : string) : result json := get_or v k (JArr []).
Definition get_str (v : json) (k : string) : result json := get_or v k (JStr "").

(** [if isinstance(v, dict): v = [v]] *)
Definition wrap_dict (v : json) : json :=
  match v with
  | JObj _ => JArr [v]
  | _ => v
  end.

(** [for x in v]: the items a [for] loop visits. *)
Definition iter (v : json) : result (list json) :=
  match v with
  | JArr l => Ok l
  | JStr s => Ok (map (fun c => JStr (String c "")) (chars s))
  | JObj d => Ok (map (fun kv => JStr (fst kv)) d)
  | _ => Raise TypeError
  end.

(** [v[0]] *)
Definition index0 (v : json) : result json :=
  match v with
  | JArr (x :: _) => Ok x
  | JArr [] => Raise IndexError
  | JStr (String c _) => Ok (JStr (String c ""))
  | JStr EmptyString => Raise IndexError
  | JObj _ => Raise KeyError
  | _ => Raise TypeError
  end.

(** The numeric reading of a value: [bool] is a subtype of [int]. *)
Definition as_num (v : json) : option (Z + pyfloat) :=
  match v with
  | JBool b => Some (inl (if b then 1 else 0)%Z)
  | JInt z => Some (inl z)
  | JFloat f => Some (inr f)
  | _ => None
  end.

Definition num_eqb (a b : Z + pyfloat) : bool :=
  match a, b with
  | inl x, inl y => Z.eqb x y
  | inr f, inr g => float_eqb f g
  | inr f, inl y => float_eq_int f y
  | inl x, inr g => float_eq_int g x
  end.

(** [a == b] *)
Fixpoint py_eq (a b : json) : bool :=
  match a, b with
  | JNull, JNull => true
  | JStr s, JStr t => String.eqb s t
  | JArr l, JArr m =>
      (fix all2 (l m : list json) : bool :=
         match l, m with
         | [], [] => true
         | x :: l', y :: m' => py_eq x y && all2 l' m'
         | _, _ => false
         end) l m
  | JObj d, JObj e =>
      Nat.eqb (length d) (length e) &&
      (fix sub (d : list (string * json)) : bool :=
         match d with
         | [] => true
         | (k, v) :: d' =>
             match dict_get e k with
             | Some w => py_eq v w && sub d'
             | None => false
             end
         end) d
  | _, _ =>
      match as_num a, as_num b with
      | Some x, Some y => num_eqb x y
      | _, _ => false
      end
  end.

(** [str(v)] and [repr(v)] *)
Fixpoint py_repr (v : json) : string :=
  match v with
  | JNull => "None"
  | JBool true => "True"
  | JBool false => "False"
  | JInt z => string_of_Z z
  | JFloat f => float_repr f
  | JStr s => repr_str s
  | JArr l => "[" ++ join ", " (map py_repr l) ++ "]"
  | JObj d =>
      "{" ++ join ", " (map (fun kv => repr_str (fst kv) ++ ": " ++ py_repr (snd kv)) d)
          ++ "}"
  end.

Definition py_str (v : json) : string :=
  match v with
  | JStr s => s
  | _ => py_repr v
  end.

(** [needle in v] for a string [needle]: substring of a [str], member of a
    [list], key of a [dict]; anything else is not iterable. *)
Definition str_in (needle : string) (v : json) : result bool :=
  match v with
  | JStr s => Ok (substring_in needle s)
  | JArr l => Ok (existsb (py_eq (JStr needle)) l)
  | JObj d => Ok (existsb (fun kv => String.eqb needle (fst kv)) d)
  | _ => Raise TypeError
  end.

(** [v.strip()]: only a [str] has [strip]. *)
Definition py_strip (v : json) : result string :=
  match v with
  | JStr s => Ok (strip s)
  | _ => Raise AttributeError
  end.

(** [sep.join(parts)]: every item must be a [str]. *)
Fixpoint strs (parts : list json) : result (list string) :=
  match parts with
  | [] => Ok []
  | JStr s :: rest => l <- strs rest ;; Ok (s :: l)
  | _ :: _ => Raise TypeError
  end.

Definition py_join (sep : string) (parts : list json) : result string :=
  l <- strs parts ;; Ok (join sep l).

(** [float(v)] *)
Definition py_float (v : json) : result pyfloat :=
  match v with
  | JBool b =>
      match float_of_int (if b then 1 else 0)%Z with
      | Some f => Ok f
      | None => Raise OverflowError
      end
  | JInt z =>
      match float_of_int z with
      | Some f => Ok f
      | None => Raise OverflowError
      end
  | JFloat f => Ok f
  | JStr s =>
      match float_of_str s with
      | Some f => Ok f
      | None => Raise ValueError
      end
  | _ => Raise TypeError
  end.

End Python.

(** ** The program: main.py, [normalize_report] *)

(** What [normalize_report] prints. *)
Inductive warning : Type :=
| WarnRawReport (e : exn)        (* "Warning: Could not parse rawReport JSON" *)
| WarnCreditScores (e : exn)     (* "... extract scores from rawReport CreditScore array" *)
| WarnBureauReports (e : exn).   (* "... extract additional accounts from rawReport bureau reports" *)

(** The value [normalize_report] returns: the dict [normalized], one field per
    key. *)
Record report {FL : PyFloat} : Type := mkReport {
  personal_info : json;
  scores : dict;
  accounts : list json;
  inquiries : list json;
  public_records : list json;
  employers : list json
}.
Arguments mkReport {FL} _ _ _ _ _ _.

Section Program.
Context {FL : PyFloat} {RT : PyRuntime}.

(** [a or <b>], where evaluating [b] can raise. *)
Definition or_else (a : json) (b : result json) : result json :=
  if truthy a then Ok a else b.

(** main.py 55-61 *)
Definition safe_number (val : json) : result json :=
  match val with
  | JNull => Ok JNull
  | _ =>
      if py_eq val (JStr "") then Ok JNull
      else
        match py_float val with
        | Ok f => Ok (JFloat f)
        | Raise TypeError => Ok JNull
        | Raise ValueError => Ok JNull
        | Raise e => Raise e
        end
  end.

(** main.py 63-66 *)
Definition safe_string (val : json) : json :=
  match val with
  | JNull => JNull
  | _ => if nonempty (strip (py_str val)) then JStr (strip (py_str val)) else JNull
  end.

(** [safe_number(x) if x else None] *)
Definition number_if (x : json) : result json :=
  if truthy x then safe_number x else Ok JNull.

(** [{"description": safe_string(t)} if t else None] *)
Definition type_obj (t : json) : json :=
  if truthy t then JObj [("description", safe_string t)] else JNull.

(** *** Locating the borrower block (main.py 93-104 and 114-125) *)

(** The locals [true_link] and [borrower]. *)
Definition locals : Type := (json * json)%type.

(** The loop over the component list.  It assigns [true_link] before it reads
    the borrower out of it, so an exception there leaves [true_link] set. *)
Fixpoint find_merged (comps : list json) (st : locals) : locals * option exn :=
  match comps with
  | [] => (st, None)
  | comp :: rest =>
      match get comp "Type" with
      | Raise e => (st, Some e)
      | Ok t =>
          if py_eq t (JStr "MergeCreditReports") then
            match get_dict comp "TrueLinkCreditReportType" with
            | Raise e => (st, Some e)
            | Ok tl =>
                match get_dict tl "Borrower" with
                | Raise e => ((tl, snd st), Some e)
                | Ok b => ((tl, b), None)
                end
            end
          else find_merged rest st
      end
  end.

Definition lookup_merged (doc : json) (st : locals) : locals * option exn :=
  match get_dict doc "BundleComponents" with
  | Raise e => (st, Some e)
  | Ok bundle_components =>
      if is_dict bundle_components then
        match get_list bundle_components "BundleComponent" with
        | Raise e => (st, Some e)
        | Ok bundle_component_list =>
            match iter (wrap_dict bundle_component_list) with
            | Raise e => (st, Some e)
            | Ok comps => find_merged comps st
            end
        end
      else (st, None)
  end.

(** [json.loads(v)] *)
Definition loads (v : json) : result json :=
  match v with
  | JStr s =>
      match json_loads s with
      | Document doc => Ok doc
      | NotJson => Raise JSONDecodeError
      | TooManyDigits => Raise ValueError
      | TooDeep => Raise RecursionError
      end
  | _ => Raise TypeError
  end.

(** [except (json.JSONDecodeError, AttributeError, TypeError)] *)
Definition parse_handler (e : exn) : bool :=
  match e with
  | JSONDecodeError | AttributeError | TypeError => true
  | _ => false
  end.

(** main.py 87-107: the [try] around the parse of [rawReport].  The result is
    the locals, what was printed, and the exception the handler let through. *)
Definition parse_raw_report (raw_report_str : json)
  : locals * list warning * option exn :=
  if truthy raw_report_str then
    let '(st, oe) :=
      match loads raw_report_str with
      | Raise e => ((JNull, JNull), Some e)
      | Ok raw_report_data => lookup_merged raw_report_data (JNull, JNull)
      end in
    match oe with
    | None => (st, [], None)
    | Some e =>
        if parse_handler e then (st, [WarnRawReport e], None)
        else (st, [], Some e)
    end
  else ((JNull, JNull), [], None).

(** *** Personal info (main.py 127-278) *)

Definition name_fields (name_data : json) : result (json * json * json) :=
  first <- get_str name_data "first" ;;
  middle <- get_str name_data "middle" ;;
  last <- get_str name_data "last" ;;
  Ok (first, middle, last).

(** [" ".join([p for p in parts if p]).strip()] *)
Definition join_name (parts : list json) : result json :=
  s <- py_join " " (filter truthy parts) ;;
  Ok (JStr (strip s)).

(** main.py 136-140: the first name object typed "Primary", or [None]. *)
Fixpoint find_primary (names : list json) : result json :=
  match names with
  | [] => Ok JNull
  | name_obj :: rest =>
      name_type <- get_dict name_obj "NameType" ;;
      abbreviation <- get name_type "abbreviation" ;;
      if py_eq abbreviation (JStr "Primary") then Ok name_obj
      else find_primary rest
  end.

(** main.py 133-152 *)
Definition name_from_array (names name : json) : result json :=
  match names with
  | JArr (n0 :: rest) =>
      primary_name <- find_primary (n0 :: rest) ;;
      primary_name <- (if negb (truthy primary_name) then index0 names
                       else Ok primary_name) ;;
      if truthy primary_name then
        name_data <- get_dict primary_name "Name" ;;
        '(first, middle, last) <- name_fields name_data ;;
        join_name (if truthy middle then [first; middle; last] else [first; last])
      else Ok name
  | _ => Ok name
  end.

(** main.py 155-165 *)
Definition name_from_first (names name : json) : result json :=
  match names with
  | JArr (first_name_obj :: _) =>
      if negb (truthy name) && is_dict first_name_obj then
        name_data <- get_dict first_name_obj "Name" ;;
        if truthy name_data then
          '(first, middle, last) <- name_fields name_data ;;
          join_name [first; middle; last]
        else Ok name
      else Ok name
  | _ => Ok name
  end.

(** main.py 168-172 *)
Definition name_from_fields (borrower name : json) : result json :=
  if negb (truthy name) then
    f <- get borrower "firstName" ;;
    first_name <- or_else f (get borrower "FirstName") ;;
    l <- get borrower "lastName" ;;
    last_name <- or_else l (get borrower "LastName") ;;
    if truthy first_name && truthy last_name
    then Ok (JStr (py_str first_name ++ " " ++ py_str last_name))
    else Ok name
  else Ok name.

(** main.py 177-186: the loop over a [name] that is still a list. *)
Fixpoint name_of_items (items : list json) (name : json) : result json :=
  match items with
  | [] => Ok name
  | name_item :: rest =>
      if is_dict name_item then
        name_data <- get_dict name_item "Name" ;;
        if truthy name_data then
          '(first, middle, last) <- name_fields name_data ;;
          join_name [first; middle; last]
        else name_of_items rest name
      else name_of_items rest name
  end.

(** main.py 129-186 *)
Definition extract_name (borrower : json) : result json :=
  name <- get borrower "BorrowerName" ;;
  name <- (if negb (truthy name) then
             names <- get_list borrower "Name" ;;
             name <- name_from_array names name ;;
             name <- name_from_first names name ;;
             name_from_fields borrower name
           else Ok name) ;;
  match name with
  | JArr items => name_of_items items name
  | _ => Ok name
  end.

(** main.py 189-191 *)
Definition extract_ssn (borrower : json) : result json :=
  a <- get borrower "SocialSecurityNumber" ;;
  or_else a (
    b <- get borrower "ssn" ;;
    or_else b (
      sp <- get borrower "SocialPartition" ;;
      get (py_or sp (JObj [])) "Social")).

(** [credit_addr.get(k, "").strip()] *)
Definition get_stripped (credit_addr : json) (k : string) : result string :=
  v <- get_str credit_addr k ;;
  py_strip v.

(** main.py 194-226 *)
Definition extract_address (borrower : json) : result json :=
  addresses <- get_list borrower "BorrowerAddress" ;;
  let addresses := wrap_dict addresses in
  if truthy addresses then
    addr_obj <- index0 addresses ;;
    credit_addr <- get_dict addr_obj "CreditAddress" ;;
    unparsed <- get credit_addr "unparsedStreet" ;;
    street <- (if truthy unparsed then get_stripped credit_addr "unparsedStreet"
               else
                 house_num <- get_str credit_addr "houseNumber" ;;
                 direction <- get_str credit_addr "direction" ;;
                 street_name <- get_str credit_addr "streetName" ;;
                 street_type <- get_str credit_addr "streetType" ;;
                 py_join " " (filter truthy
                                [house_num; direction; street_name; street_type])) ;;
    city <- get_stripped credit_addr "city" ;;
    state <- get_stripped credit_addr "stateCode" ;;
    postal <- get_stripped credit_addr "postalCode" ;;
    let address_parts := filter nonempty [street; city; state; postal] in
    Ok (match address_parts with
        | [] => JNull
        | _ => JStr (join ", " address_parts)
        end)
  else Ok JNull.

(** main.py 229-235 *)
Definition extract_birth_date (borrower : json) : result json :=
  birth_dates <- get_list borrower "Birth" ;;
  let birth_dates := wrap_dict birth_dates in
  if truthy birth_dates then
    b0 <- index0 birth_dates ;;
    get b0 "date"
  else Ok JNull.

(** main.py 262-269: the truthy street components, in order. *)
Fixpoint street_parts (credit_address : json) (keys : list string)
  : result (list json) :=
  match keys with
  | [] => Ok []
  | k :: rest =>
      v <- get credit_address k ;;
      l <- street_parts credit_address rest ;;
      Ok (if truthy v then v :: l else l)
  end.

(** main.py 251-278: one entry of [previous_addresses]. *)
Definition previous_address (prev_addr : json) : result json :=
  credit_address <- get_dict prev_addr "CreditAddress" ;;
  source <- get_dict prev_addr "Source" ;;
  bureau_info <- get_dict source "Bureau" ;;
  description <- get bureau_info "description" ;;
  bureau_name <- or_else description (get bureau_info "symbol") ;;
  unparsed <- get credit_address "unparsedStreet" ;;
  street <- (if truthy unparsed
             then u <- get_str credit_address "unparsedStreet" ;; Ok (py_str u)
             else
               parts <- street_parts credit_address
                          ["houseNumber"; "direction"; "streetName"; "streetType"] ;;
               py_join " " parts) ;;
  city <- get_str credit_address "city" ;;
  state <- get_str credit_address "stateCode" ;;
  postal <- get_str credit_address "postalCode" ;;
  let addr_str :=
    strip_comma_space
      (street ++ ", " ++ py_str city ++ ", " ++ py_str state ++ ", " ++ py_str postal) in
  date_reported <- get prev_addr "dateReported" ;;
  Ok (JObj [("address", if nonempty (strip_comma_space addr_str)
                        then safe_string (JStr addr_str) else JNull);
            ("date_reported", safe_string date_reported);
            ("bureau", safe_string bureau_name)]).

(** [for x in l: out.append(f(x))] *)
Definition appendM {A : Type} (f : A -> result json) (l : list A) (out : list json)
  : result (list json) :=
  foldM (fun x acc => y <- f x ;; Ok (acc ++ [y])%list) l out.

(** main.py 127-278: the value of [normalized["personal_info"]]. *)
Definition extract_personal_info (borrower : json) : result json :=
  name <- extract_name borrower ;;
  ssn <- extract_ssn borrower ;;
  address_str <- extract_address borrower ;;
  birth_date <- extract_birth_date borrower ;;
  prev_addresses <- get_list borrower "PreviousAddress" ;;
  items <- iter (wrap_dict prev_addresses) ;;
  previous <- appendM previous_address items [] ;;
  Ok (JObj [("name", safe_string name);
            ("ssn", safe_string ssn);
            ("dateOfBirth", safe_string birth_date);
            ("address", address_str);
            ("previous_addresses", JArr previous)]).

(** *** Scores (main.py 282-318) *)

(** main.py 287-296 *)
Definition bundle_score (comp : json) (scores : dict) : result dict :=
  bureau <- get comp "Type" ;;
  c <- get comp "CreditScoreType" ;;
  let cs := py_or c (JObj []) in
  r <- get cs "riskScore" ;;
  score <- or_else r (get cs "score") ;;
  if truthy score && truthy bureau then
    tuc <- str_in "TUC" bureau ;;
    if tuc then Ok (dict_set scores "TransUnion" score)
    else
      eqf <- str_in "EQF" bureau ;;
      if eqf then Ok (dict_set scores "Equifax" score)
      else
        exp <- str_in "EXP" bureau ;;
        if exp then Ok (dict_set scores "Experian" score)
        else Ok scores
  else Ok scores.

(** main.py 283-296 *)
Definition bundle_scores (cr_json : json) (scores : dict) : result dict :=
  bc <- get cr_json "BundleComponents" ;;
  comps <- get_list (py_or bc (JObj [])) "BundleComponent" ;;
  comps <- iter (wrap_dict comps) ;;
  foldM bundle_score comps scores.

(** [bureau_symbol == sym or (bureau_name and descr in bureau_name)] *)
Definition bureau_is (bureau_symbol bureau_name : json) (sym descr : string)
  : result bool :=
  if py_eq bureau_symbol (JStr sym) then Ok true
  else if truthy bureau_name then str_in descr bureau_name
  else Ok false.

(** main.py 304-316 *)
Definition credit_score (cs : json) (scores : dict) : result dict :=
  score_value <- get cs "riskScore" ;;
  source <- get_dict cs "Source" ;;
  bureau_info <- get_dict source "Bureau" ;;
  bureau_symbol <- get bureau_info "symbol" ;;
  bureau_name <- get bureau_info "description" ;;
  if truthy score_value && truthy bureau_symbol then
    tuc <- bureau_is bureau_symbol bureau_name "TUC" "TransUnion" ;;
    if tuc then Ok (dict_set scores "TransUnion" score_value)
    else
      eqf <- bureau_is bureau_symbol bureau_name "EQF" "Equifax" ;;
      if eqf then Ok (dict_set scores "Equifax" score_value)
      else
        exp <- bureau_is bureau_symbol bureau_name "EXP" "Experian" ;;
        if exp then Ok (dict_set scores "Experian" score_value)
        else Ok scores
  else Ok scores.

(** main.py 299-318: the pass over the borrower's [CreditScore] array, inside
    [try ... except Exception]. *)
Definition credit_scores (raw_report_str borrower : json) (scores : dict)
  : dict * list warning :=
  if truthy raw_report_str && truthy borrower then
    let '(scores', oe) :=
      match get_list borrower "CreditScore" with
      | Raise e => (scores, Some e)
      | Ok (JArr l) => fold_try (fun cs s => attempt (credit_score cs s) s) l scores
      | Ok _ => (scores, None)
      end in
    (scores', match oe with Some e => [WarnCreditScores e] | None => [] end)
  else (scores, []).

(** *** Accounts, pass 1: the trades endpoint (main.py 321-423) *)

Definition trade_account (trade : json) : result json :=
  i <- get trade "institution" ;;
  let inst := py_or i (JObj []) in
  institution_name <- get inst "name" ;;
  ato <- get trade "accountTypeObj" ;;
  let account_type_obj := py_or ato (JObj []) in
  account_type_display <- get trade "accountTypeDisplay" ;;
  account_type_description <- get account_type_obj "description" ;;
  account_type <- or_else account_type_display
                    (or_else account_type_description (get trade "accountType")) ;;
  mca <- get trade "memberCodeAccount" ;;
  let member_code_account := py_or mca (JObj []) in
  cc <- get member_code_account "creditorContact" ;;
  let creditor_contact := py_or cc (JObj []) in
  bureau <- get creditor_contact "creditorContactSource" ;;
  bureau <- (if negb (truthy bureau) then
               ccd <- get trade "creditorContact" ;;
               get (py_or ccd (JObj [])) "creditorContactSource"
             else Ok bureau) ;;
  bureau <- (if negb (truthy bureau) then
               b <- get trade "bureau" ;;
               or_else b (src <- get trade "source" ;;
                          or_else src (get trade "reportingBureau"))
             else Ok bureau) ;;
  st <- get trade "accountStatus" ;;
  account_status <- or_else st (get trade "currentAccountRatingDisplay") ;;
  current_balance <- get trade "currentBalanceAmount" ;;
  credit_limit <- get trade "creditLimitAmount" ;;
  high_credit <- get trade "highCreditAmount" ;;
  od <- get trade "openDateFormatted" ;;
  open_date <- or_else od (get trade "openDate") ;;
  closed_date <- get trade "closedDate" ;;
  account_number <- get trade "maskedAccountNumber" ;;
  tmp <- get trade "termsMonthlyPayment" ;;
  payment_amount <- or_else tmp (get trade "scheduledMonthlyPayment") ;;
  last_reported <- get trade "lastReported" ;;
  member_code <- get trade "memberCode" ;;
  payment_history <- get trade "paymentHistory" ;;
  times_30_late <- get trade "times30Late" ;;
  times_60_late <- get trade "times60Late" ;;
  times_90_late <- get trade "times90Late" ;;
  account_age <- get trade "accountAge" ;;
  late30 <- safe_number times_30_late ;;
  late60 <- safe_number times_60_late ;;
  late90 <- safe_number times_90_late ;;
  balance <- number_if current_balance ;;
  limit <- number_if credit_limit ;;
  high <- number_if high_credit ;;
  payment <- number_if payment_amount ;;
  Ok (JObj [
    ("institution", JObj [("name", safe_string institution_name)]);
    ("accountTypeObj", type_obj account_type);
    ("accountType", safe_string account_type);
    ("accountStatus", safe_string account_status);
    ("currentBalanceAmount", safe_string current_balance);
    ("creditLimitAmount", safe_string credit_limit);
    ("currentAccountRatingDisplay", safe_string account_status);
    ("openDateFormatted", safe_string open_date);
    ("maskedAccountNumber", safe_string account_number);
    ("highCreditAmount", safe_string high_credit);
    ("termsMonthlyPayment", safe_string payment_amount);
    ("paymentHistory", safe_string payment_history);
    ("times30Late", late30);
    ("times60Late", late60);
    ("times90Late", late90);
    ("creditorContactSource", safe_string bureau);
    ("bureau", safe_string bureau);
    ("lastReported", safe_string last_reported);
    ("accountAge", safe_string account_age);
    ("dateClosed", safe_string closed_date);
    ("memberCode", safe_string member_code);
    ("account_type", safe_string account_type);
    ("status", safe_string account_status);
    ("balance", balance);
    ("credit_limit", limit);
    ("high_balance", high);
    ("open_date", safe_string open_date);
    ("closed_date", safe_string closed_date);
    ("payment_amount", payment);
    ("account_number", safe_string account_number);
    ("last_reported", safe_string last_reported);
    ("account_age", safe_string account_age)]).

(** main.py 321-423 *)
Definition trade_accounts (raw : dict) (accts : list json) : result (list json) :=
  let t := match dict_get raw "trades" with Some v => v | None => JNull end in
  trades <- get_list (py_or t (JObj [])) "trades" ;;
  trades <- iter (wrap_dict trades) ;;
  appendM trade_account trades accts.

(** *** Accounts, passes 2 and 3: what the two passes share *)

(** main.py 452-457 and 574-579 *)
Definition creditor_name_of (tradeline : json) : result json :=
  a <- get tradeline "creditorName" ;;
  or_else a (
    b <- get tradeline "creditor_name" ;;
    or_else b (
      c <- get tradeline "institutionName" ;;
      or_else c (
        d <- get tradeline "institution_name" ;;
        or_else d (
          e <- get tradeline "lenderName" ;;
          or_else e (get tradeline "subscriberName"))))).

(** main.py 459 and 581 *)
Definition account_number_of (tradeline : json) : result json :=
  a <- get tradeline "accountNumber" ;;
  or_else a (get tradeline "maskedAccountNumber").

(** main.py 463-464 and 583 *)
Definition account_status_of (tradeline : json) : result json :=
  a <- get tradeline "accountStatus" ;;
  or_else a (c <- get_dict tradeline "accountCondition" ;; get c "description").

(** [a.get(k1) or a.get(k2)] *)
Definition get2 (v : json) (k1 k2 : string) : result json :=
  a <- get v k1 ;;
  or_else a (get v k2).

(** main.py 479-485 and 487-493: an ISO date is rewritten, anything that
    [strptime] refuses stays as it is. *)
Definition reformat_date (d : json) : json :=
  if truthy d && substring_in "-" (py_str d) then
    match d with
    | JStr s =>
        match strptime_strftime s with
        | Some s' => JStr s'
        | None => d
        end
    | _ => d
    end
  else d.

(** *** Accounts, pass 2: the tradeline partition (main.py 427-547) *)

(** main.py 538-544: the duplicate check of pass 2. *)
Fixpoint is_duplicate (accts : list json) (account_number creditor_name bureau_symbol : json)
  : result bool :=
  match accts with
  | [] => Ok false
  | existing_acct :: rest =>
      m <- get existing_acct "maskedAccountNumber" ;;
      hit <- (if py_eq m account_number then
                inst <- get_dict existing_acct "institution" ;;
                n <- get inst "name" ;;
                if py_eq n creditor_name then
                  b <- get existing_acct "bureau" ;;
                  Ok (py_eq b bureau_symbol)
                else Ok false
              else Ok false) ;;
      if hit then Ok true
      else is_duplicate rest account_number creditor_name bureau_symbol
  end.

(** main.py 441-547: the body of the loop over the tradelines of one
    partition item. *)
Definition partition_tradeline (partition_item tradeline : json) (accts : list json)
  : result (list json) :=
  if negb (is_dict tradeline) then Ok accts
  else
    source <- get_dict tradeline "Source" ;;
    bureau_info <- get_dict source "Bureau" ;;
    bureau_symbol <- get bureau_info "symbol" ;;
    bureau_name <- get bureau_info "description" ;;
    creditor_name <- creditor_name_of tradeline ;;
    account_number <- account_number_of tradeline ;;
    aty <- get tradeline "accountType" ;;
    account_type <- or_else aty (
                      atd <- get tradeline "accountTypeDescription" ;;
                      or_else atd (get partition_item "accountTypeDescription")) ;;
    account_status <- account_status_of tradeline ;;
    current_balance <- get2 tradeline "currentBalance" "balanceAmount" ;;
    credit_limit <- get2 tradeline "creditLimit" "creditLimitAmount" ;;
    high_balance <- get2 tradeline "highBalance" "highCreditAmount" ;;
    open_date <- get2 tradeline "dateOpened" "openDate" ;;
    close_date <- get2 tradeline "dateClosed" "closedDate" ;;
    last_reported <- get2 tradeline "dateReported" "lastReported" ;;
    let open_date := reformat_date open_date in
    let close_date := reformat_date close_date in
    balance <- number_if current_balance ;;
    limit <- number_if credit_limit ;;
    high <- number_if high_balance ;;
    let tradeline_acct := JObj [
      ("institution", JObj [("name", safe_string creditor_name)]);
      ("accountTypeObj", type_obj account_type);
      ("accountType", safe_string account_type);
      ("accountStatus", safe_string account_status);
      ("currentBalanceAmount", safe_string current_balance);
      ("creditLimitAmount", safe_string credit_limit);
      ("currentAccountRatingDisplay", safe_string account_status);
      ("openDateFormatted", safe_string open_date);
      ("maskedAccountNumber", safe_string account_number);
      ("highCreditAmount", safe_string high_balance);
      ("termsMonthlyPayment", JNull);
      ("paymentHistory", JNull);
      ("times30Late", JNull);
      ("times60Late", JNull);
      ("times90Late", JNull);
      ("creditorContactSource", safe_string bureau_symbol);
      ("bureau", safe_string bureau_symbol);
      ("lastReported", safe_string last_reported);
      ("accountAge", JNull);
      ("dateClosed", safe_string close_date);
      ("memberCode", JNull);
      ("account_type", safe_string account_type);
      ("status", safe_string account_status);
      ("balance", balance);
      ("credit_limit", limit);
      ("high_balance", high);
      ("open_date", safe_string open_date);
      ("closed_date", safe_string close_date);
      ("payment_amount", JNull);
      ("account_number", safe_string account_number);
      ("last_reported", safe_string last_reported);
      ("account_age", JNull)] in
    is_dup <- is_duplicate accts account_number creditor_name bureau_symbol ;;
    Ok (if negb is_dup && truthy creditor_name && truthy account_number
        then (accts ++ [tradeline_acct])%list
        else accts).

(** main.py 433-439: the tradelines of one partition item. *)
Definition tradelines_of (tradeline_data : json) : list json :=
  match tradeline_data with
  | JArr l => l
  | _ => if truthy tradeline_data then [tradeline_data] else []
  end.

Definition partition_item_accounts (partition_item : json) (accts : list json)
  : result (list json) :=
  tradeline_data <- get_dict partition_item "Tradeline" ;;
  foldM (partition_tradeline partition_item) (tradelines_of tradeline_data) accts.

(** main.py 427-547 *)
Definition partition_accounts (true_link : json) (accts : list json)
  : result (list json) :=
  if truthy true_link then
    tradeline_partition <- get_list true_link "TradeLinePartition" ;;
    items <- iter (wrap_dict tradeline_partition) ;;
    foldM partition_item_accounts items accts
  else Ok accts.

(** *** Accounts, pass 3: the per-bureau reports (main.py 550-633) *)

(** main.py 622-627: the duplicate check of pass 3. *)
Fixpoint is_duplicate_report (accts : list json) (account_number creditor_name : json)
  : result bool :=
  match accts with
  | [] => Ok false
  | existing_acct :: rest =>
      m <- get existing_acct "maskedAccountNumber" ;;
      hit <- (if py_eq m account_number then
                inst <- get_dict existing_acct "institution" ;;
                n <- get inst "name" ;;
                Ok (py_eq n creditor_name)
              else Ok false) ;;
      if hit then Ok true
      else is_duplicate_report rest account_number creditor_name
  end.

(** main.py 572-630: the body of the loop over the tradelines of one bureau
    report. *)
Definition report_tradeline (bureau_symbol : string) (tradeline : json)
  (accts : list json) : result (list json) :=
  creditor_name <- creditor_name_of tradeline ;;
  account_number <- account_number_of tradeline ;;
  account_type <- get2 tradeline "accountType" "accountTypeDescription" ;;
  account_status <- account_status_of tradeline ;;
  current_balance <- get tradeline "currentBalance" ;;
  credit_limit <- get tradeline "creditLimit" ;;
  high_balance <- get tradeline "highBalance" ;;
  open_date <- get tradeline "dateOpened" ;;
  close_date <- get tradeline "dateClosed" ;;
  balance <- number_if current_balance ;;
  limit <- number_if credit_limit ;;
  high <- number_if high_balance ;;
  let additional_acct := JObj [
    ("institution", JObj [("name", safe_string creditor_name)]);
    ("accountTypeObj", type_obj account_type);
    ("accountType", safe_string account_type);
    ("accountStatus", safe_string account_status);
    ("currentBalanceAmount", safe_string current_balance);
    ("creditLimitAmount", safe_string credit_limit);
    ("currentAccountRatingDisplay", safe_string account_status);
    ("openDateFormatted", safe_string open_date);
    ("maskedAccountNumber", safe_string account_number);
    ("highCreditAmount", safe_string high_balance);
    ("creditorContactSource", safe_string (JStr bureau_symbol));
    ("bureau", safe_string (JStr bureau_symbol));
    ("dateClosed", safe_string close_date);
    ("account_type", safe_string account_type);
    ("status", safe_string account_status);
    ("balance", balance);
    ("credit_limit", limit);
    ("high_balance", high);
    ("open_date", safe_string open_date);
    ("closed_date", safe_string close_date);
    ("account_number", safe_string account_number)] in
  is_dup <- is_duplicate_report accts account_number creditor_name ;;
  Ok (if negb is_dup then (accts ++ [additional_acct])%list else accts).

(** main.py 562: [comp_type in ["TUCReportV6", "EQFReportV6", "EXPReportV6"]] *)
Definition is_bureau_report (comp_type : json) : bool :=
  existsb (fun t => py_eq comp_type (JStr t))
          ["TUCReportV6"; "EQFReportV6"; "EXPReportV6"].

(** main.py 563 *)
Definition bureau_symbol_of (comp_type : json) : result string :=
  tuc <- str_in "TUC" comp_type ;;
  if tuc then Ok "TUC"
  else
    eqf <- str_in "EQF" comp_type ;;
    Ok (if eqf then "EQF" else "EXP").

(** main.py 567-570: the tradelines of one bureau report. *)
Definition report_tradelines (comp : json) : result (list json) :=
  report_data <- get_dict comp "CreditReportType" ;;
  t <- get_list report_data "Tradeline" ;;
  tradelines <- or_else t (
                  tr <- get_list report_data "Trade" ;;
                  or_else tr (get_list report_data "Account")) ;;
  iter (wrap_dict tradelines).

(** main.py 560-630: the body of the loop over the components; the accounts
    appended before an exception stay. *)
Definition report_component (comp : json) (accts : list json)
  : list json * option exn :=
  match get comp "Type" with
  | Raise e => (accts, Some e)
  | Ok comp_type =>
      if is_bureau_report comp_type then
        match (bureau_symbol <- bureau_symbol_of comp_type ;;
               tradelines <- report_tradelines comp ;;
               Ok (bureau_symbol, tradelines)) with
        | Raise e => (accts, Some e)
        | Ok (bureau_symbol, tradelines) =>
            fold_try (fun tl a => attempt (report_tradeline bureau_symbol tl a) a)
                     tradelines accts
        end
      else (accts, None)
  end.

(** main.py 552-557: the component list of the parsed payload. *)
Definition payload_components (raw_report_str : json) : result (list json) :=
  raw_report_data <- loads raw_report_str ;;
  bundle_components <- get_dict raw_report_data "BundleComponents" ;;
  if is_dict bundle_components then
    bundle_component_list <- get_list bundle_components "BundleComponent" ;;
    iter (wrap_dict bundle_component_list)
  else Ok [].

(** main.py 550-633, inside [try ... except Exception]. *)
Definition report_accounts (raw_report_str : json) (accts : list json)
  : list json * list warning :=
  if truthy raw_report_str then
    let '(accts', oe) :=
      match payload_components raw_report_str with
      | Raise e => (accts, Some e)
      | Ok comps => fold_try report_component comps accts
      end in
    (accts', match oe with Some e => [WarnBureauReports e] | None => [] end)
  else (accts, []).

(** *** Inquiries (main.py 637-686) *)

Definition endpoint (raw : dict) (k : string) : json :=
  match dict_get raw k with
  | Some v => v
  | None => JNull
  end.

Definition inquiry_entry (bureau business_name inquiry_date type : json) : json :=
  JObj [("bureau", bureau); ("business_name", business_name);
        ("inquiry_date", inquiry_date); ("type", type)].

(** main.py 641-646 *)
Definition search_inquiry (iq : json) : result json :=
  b <- get iq "bureau" ;;
  n <- get iq "subscriberName" ;;
  d <- get iq "inquiryDate" ;;
  t <- get iq "inquiryType" ;;
  Ok (inquiry_entry b n d t).

(** main.py 637-646 *)
Definition search_inquiries (raw : dict) (out : list json) : result (list json) :=
  inqs <- get_list (py_or (endpoint raw "search_results") (JObj [])) "inquiries" ;;
  inqs <- iter (wrap_dict inqs) ;;
  appendM search_inquiry inqs out.

(** main.py 655-669 *)
Definition partition_inquiry (inquiry_item : json) (out : list json)
  : result (list json) :=
  inquiry_data <- get_dict inquiry_item "Inquiry" ;;
  if truthy inquiry_data then
    bureau_name <- get inquiry_data "bureau" ;;
    bureau_name <- (if negb (truthy bureau_name) then
                      source <- get_dict inquiry_data "Source" ;;
                      bureau_info <- get_dict source "Bureau" ;;
                      get2 bureau_info "description" "abbreviation"
                    else Ok bureau_name) ;;
    n <- get inquiry_data "subscriberName" ;;
    d <- get inquiry_data "inquiryDate" ;;
    t <- get inquiry_data "inquiryType" ;;
    Ok (out ++ [inquiry_entry bureau_name n d t])%list
  else Ok out.

(** main.py 649-669 *)
Definition partition_inquiries (true_link : json) (out : list json)
  : result (list json) :=
  if truthy true_link then
    inquiry_partition <- get_list true_link "InquiryPartition" ;;
    items <- iter (wrap_dict inquiry_partition) ;;
    foldM partition_inquiry items out
  else Ok out.

(** main.py 677-686 *)
Definition borrower_inquiry (iq : json) : result json :=
  source <- get_dict iq "Source" ;;
  bureau_info <- get_dict source "Bureau" ;;
  bureau_name <- get2 bureau_info "description" "symbol" ;;
  n <- get2 iq "subscriberName" "businessName" ;;
  d <- get2 iq "inquiryDate" "dateReported" ;;
  t <- get2 iq "inquiryType" "type" ;;
  Ok (inquiry_entry bureau_name n d t).

(** main.py 672-686 *)
Definition borrower_inquiries (borrower : json) (out : list json)
  : result (list json) :=
  if truthy borrower then
    raw_inquiries <- get_list borrower "Inquiry" ;;
    items <- iter (wrap_dict raw_inquiries) ;;
    appendM borrower_inquiry items out
  else Ok out.

(** *** Public records (main.py 689-698) *)

Definition public_record (pr : json) : result json :=
  t <- get pr "type" ;;
  d <- get pr "dateFiled" ;;
  st <- get pr "status" ;;
  a <- get pr "amount" ;;
  amount <- safe_number a ;;
  Ok (JObj [("type", t); ("date_filed", d); ("status", st); ("amount", amount)]).

Definition public_record_entries (raw : dict) (out : list json)
  : result (list json) :=
  prs <- get_list (py_or (endpoint raw "search_results") (JObj [])) "publicRecords" ;;
  prs <- iter (wrap_dict prs) ;;
  appendM public_record prs out.

(** *** Employers (main.py 702-726) *)

Definition employer_entry (name date_reported bureau : json) : json :=
  JObj [("name", name); ("date_reported", date_reported); ("bureau", bureau)].

(** main.py 707-715 *)
Definition borrower_employer (emp : json) : result json :=
  source <- get_dict emp "Source" ;;
  bureau_info <- get_dict source "Bureau" ;;
  bureau_name <- get2 bureau_info "description" "symbol" ;;
  n <- get emp "name" ;;
  d <- get2 emp "dateReported" "dateUpdated" ;;
  Ok (employer_entry n d bureau_name).

(** main.py 702-715 *)
Definition borrower_employers (borrower : json) (out : list json)
  : result (list json) :=
  if truthy borrower then
    emps <- get_list borrower "Employer" ;;
    items <- iter (wrap_dict emps) ;;
    appendM borrower_employer items out
  else Ok out.

(** main.py 722-726 *)
Definition fallback_employer (emp : json) : result json :=
  n <- get2 emp "name" "employerName" ;;
  d <- get2 emp "dateReported" "dateUpdated" ;;
  b <- get emp "bureau" ;;
  Ok (employer_entry n d b).

(** main.py 718-726: [cr_json] is read here without the [isinstance] test of
    the other sections. *)
Definition fallback_employers (cr_json : json) (out : list json)
  : result (list json) :=
  b <- get cr_json "Borrower" ;;
  emps <- get_list (py_or b (JObj [])) "Employer" ;;
  items <- iter (wrap_dict emps) ;;
  appendM fallback_employer items out.

(** *** The function *)

(** A computation that prints: what it printed and how it ended. *)
Definition run (A : Type) : Type := (list warning * result A)%type.

Definition run_bind {A B : Type} (m : run A) (k : A -> run B) : run B :=
  match m with
  | (w, Ok a) => let '(w', r) := k a in ((w ++ w')%list, r)
  | (w, Raise e) => (w, Raise e)
  end.

Definition quiet {A : Type} (r : result A) : run A := ([], r).

Definition printed {A : Type} (p : A * list warning) : run A :=
  (snd p, Ok (fst p)).

Notation "x <~ m ;; k" := (run_bind m (fun x => k))
  (at level 61, m at next level, k at level 200).
Notation "' p <~ m ;; k" := (run_bind m (fun x => let 'p := x in k))
  (at level 61, p pattern, m at next level, k at level 200).

(** main.py 78-107: [raw_report_str], and the locals after the first parse. *)
Definition raw_report_of (cr_json : json) : json :=
  match cr_json with
  | JObj d =>
      match dict_get d "rawReport" with
      | Some v => v
      | None => JNull
      end
  | _ => JNull
  end.

Definition navigate (cr_json : json) : run locals :=
  if is_dict cr_json then
    let '(st, w, oe) := parse_raw_report (raw_report_of cr_json) in
    (w, match oe with
        | None => Ok st
        | Some e => Raise e
        end)
  else quiet (Ok (JNull, JNull)).

(** main.py 110-125: the fallback lookup in the outer document. *)
Definition fallback_lookup (cr_json : json) (st : locals) : result locals :=
  if is_dict cr_json && negb (truthy (snd st)) then
    match lookup_merged cr_json st with
    | (st', None) => Ok st'
    | (_, Some e) => Raise e
    end
  else Ok st.

(** main.py 127-278 *)
Definition personal_section (cr_json borrower : json) : result json :=
  if is_dict cr_json && truthy borrower then extract_personal_info borrower
  else Ok (JObj []).

(** main.py 282-318 *)
Definition score_section (cr_json borrower : json) (scores : dict) : run dict :=
  if is_dict cr_json then
    scores <~ quiet (bundle_scores cr_json scores) ;;
    printed (credit_scores (raw_report_of cr_json) borrower scores)
  else quiet (Ok scores).

(** main.py 320-633 *)
Definition account_section (raw : dict) (raw_report_str true_link : json)
  : run (list json) :=
  accts <~ quiet (trade_accounts raw []) ;;
  accts <~ quiet (partition_accounts true_link accts) ;;
  printed (report_accounts raw_report_str accts).

(** main.py 635-686 *)
Definition inquiry_section (raw : dict) (true_link borrower : json)
  : result (list json) :=
  inqs <- search_inquiries raw [] ;;
  inqs <- partition_inquiries true_link inqs ;;
  borrower_inquiries borrower inqs.

(** main.py 700-726 *)
Definition employer_section (cr_json borrower : json) : result (list json) :=
  emps <- borrower_employers borrower [] ;;
  fallback_employers cr_json emps.

(** main.py 78: [raw.get("credit_report_json", {})] *)
Definition cr_json_of (raw : dict) : json :=
  match dict_get raw "credit_report_json" with
  | Some v => v
  | None => JObj []
  end.

(** main.py 52-728.  [scores or {}] is [scores]: an empty dict is replaced by
    an empty dict. *)
Definition normalize_report (raw : dict) (scores : dict) : run report :=
  let cr_json := cr_json_of raw in
  st <~ navigate cr_json ;;
  '(true_link, borrower) <~ quiet (fallback_lookup cr_json st) ;;
  info <~ quiet (personal_section cr_json borrower) ;;
  scores <~ score_section cr_json borrower scores ;;
  accts <~ account_section raw (raw_report_of cr_json) true_link ;;
  inqs <~ quiet (inquiry_section raw true_link borrower) ;;
  prs <~ quiet (public_record_entries raw []) ;;
  emps <~ quiet (employer_section cr_json borrower) ;;
  quiet (Ok (mkReport info scores accts inqs prs emps)).

End Program.

(** ** The program: main_fixed.py, [normalize_report] *)

(** The text of main_fixed.py 53-386 is that of main.py 52-728 without the
    loop over the previous addresses, the scores section, the second and
    third account passes, the partition and borrower inquiries and the
    borrower employers; what stays is modelled by the definitions above. *)
Module main_fixed.
Section Program.
Context {FL : PyFloat} {RT : PyRuntime}.

Notation "x <~ m ;; k" := (run_bind m (fun x => k))
  (at level 61, m at next level, k at level 200).
Notation "' p <~ m ;; k" := (run_bind m (fun x => let 'p := x in k))
  (at level 61, p pattern, m at next level, k at level 200).

(** main_fixed.py 128-243: the value of [normalized["personal_info"]]. *)
Definition extract_personal_info (borrower : json) : result json :=
  name <- extract_name borrower ;;
  ssn <- extract_ssn borrower ;;
  address_str <- extract_address borrower ;;
  birth_date <- extract_birth_date borrower ;;
  Ok (JObj [("name", safe_string name);
            ("ssn", safe_string ssn);
            ("dateOfBirth", safe_string birth_date);
            ("address", address_str);
            ("previous_addresses", JArr [])]).

Definition personal_section (cr_json borrower : json) : result json :=
  if is_dict cr_json && truthy borrower then extract_personal_info borrower
  else Ok (JObj []).

(** main_fixed.py 53-386 *)
Definition normalize_report (raw : dict) (scores : dict) : run report :=
  let cr_json := cr_json_of raw in
  st <~ navigate cr_json ;;
  '(true_link, borrower) <~ quiet (fallback_lookup cr_json st) ;;
  info <~ quiet (personal_section cr_json borrower) ;;
  accts <~ quiet (trade_accounts raw []) ;;
  inqs <~ quiet (search_inquiries raw []) ;;
  prs <~ quiet (public_record_entries raw []) ;;
  emps <~ quiet (fallback_employers cr_json []) ;;
  quiet (Ok (mkReport info scores accts inqs prs emps)).

End Program.
End main_fixed.

(** ** The program: main.py, [main] *)

Section Main.
Context {FL : PyFloat} {RT : PyRuntime}.

(** main.py 792-814: the handler that runs when the scores cannot be read on
    the page.  [scores] is still the empty dict of line 733 there, and the
    loop is the text of main.py 283-296. *)
Definition main_fallback_scores (aggregated : dict) : result dict :=
  match dict_get aggregated "credit_report_json" with
  | Some cr_json =>
      if is_dict cr_json then bundle_scores cr_json [] else Ok []
  | None => Ok []
  end.

End Main.

(** ** The program: test_normalize.py, [normalize_and_export_test] *)

Module test_normalize.
Section Program.
Context {FL : PyFloat} {RT : PyRuntime}.

(** [v[k]] for a text [k]: a key of a dict; a [str] and a [list] take no text
    index, the other values no index at all. *)
Definition subscript (v : json) (k : string) : result json :=
  match v with
  | JObj d =>
      match dict_get d k with
      | Some x => Ok x
      | None => Raise KeyError
      end
  | _ => Raise TypeError
  end.

(** [len(v)] *)
Definition py_len (v : json) : result nat :=
  match v with
  | JArr l => Ok (List.length l)
  | JStr s => Ok (String.length s)
  | JObj d => Ok (List.length d)
  | _ => Raise TypeError
  end.

(** [acct.get(k, default)] on a dict. *)
Definition dget (acct : dict) (k : string) (default : json) : json :=
  match dict_get acct k with
  | Some v => v
  | None => default
  end.

(** test_normalize.py 21-24: [elif k in raw and "accounts" in raw[k]]. *)
Definition nested_accounts (raw : dict) (k : string) (otherwise : result json)
  : result json :=
  match dict_get raw k with
  | Some v =>
      has <- str_in "accounts" v ;;
      if has then subscript v "accounts" else otherwise
  | None => otherwise
  end.

(** test_normalize.py 15-24 *)
Definition account_data (raw : dict) : result json :=
  match dict_get raw "accounts" with
  | Some (JArr l) => Ok (JArr l)
  | _ => nested_accounts raw "normalized"
           (nested_accounts raw "raw" (Ok (JArr [])))
  end.

(** test_normalize.py 34-38 *)
Definition institution_name_of (acct : dict) : json :=
  let inst := dget acct "institution" JNull in
  if truthy inst && is_dict inst then
    py_or (match inst with
           | JObj d => dget d "name" JNull
           | _ => JNull
           end) (JStr "Unknown")
  else
    let c := dget acct "creditorName" JNull in
    if truthy c then c else JStr "Unknown".

(** test_normalize.py 56-75: a text is replaced by the float it reads as, or
    by 0 when [float] refuses it. *)
Definition clean_amount (v : json) : json :=
  match v with
  | JStr s =>
      match float_of_str s with
      | Some f => JFloat f
      | None => JInt 0
      end
  | _ => v
  end.

(** test_normalize.py 33-75: the record of one account. *)
Definition account_record (acct : dict) : json :=
  JObj [
    ("account_name", institution_name_of acct);
    ("account_number", py_or (dget acct "maskedAccountNumber" JNull)
                             (dget acct "account_number" (JStr "Unknown")));
    ("account_type", py_or (dget acct "accountType" JNull)
                           (dget acct "account_type" (JStr "Unknown")));
    ("status", py_or (dget acct "accountStatus" JNull)
                     (dget acct "status" (JStr "Unknown")));
    ("balance", dget acct "balance" (JInt 0));
    ("credit_limit", clean_amount (py_or (dget acct "creditLimitAmount" JNull)
                                         (dget acct "credit_limit" (JInt 0))));
    ("high_balance", clean_amount (py_or (dget acct "highCreditAmount" JNull)
                                         (dget acct "high_balance" (JInt 0))));
    ("open_date", py_or (dget acct "openDateFormatted" JNull)
                        (dget acct "open_date" (JStr "Unknown")));
    ("monthly_payment", clean_amount (py_or (dget acct "termsMonthlyPayment" JNull)
                                            (dget acct "payment_amount" (JInt 0))));
    ("bureau", dget acct "bureau" (JStr "Unknown"));
    ("member_code", dget acct "memberCode" (JStr "Unknown"))].

(** test_normalize.py 29-77: the loop; an item that is not a dict is
    skipped. *)
Fixpoint account_records (items : list json) : list json :=
  match items with
  | [] => []
  | JObj acct :: rest => account_record acct :: account_records rest
  | _ :: rest => account_records rest
  end.

(** test_normalize.py 9-77: the list [accounts], the rows of the CSV. *)
Definition normalize_and_export_test (raw : dict) : result (list json) :=
  data <- account_data raw ;;
  _ <- py_len data ;;
  items <- iter data ;;
  Ok (account_records items).

End Program.
End test_normalize.
(** ** A runtime to run the program on

    An executable [PyFloat] and [PyRuntime], used to evaluate the program on
    concrete inputs.  Floats are the binary64 values of [SpecFloat]; [float],
    [repr], [json.loads] and the date conversion follow CPython 3.11 with its
    default limits, on the strings of the model: code points below 256.  A
    JSON text with a [\u] escape above 255 denotes a string the model cannot
    hold; this runtime refuses such a text, and no property is evaluated on
    one.  [%Y] prints a year as glibc does, without padding. *)

Module Ref.

Definition b64 (m e : Z) : spec_float := binary_normalize 53 1024 m e false.

Definition is_digit (c : ascii) : bool := ((48 <=? code c) && (code c <=? 57))%nat.

Definition digit (c : ascii) : Z := Z.of_nat (code c) - 48.

Definition number_of (ds : list ascii) : Z :=
  fold_left (fun n c => 10 * n + digit c)%Z ds 0%Z.

Fixpoint span (p : ascii -> bool) (l : list ascii) : list ascii * list ascii :=
  match l with
  | c :: r => if p c then let '(a, b) := span p r in (c :: a, b) else ([], l)
  | [] => ([], [])
  end.

(** The float nearest to [m * 10^x], ties to even, for [m > 0]. *)
Definition nearest (neg : bool) (m x : Z) : spec_float :=
  let sgn (n : Z) := if neg then Z.opp n else n in
  if (m =? 0)%Z then S754_zero neg
  else if (0 <=? x)%Z then binary_normalize 53 1024 (sgn (m * 10 ^ x)%Z) 0 neg
  else
    let d := (10 ^ (- x))%Z in
    let s := Z.max 0 (Z.log2 d - Z.log2 m + 64) in
    let n := (m * 2 ^ s)%Z in
    let sticky := if (n mod d =? 0)%Z then 0%Z else 1%Z in
    binary_normalize 53 1024 (sgn (2 * (n / d) + sticky)%Z) (- s - 1) neg.

(** [float(n)] *)
Definition of_int (z : Z) : option spec_float :=
  match b64 z 0 with
  | S754_infinity _ => None
  | f => Some f
  end.

Definition lower (c : ascii) : ascii :=
  if ((65 <=? code c) && (code c <=? 90))%nat then ascii_of_nat (code c + 32) else c.

(** Underscores are allowed between two digits only. *)
Fixpoint drop_underscores (prev_digit : bool) (l : list ascii) : option (list ascii) :=
  match l with
  | [] => Some []
  | c :: r =>
      if Ascii.eqb c "_" then
        match r with
        | d :: _ => if prev_digit && is_digit d then drop_underscores false r else None
        | [] => None
        end
      else option_map (cons c) (drop_underscores (is_digit c) r)
  end.

(** [digits [. digits] [e [sign] digits]] with a digit in the mantissa, as
    [(m, x)] for the value [m * 10^x]. *)
Definition decimal (l : list ascii) : option (Z * Z) :=
  let '(ip, r1) := span is_digit l in
  let '(fp, r2) := match r1 with
                   | "."%char :: r => span is_digit r
                   | _ => ([], r1)
                   end in
  match (ip ++ fp)%list with
  | [] => None
  | ds =>
      let m := number_of ds in
      let k := Z.of_nat (length fp) in
      match r2 with
      | [] => Some (m, (- k)%Z)
      | e :: r3 =>
          if Ascii.eqb (lower e) "e" then
            let '(eneg, r4) := match r3 with
                               | "-"%char :: r => (true, r)
                               | "+"%char :: r => (false, r)
                               | _ => (false, r3)
                               end in
            match span is_digit r4 with
            | (d0 :: es, []) =>
                let x := number_of (d0 :: es) in
                Some (m, ((if eneg then - x else x) - k)%Z)
            | _ => None
            end
          else None
      end
  end.

(** The characters [float] drops at both ends of a text: the six ASCII blanks,
    and the two blanks above 127, which it first turns into a space.  The
    separators 28 to 31, which [str.strip] drops, stay and make [float]
    refuse the text. *)
Definition is_float_space (c : ascii) : bool :=
  let n := code c in
  ((9 <=? n) && (n <=? 13) || (n =? 32) || (n =? 133) || (n =? 160))%nat.

(** [float(s)] *)
Definition of_str (s : string) : option spec_float :=
  let body := chars (strip_with is_float_space s) in
  let '(neg, r) := match body with
                   | "-"%char :: r => (true, r)
                   | "+"%char :: r => (false, r)
                   | _ => (false, body)
                   end in
  let word := of_chars (map lower r) in
  if String.eqb word "inf" || String.eqb word "infinity" then Some (S754_infinity neg)
  else if String.eqb word "nan" then Some S754_nan
  else
    match drop_underscores false r with
    | None => None
    | Some r' =>
        match decimal r' with
        | Some (m, x) => Some (nearest neg m x)
        | None => None
        end
    end.

Definition nonzero (f : spec_float) : bool :=
  match f with
  | S754_zero _ => false
  | _ => true
  end.

Definition eqb (f g : spec_float) : bool := SFeqb f g.

Definition eq_int (f : spec_float) (z : Z) : bool :=
  match f with
  | S754_zero _ => (z =? 0)%Z
  | S754_finite s m e =>
      let v := if s then Z.neg m else Z.pos m in
      if (0 <=? e)%Z then (z =? v * 2 ^ e)%Z else (z * 2 ^ (- e) =? v)%Z
  | _ => false
  end.

(** [repr(x)]: the shortest decimal string that reads back as [x]; of the two
    candidates of that length, the one nearer to [x]. *)

Definition digits_of (n : Z) : string := NilZero.string_of_uint (N.to_uint (Z.to_N n)).

(** Is [n / d < 10^k] ? *)
Definition below_pow10 (n d k : Z) : bool :=
  if (0 <=? k)%Z then (n <? d * 10 ^ k)%Z else (n * 10 ^ (- k) <? d)%Z.

(** The [k] with [10^k <= n/d < 10^(k+1)], searched upwards from [k0]. *)
Fixpoint exponent10 (fuel : nat) (n d k0 : Z) : Z :=
  match fuel with
  | O => k0
  | S fuel' => if below_pow10 n d (k0 + 1) then k0 else exponent10 fuel' n d (k0 + 1)%Z
  end.

(** The shortest digits of the positive float [m * 2^e]: the digits [ds] and the
    position [decpt] of the point, for the value [0.ds * 10^decpt]. *)
Fixpoint shortest (fuel : nat) (x : spec_float) (n d k p : Z) : Z * Z :=
  let sc := (p - 1 - k)%Z in
  let num := if (0 <=? sc)%Z then (n * 10 ^ sc)%Z else n in
  let den := if (0 <=? sc)%Z then d else (d * 10 ^ (- sc))%Z in
  let lo := (num / den)%Z in
  let hi := (lo + 1)%Z in
  let ok (c : Z) := (0 <? c)%Z && SFeqb (nearest false c (- sc)) x in
  let twice := (2 * (num mod den))%Z in
  let lo_first := (twice <? den)%Z || ((twice =? den)%Z && Z.even lo) in
  let pick :=
    if ok lo && ok hi then Some (if lo_first then lo else hi)
    else if ok lo then Some lo
    else if ok hi then Some hi
    else None in
  match pick, fuel with
  | Some c, _ => if (c =? 10 ^ p)%Z then (1%Z, (k + 2)%Z) else (c, (k + 1)%Z)
  | None, O => (lo, (k + 1)%Z)
  | None, S fuel' => shortest fuel' x n d k (p + 1)%Z
  end.

Fixpoint strip_zeros (l : list ascii) : list ascii :=
  match l with
  | [] => []
  | c :: r =>
      match strip_zeros r with
      | [] => if Ascii.eqb c "0" then [] else [c]
      | r' => c :: r'
      end
  end.

Definition zeros (n : Z) : string := of_chars (repeat "0"%char (Z.to_nat n)).

Definition format_short (ds : string) (decpt : Z) : string :=
  let len := Z.of_nat (String.length ds) in
  if ((-4 <? decpt) && (decpt <=? 16))%Z then
    if (decpt <=? 0)%Z then "0." ++ zeros (- decpt) ++ ds
    else if (len <=? decpt)%Z then ds ++ zeros (decpt - len) ++ ".0"
    else substring 0 (Z.to_nat decpt) ds ++ "."
         ++ substring (Z.to_nat decpt) (Z.to_nat (len - decpt)) ds
  else
    let x := (decpt - 1)%Z in
    let xs := digits_of (Z.abs x) in
    substring 0 1 ds
    ++ (if (1 <? len)%Z then "." ++ substring 1 (Z.to_nat (len - 1)) ds else "")
    ++ "e" ++ (if (x <? 0)%Z then "-" else "+")
    ++ (if (Z.abs x <? 10)%Z then "0" else "") ++ xs.

Definition repr (f : spec_float) : string :=
  match f with
  | S754_nan => "nan"
  | S754_infinity s => if s then "-inf" else "inf"
  | S754_zero s => if s then "-0.0" else "0.0"
  | S754_finite s m e =>
      let n := if (0 <=? e)%Z then (Z.pos m * 2 ^ e)%Z else Z.pos m in
      let d := if (0 <=? e)%Z then 1%Z else (2 ^ (- e))%Z in
      let k := exponent10 800 n d (-400)%Z in
      let '(c, decpt) := shortest 17 (S754_finite false m e) n d k 1 in
      let ds := of_chars (strip_zeros (chars (digits_of c))) in
      (if s then "-" else "") ++ format_short ds decpt
  end.

#[export] Instance float : PyFloat := {
  pyfloat := spec_float;
  float_of_int := of_int;
  float_of_str := of_str;
  float_nonzero := nonzero;
  float_repr := repr;
  float_eqb := eqb;
  float_eq_int := eq_int
}.

(** [json.loads]: a recursive-descent parser of the JSON text CPython
    accepts: the four whitespace characters, [null], [true], [false], [NaN],
    [Infinity], [-Infinity], numbers, strings with their escapes, arrays and
    objects; a repeated key keeps its first position and its last value. *)

Definition is_ws (c : ascii) : bool :=
  let n := code c in ((n =? 32) || (n =? 9) || (n =? 10) || (n =? 13))%nat.

Definition skip_ws (l : list ascii) : list ascii := drop_while is_ws l.

Fixpoint strip_prefix (p : list ascii) (l : list ascii) : option (list ascii) :=
  match p, l with
  | [], _ => Some l
  | a :: p', b :: l' => if Ascii.eqb a b then strip_prefix p' l' else None
  | _ :: _, [] => None
  end.

Definition hex_value (c : ascii) : option nat :=
  let n := code c in
  if ((48 <=? n) && (n <=? 57))%nat then Some (n - 48)
  else if ((97 <=? n) && (n <=? 102))%nat then Some (n - 87)
  else if ((65 <=? n) && (n <=? 70))%nat then Some (n - 55)
  else None.

(** The characters of a string literal after its opening quote. *)
Fixpoint string_body (fuel : nat) (l : list ascii) : option (list ascii * list ascii) :=
  match fuel with
  | O => None
  | S fuel' =>
      match l with
      | [] => None
      | c :: r =>
          if (code c =? 34)%nat then Some ([], r)
          else if (code c <? 32)%nat then None
          else if Ascii.eqb c "\" then
            match r with
            | e :: r' =>
                let plain (x : nat) :=
                  match string_body fuel' r' with
                  | Some (s, rest) => Some (ascii_of_nat x :: s, rest)
                  | None => None
                  end in
                match code e with
                | 34 => plain 34 | 92 => plain 92 | 47 => plain 47
                | 98 => plain 8 | 102 => plain 12 | 110 => plain 10
                | 114 => plain 13 | 116 => plain 9
                | 117 =>
                    match r' with
                    | a :: b :: c2 :: d :: r'' =>
                        match hex_value a, hex_value b, hex_value c2, hex_value d with
                        | Some 0, Some 0, Some h, Some lo =>
                            match string_body fuel' r'' with
                            | Some (s, rest) => Some (ascii_of_nat (16 * h + lo) :: s, rest)
                            | None => None
                            end
                        | _, _, _, _ => None
                        end
                    | _ => None
                    end
                | _ => None
                end
            | [] => None
            end
          else
            match string_body fuel' r with
            | Some (s, rest) => Some (c :: s, rest)
            | None => None
            end
      end
  end.

(** Why a text is refused: it is not JSON, an integer literal has more digits
    than [int] converts, or the nesting is deeper than the recursion limit
    allows. *)
Inductive refusal : Type := Syntax | Digits | Depth.

Inductive scan (A : Type) : Type :=
| Scanned (a : A) (rest : list ascii)
| Refused (why : refusal).
Arguments Scanned {A} a rest.
Arguments Refused {A} why.

(** The digit limit of [int]: [sys.int_info.default_max_str_digits]. *)
Definition max_str_digits : nat := 4300.

(** The containers [json.loads] can be inside of when [normalize_report],
    called by [main], calls it under the default recursion limit of 1000. *)
Definition max_nesting : nat := 993.

(** A number: [-? (0 | [1-9] digits) (. digits)? ([eE] [+-]? digits)?]; an
    [int] without fraction and exponent, a [float] otherwise. *)
Definition number (l : list ascii) : scan json :=
  let '(neg, r0) := match l with
                    | "-"%char :: r => (true, r)
                    | _ => (false, l)
                    end in
  let '(ip, r1) := span is_digit r0 in
  let int_ok := match ip with
                | [] => false
                | "0"%char :: _ :: _ => false
                | _ => true
                end in
  if negb int_ok then Refused Syntax
  else
    let '(fp, r2) := match r1 with
                     | "."%char :: r =>
                         match span is_digit r with
                         | (d0 :: ds, rest) => ("."%char :: d0 :: ds, rest)
                         | _ => ([], r1)
                         end
                     | _ => ([], r1)
                     end in
    let '(ep, r3) := match r2 with
                     | e :: r =>
                         if Ascii.eqb (lower e) "e" then
                           let '(sg, r') := match r with
                                            | "-"%char :: t => (["-"%char], t)
                                            | "+"%char :: t => (["+"%char], t)
                                            | _ => ([], r)
                                            end in
                           match span is_digit r' with
                           | (d0 :: ds, rest) => (e :: sg ++ d0 :: ds, rest)%list
                           | _ => ([], r2)
                           end
                         else ([], r2)
                     | [] => ([], r2)
                     end in
    match fp, ep with
    | [], [] =>
        if (max_str_digits <? length ip)%nat then Refused Digits
        else Scanned (JInt (if neg then - number_of ip else number_of ip)%Z) r3
    | _, _ =>
        let lexeme := of_chars ((if neg then ["-"%char] else []) ++ ip ++ fp ++ ep)%list in
        match of_str lexeme with
        | Some f => Scanned (JFloat f) r3
        | None => Refused Syntax
        end
    end.

(** [room] is the number of containers that can still be opened. *)
Fixpoint value (fuel : nat) (room : nat) (l : list ascii) : scan json :=
  match fuel with
  | O => Refused Syntax
  | S fuel' =>
      match skip_ws l with
      | [] => Refused Syntax
      | c :: r =>
          match code c with
          | 34 =>
              match string_body (S (length r)) r with
              | Some (s, rest) => Scanned (JStr (of_chars s)) rest
              | None => Refused Syntax
              end
          | 91 =>
              match room with
              | O => Refused Depth
              | S room' =>
                  match skip_ws r with
                  | "]"%char :: rest => Scanned (JArr []) rest
                  | _ =>
                      match elements fuel' room' r with
                      | Scanned items rest => Scanned (JArr items) rest
                      | Refused why => Refused why
                      end
                  end
              end
          | 123 =>
              match room with
              | O => Refused Depth
              | S room' =>
                  match skip_ws r with
                  | "}"%char :: rest => Scanned (JObj []) rest
                  | _ =>
                      match members fuel' room' r [] with
                      | Scanned d rest => Scanned (JObj d) rest
                      | Refused why => Refused why
                      end
                  end
              end
          | _ =>
              match strip_prefix (chars "null") (c :: r) with
              | Some rest => Scanned JNull rest
              | None =>
              match strip_prefix (chars "true") (c :: r) with
              | Some rest => Scanned (JBool true) rest
              | None =>
              match strip_prefix (chars "false") (c :: r) with
              | Some rest => Scanned (JBool false) rest
              | None =>
              match strip_prefix (chars "NaN") (c :: r) with
              | Some rest => Scanned (JFloat S754_nan) rest
              | None =>
              match strip_prefix (chars "Infinity") (c :: r) with
              | Some rest => Scanned (JFloat (S754_infinity false)) rest
              | None =>
              match strip_prefix (chars "-Infinity") (c :: r) with
              | Some rest => Scanned (JFloat (S754_infinity true)) rest
              | None => number (c :: r)
              end end end end end end
          end
      end
  end

with elements (fuel : nat) (room : nat) (l : list ascii) : scan (list json) :=
  match fuel with
  | O => Refused Syntax
  | S fuel' =>
      match value fuel' room l with
      | Refused why => Refused why
      | Scanned v r =>
          match skip_ws r with
          | "]"%char :: rest => Scanned [v] rest
          | ","%char :: rest =>
              match elements fuel' room rest with
              | Scanned vs rest' => Scanned (v :: vs) rest'
              | Refused why => Refused why
              end
          | _ => Refused Syntax
          end
      end
  end

with members (fuel : nat) (room : nat) (l : list ascii) (d : list (string * json))
  : scan (list (string * json)) :=
  match fuel with
  | O => Refused Syntax
  | S fuel' =>
      match skip_ws l with
      | q :: r =>
          if (code q =? 34)%nat then
            match string_body (S (length r)) r with
            | None => Refused Syntax
            | Some (k, r1) =>
                match skip_ws r1 with
                | ":"%char :: r2 =>
                    match value fuel' room r2 with
                    | Refused why => Refused why
                    | Scanned v r3 =>
                        let d' := dict_set d (of_chars k) v in
                        match skip_ws r3 with
                        | "}"%char :: rest => Scanned d' rest
                        | ","%char :: rest => members fuel' room rest d'
                        | _ => Refused Syntax
                        end
                    end
                | _ => Refused Syntax
                end
            end
          else Refused Syntax
      | [] => Refused Syntax
      end
  end.

Definition loads (s : string) : loaded :=
  match value (2 * String.length s + 2) max_nesting (chars s) with
  | Scanned v rest =>
      match skip_ws rest with
      | [] => Document v
      | _ => NotJson
      end
  | Refused Syntax => NotJson
  | Refused Digits => TooManyDigits
  | Refused Depth => TooDeep
  end.

(** [datetime.strptime(s, "%Y-%m-%d").strftime("%b %d, %Y")]: four digits, a
    month [1[0-2]|0[1-9]|[1-9]], a day [3[01]|[12]\d|0[1-9]|[1-9]| [1-9]],
    nothing after it, and a date that exists. *)

Definition month_field (l : list ascii) : option (Z * list ascii) :=
  match l with
  | a :: b :: r =>
      if Ascii.eqb a "1" && (Ascii.eqb b "0" || Ascii.eqb b "1" || Ascii.eqb b "2")
      then Some (10 + digit b, r)%Z
      else if Ascii.eqb a "0" && is_digit b && negb (Ascii.eqb b "0")
      then Some (digit b, r)
      else if is_digit a && negb (Ascii.eqb a "0") then Some (digit a, b :: r)
      else None
  | [a] => if is_digit a && negb (Ascii.eqb a "0") then Some (digit a, []) else None
  | [] => None
  end.

Definition day_field (l : list ascii) : option (Z * list ascii) :=
  let nz (c : ascii) := is_digit c && negb (Ascii.eqb c "0") in
  match l with
  | a :: b :: r =>
      if Ascii.eqb a "3" && (Ascii.eqb b "0" || Ascii.eqb b "1")
      then Some (30 + digit b, r)%Z
      else if (Ascii.eqb a "1" || Ascii.eqb a "2") && is_digit b
      then Some (10 * digit a + digit b, r)%Z
      else if Ascii.eqb a "0" && nz b then Some (digit b, r)
      else if nz a then Some (digit a, b :: r)
      else if Ascii.eqb a " " && nz b then Some (digit b, r)
      else None
  | [a] => if nz a then Some (digit a, []) else None
  | [] => None
  end.

Definition leap (y : Z) : bool :=
  ((y mod 4 =? 0) && (negb (y mod 100 =? 0) || (y mod 400 =? 0)))%Z.

Definition days_in_month (y m : Z) : Z :=
  match m with
  | 2 => if leap y then 29 else 28
  | 4 | 6 | 9 | 11 => 30
  | _ => 31
  end%Z.

Definition month_name (m : Z) : string :=
  nth (Z.to_nat (m - 1))
      ["Jan"; "Feb"; "Mar"; "Apr"; "May"; "Jun";
       "Jul"; "Aug"; "Sep"; "Oct"; "Nov"; "Dec"] "".

Definition reformat (s : string) : option string :=
  match chars s with
  | y1 :: y2 :: y3 :: y4 :: "-"%char :: r =>
      if forallb is_digit [y1; y2; y3; y4] then
        match month_field r with
        | Some (m, "-"%char :: r') =>
            match day_field r' with
            | Some (d, []) =>
                let y := number_of [y1; y2; y3; y4] in
                if ((1 <=? y) && (d <=? days_in_month y m))%Z then
                  Some (month_name m ++ " "
                        ++ (if (d <? 10)%Z then "0" else "") ++ digits_of d
                        ++ ", " ++ digits_of y)
                else None
            | _ => None
            end
        | _ => None
        end
      else None
  | _ => None
  end.

#[export] Instance runtime : PyRuntime := {
  json_loads := loads;
  strptime_strftime := reformat
}.

End Ref.

(** * Vocabulary of the properties *)

Section Vocabulary.
Context {FL : PyFloat} {RT : PyRuntime}.

(** What a pass writes into the score set, in order. *)
Definition apply_writes (ws : list (string * json)) (s : dict) : dict :=
  fold_left (fun s kv => dict_set s (fst kv) (snd kv)) ws s.

(** A step of a score pass decides what it writes without reading the score
    set. *)
Definition oblivious (f : dict -> result dict) : Prop :=
  exists r : result (list (string * json)),
    forall s, f s = match r with
                    | Ok ws => Ok (apply_writes ws s)
                    | Raise e => Raise e
                    end.

(** The report with another score set. *)
Definition with_scores (rep : report) (s : dict) : report :=
  mkReport (personal_info rep) s (accounts rep) (inquiries rep)
           (public_records rep) (employers rep).

(** [a.get(k)] as a value: [None] where there is nothing to read. *)
Definition field (a : json) (k : string) : json :=
  match a with
  | JObj d =>
      match dict_get d k with
      | Some v => v
      | None => JNull
      end
  | _ => JNull
  end.

(** The dedup key of an account record of the output. *)
Definition key_of (a : json) : json * json * json :=
  (field a "maskedAccountNumber", field (field a "institution") "name",
   field a "bureau").

(** *** The structured scores (C1) *)

(** The three fixed tokens, in the order the match tries them, and the bureau
    each one stands for. *)
Definition bureau_tokens : list (string * string) :=
  [("TUC", "TransUnion"); ("EQF", "Equifax"); ("EXP", "Experian")].

(** [token in marker], where [in] is defined on the marker. *)
Definition carries (marker : json) (token : string) : bool :=
  match str_in token marker with
  | Ok b => b
  | Raise _ => false
  end.

(** The bureau of the first token that [names] accepts. *)
Definition first_bureau (names : string * string -> bool) : option string :=
  match filter names bureau_tokens with
  | tb :: _ => Some (snd tb)
  | [] => None
  end.

(** The score of the typed score object of a bundle component: its
    riskScore, or else its score. *)
Definition component_score (comp : json) : json :=
  let cs := field comp "CreditScoreType" in
  py_or (field cs "riskScore") (field cs "score").

(** A structured bundle score: a component whose Type carries a bureau token
    and whose CreditScoreType has a riskScore or a score supplies that score
    for that bureau. *)
Definition structured_bundle_score (comp : json) : option (string * json) :=
  if truthy (component_score comp) && truthy (field comp "Type") then
    option_map (fun b => (b, component_score comp))
               (first_bureau (fun tb => carries (field comp "Type") (fst tb)))
  else None.

(** An entry of the borrower's CreditScore array supplies its riskScore for
    the bureau that its source names, by the token as symbol or by the name of
    the bureau in the description. *)
Definition structured_credit_score (cs : json) : option (string * json) :=
  let bureau := field (field cs "Source") "Bureau" in
  let symbol := field bureau "symbol" in
  let description := field bureau "description" in
  if truthy (field cs "riskScore") && truthy symbol then
    option_map (fun b => (b, field cs "riskScore"))
               (first_bureau (fun tb =>
                                py_eq symbol (JStr (fst tb))
                                || (truthy description
                                    && carries description (snd tb))))
  else None.

(** What the items of a list supply, in order. *)
Definition supplied (f : json -> option (string * json)) (items : list json)
  : list (string * json) :=
  flat_map (fun x => match f x with Some w => [w] | None => [] end) items.

(** The value of the last write to the key [k]. *)
Definition last_write (ws : list (string * json)) (k : string) : option json :=
  option_map snd (find (fun kv => String.eqb (fst kv) k) (rev ws)).

(** main.py 282-285: the components the bundle score pass loops over. *)
Definition score_components (cr_json : json) : result (list json) :=
  if is_dict cr_json then
    bc <- get cr_json "BundleComponents" ;;
    comps <- get_list (py_or bc (JObj [])) "BundleComponent" ;;
    iter (wrap_dict comps)
  else Ok [].

(** main.py 299-303: the entries the CreditScore pass loops over. *)
Definition credit_score_entries (raw_report_str borrower : json) : list json :=
  if truthy raw_report_str && truthy borrower then
    match get_list borrower "CreditScore" with
    | Ok (JArr l) => l
    | _ => []
    end
  else [].

(** *** The dual field convention (C8) *)

(** Both keys are in the record and hold the same value. *)
Definition same_value (a : json) (k1 k2 : string) : Prop :=
  exists d v, a = JObj d /\ dict_get d k1 = Some v /\ dict_get d k2 = Some v.

(** The key [orig] holds the text of an amount and the key [num] holds the
    float that amount coerces to, or null. *)
Definition coerced (a : json) (orig num : string) : Prop :=
  exists d amount x,
    a = JObj d /\ dict_get d orig = Some (safe_string amount) /\
    dict_get d num = Some x /\ number_if amount = Ok x.

(** The pairs every pass emits: snake-case name, original name. *)
Definition text_pairs : list (string * string) :=
  [("account_type", "accountType"); ("status", "accountStatus");
   ("open_date", "openDateFormatted"); ("closed_date", "dateClosed");
   ("account_number", "maskedAccountNumber")].

(** The pairs of passes 1 and 2. *)
Definition more_text_pairs : list (string * string) :=
  [("last_reported", "lastReported"); ("account_age", "accountAge")].

(** The amounts: original name, snake-case name. *)
Definition amount_pairs : list (string * string) :=
  [("currentBalanceAmount", "balance"); ("creditLimitAmount", "credit_limit");
   ("highCreditAmount", "high_balance")].

Definition dual_base (a : json) : Prop :=
  Forall (fun p => same_value a (fst p) (snd p)) text_pairs /\
  Forall (fun p => coerced a (fst p) (snd p)) amount_pairs.

Definition dual_full (a : json) : Prop :=
  dual_base a /\
  Forall (fun p => same_value a (fst p) (snd p)) more_text_pairs /\
  coerced a "termsMonthlyPayment" "payment_amount".

(** *** Trimmed texts *)

(** A value that [safe_string] leaves as it is: null, or a non-empty text
    without surrounding whitespace. *)
Definition clean (v : json) : bool :=
  match v with
  | JNull => true
  | JStr s => nonempty s && String.eqb (strip s) s
  | _ => false
  end.

(** *** The score set *)

(** The keys the score passes write. *)
Definition bureau_names : list string := ["TransUnion"; "Equifax"; "Experian"].

(** [s] is the override apart from the bureau keys, and has every key the
    override has. *)
Definition extends_override (ov s : dict) : Prop :=
  forall k,
    (~ In k bureau_names -> dict_get s k = dict_get ov k) /\
    (dict_get ov k <> None -> dict_get s k <> None).

(** *** Exceptions *)

(** The exceptions a document of the wrong shape or an oversized number
    causes: a method or an iteration the value does not support, and [float]
    of an [int] too large. *)
Definition shape_error (e : exn) : bool :=
  match e with
  | AttributeError | TypeError | OverflowError => true
  | _ => false
  end.

(** [r] ends normally or raises a shape error. *)
Definition raises_only {A : Type} (r : result A) : Prop :=
  forall e, r = Raise e -> shape_error e = true.

Definition run_raises_only {A : Type} (m : run A) : Prop :=
  forall w e, m = (w, Raise e) -> shape_error e = true.

(** *** The source lists *)

(** main.py 321-323: the trades the first account pass loops over. *)
Definition trade_list (raw : dict) : result (list json) :=
  trades <- get_list (py_or (endpoint raw "trades") (JObj [])) "trades" ;;
  iter (wrap_dict trades).

(** main.py 637-639 and 689-691: the inquiries and the public records of the
    search results. *)
Definition search_list (raw : dict) (k : string) : result (list json) :=
  items <- get_list (py_or (endpoint raw "search_results") (JObj [])) k ;;
  iter (wrap_dict items).

(** [ys] holds what [f] returns for the items of [xs], one for one, in
    order. *)
Definition one_for_one (f : json -> result json) (xs ys : list json) : Prop :=
  Forall2 (fun x y => f x = Ok y) xs ys.

(** main.py 427-439: the tradelines the second account pass visits, in
    order. *)
Definition partition_tradelines (true_link : json) : result (list json) :=
  if truthy true_link then
    tradeline_partition <- get_list true_link "TradeLinePartition" ;;
    items <- iter (wrap_dict tradeline_partition) ;;
    foldM (fun item seen =>
             tradeline_data <- get_dict item "Tradeline" ;;
             Ok (seen ++ tradelines_of tradeline_data)%list) items []
  else Ok [].

(** The account [a] is built from the tradeline [t], and [t] has a creditor
    name and an account number: the key of [a] is the trimmed text of the
    number, of the name, and of the bureau symbol of [t]. *)
Definition built_from_named (t a : json) : Prop :=
  exists c n,
    creditor_name_of t = Ok c /\ account_number_of t = Ok n /\
    truthy c = true /\ truthy n = true /\
    key_of a = (safe_string n, safe_string c,
                safe_string (field (field (field t "Source") "Bureau") "symbol")).

(** *** The shape of the report *)

(** The keys of a record, in order. *)
Definition field_names (v : json) : list string :=
  match v with
  | JObj d => map fst d
  | _ => []
  end.

Definition null_or_text (v : json) : bool :=
  match v with JNull | JStr _ => true | _ => false end.

Definition null_or_float (v : json) : bool :=
  match v with JNull | JFloat _ => true | _ => false end.

(** The keys of an account of the trade list or of the tradeline partition. *)
Definition account_keys : list string :=
  ["institution"; "accountTypeObj"; "accountType"; "accountStatus";
   "currentBalanceAmount"; "creditLimitAmount"; "currentAccountRatingDisplay";
   "openDateFormatted"; "maskedAccountNumber"; "highCreditAmount";
   "termsMonthlyPayment"; "paymentHistory"; "times30Late"; "times60Late";
   "times90Late"; "creditorContactSource"; "bureau"; "lastReported";
   "accountAge"; "dateClosed"; "memberCode"; "account_type"; "status";
   "balance"; "credit_limit"; "high_balance"; "open_date"; "closed_date";
   "payment_amount"; "account_number"; "last_reported"; "account_age"].

(** The keys an account of a bureau report does not have. *)
Definition passes_1_2_only : list string :=
  ["termsMonthlyPayment"; "paymentHistory"; "times30Late"; "times60Late";
   "times90Late"; "lastReported"; "accountAge"; "memberCode"; "payment_amount";
   "last_reported"; "account_age"].

(** The keys of an account of a bureau report. *)
Definition bureau_report_account_keys : list string :=
  filter (fun k => negb (existsb (String.eqb k) passes_1_2_only)) account_keys.

Definition inquiry_keys : list string :=
  ["bureau"; "business_name"; "inquiry_date"; "type"].

Definition public_record_keys : list string :=
  ["type"; "date_filed"; "status"; "amount"].

Definition employer_keys : list string := ["name"; "date_reported"; "bureau"].

Definition personal_info_keys : list string :=
  ["name"; "ssn"; "dateOfBirth"; "address"; "previous_addresses"].

(** An entry of the previous addresses: three keys, each null or a trimmed
    non-empty text. *)
Definition previous_address_entry (e : json) : Prop :=
  field_names e = ["address"; "date_reported"; "bureau"] /\
  clean (field e "address") = true /\
  clean (field e "date_reported") = true /\
  clean (field e "bureau") = true.

(** The personal info is empty, or it has its five keys: name, number and
    birth date null or trimmed non-empty text, the address null or a text, and
    a list of previous addresses. *)
Definition personal_info_shape (info : json) : Prop :=
  info = JObj [] \/
  (field_names info = personal_info_keys /\
   clean (field info "name") = true /\
   clean (field info "ssn") = true /\
   clean (field info "dateOfBirth") = true /\
   null_or_text (field info "address") = true /\
   exists previous,
     field info "previous_addresses" = JArr previous /\
     Forall previous_address_entry previous).

(** *** The export of test_normalize.py *)

(** The amounts of an exported record that the export cleans. *)
Definition cleaned_amounts : list string :=
  ["credit_limit"; "high_balance"; "monthly_payment"].

Definition is_text (v : json) : bool :=
  match v with JStr _ => true | _ => false end.

(** The record [r] carries the number, type, status and open date of the
    account [a]. *)
Definition exported (a r : json) : Prop :=
  Forall (fun k => field r k = field a k)
         ["account_number"; "account_type"; "status"; "open_date"].

(** *** The nested payload (C9) *)

(** [del d[k]] *)
Fixpoint dict_remove (d : dict) (k : string) : dict :=
  match d with
  | [] => []
  | (k', v) :: d' =>
      if String.eqb k' k then dict_remove d' k else (k', v) :: dict_remove d' k
  end.

(** The input with the nested payload absent: the same documents, without the
    key [rawReport] in the credit report. *)
Definition without_raw_report (raw : dict) : dict :=
  match cr_json_of raw with
  | JObj c => dict_set raw "credit_report_json" (JObj (dict_remove c "rawReport"))
  | _ => raw
  end.

(** The value of a computation that is known to return one. *)
Definition trade_account_value (trade : json) : json :=
  match trade_account trade with
  | Ok a => a
  | Raise _ => JNull
  end.

Definition report_value (r : run report) : report :=
  match snd r with
  | Ok rep => rep
  | Raise _ => mkReport JNull [] [] [] [] []
  end.

End Vocabulary.

(** * Inputs of the examples

    The documents on which the properties below are evaluated, as values of
    the runtime [Ref].  A JSON text is written with the apostrophe in the place
    of the double quote ([jtext] puts the double quote back). *)

Section Inputs.
#[local] Existing Instance Ref.float.
#[local] Existing Instance Ref.runtime.

Definition jtext (s : string) : string :=
  of_chars (map (fun c => if Ascii.eqb c "'" then double_quote else c) (chars s)).

Definition chase_trade : json :=
  JObj [("institution", JObj [("name", JStr "Chase Bank")]);
        ("maskedAccountNumber", JStr "438854XXXXXXXXXX");
        ("bureau", JStr "TUC");
        ("currentBalanceAmount", JStr "887")].

(** The outer document with one merged component that carries [true_link]. *)
Definition merged_report (true_link : json) : json :=
  JObj [("BundleComponents",
         JObj [("BundleComponent",
                JArr [JObj [("Type", JStr "MergeCreditReports");
                            ("TrueLinkCreditReportType", true_link)]])])].

(** C1: a structured TransUnion score of 700 and an override of 640. *)
Definition c1_raw : dict :=
  [("credit_report_json",
    JObj [("BundleComponents",
           JObj [("BundleComponent",
                  JArr [JObj [("Type", JStr "TUCVantageScore");
                              ("CreditScoreType",
                               JObj [("riskScore", JStr "700")])]])])])].

Definition c1_override : dict := [("TransUnion", JStr "640")].

(** C1: a score block for each bureau in the outer document, a CreditScore
    entry for Equifax on the borrower of the nested payload, and an override
    for the three bureaus. *)
Definition score_block (type score : string) : json :=
  JObj [("Type", JStr type);
        ("CreditScoreType", JObj [("riskScore", JStr score)])].

Definition c1_payload_text : string :=
  jtext "{'BundleComponents': {'BundleComponent': [{'Type': 'MergeCreditReports', 'TrueLinkCreditReportType': {'Borrower': {'CreditScore': [{'riskScore': '705', 'Source': {'Bureau': {'symbol': 'EQF'}}}]}}}]}}".

Definition c1_three : dict :=
  [("credit_report_json",
    JObj [("rawReport", JStr c1_payload_text);
          ("BundleComponents",
           JObj [("BundleComponent",
                  JArr [score_block "EXPVantageScore" "720";
                        score_block "EQFVantageScore" "710";
                        score_block "TUCVantageScore" "700"])])])].

Definition c1_three_override : dict :=
  [("TransUnion", JStr "640"); ("Equifax", JStr "650"); ("Experian", JStr "660")].

(** A tradeline of the partition whose creditor name is [name]. *)
Definition named_tradeline (name : json) : json :=
  JObj [("creditorName", name);
        ("accountNumber", JStr "438854XXXXXXXXXX");
        ("Source", JObj [("Bureau", JObj [("symbol", JStr "TUC")])]);
        ("currentBalance", JStr "1")].

(** C2: no trade, and a tradeline partition that holds one record twice. *)
Definition c2_partition (name : json) : dict :=
  [("credit_report_json",
    merged_report
      (JObj [("TradeLinePartition",
              JArr [JObj [("Tradeline",
                           JArr [named_tradeline name; named_tradeline name])]])]))].

(** C6: one trade, and a partition record with the number and the bureau of
    that trade. *)
Definition c6_partition (name : json) : dict :=
  [("trades", JObj [("trades", JArr [chase_trade])]);
   ("credit_report_json",
    merged_report
      (JObj [("TradeLinePartition",
              JArr [JObj [("Tradeline", named_tradeline name)]])]))].

(** C3: the same creditor and account number reported by two bureaus. *)
Definition c3_raw : dict :=
  [("credit_report_json",
    JObj [("rawReport", JStr (jtext
      "{'BundleComponents': {'BundleComponent': [{'Type': 'TUCReportV6', 'CreditReportType': {'Tradeline': [{'creditorName': 'Chase Bank', 'accountNumber': '438854XXXXXXXXXX'}]}}, {'Type': 'EQFReportV6', 'CreditReportType': {'Tradeline': [{'creditorName': 'Chase Bank', 'accountNumber': '438854XXXXXXXXXX'}]}}]}}"))])].

(** C4: a trade list whose element is not an object. *)
Definition c4_raw : dict :=
  [("trades", JObj [("trades", JArr [JInt 1])])].

(** C5: a bureau report whose tradeline has neither creditor name nor
    account number. *)
Definition c5_raw : dict :=
  [("credit_report_json",
    JObj [("rawReport", JStr (jtext
      "{'BundleComponents': {'BundleComponent': [{'Type': 'TUCReportV6', 'CreditReportType': {'Tradeline': [{'accountType': 'Credit Card'}]}}]}}"))])].

(** A tradeline of the partition with the key of [chase_trade]. *)
Definition chase_tradeline : json :=
  JObj [("creditorName", JStr "Chase Bank");
        ("accountNumber", JStr "438854XXXXXXXXXX");
        ("Source", JObj [("Bureau", JObj [("symbol", JStr "TUC")])]);
        ("currentBalance", JStr "1")].

(** C7: a balance that is the JSON number zero. *)
Definition c7_raw : dict :=
  [("trades", JObj [("trades", JArr [JObj [("currentBalanceAmount", JInt 0)]])])].


(** C9: an outer document with a merged component whose borrower has a
    score, and a nested payload that is not JSON. *)
Definition c9_borrower : json :=
  JObj [("CreditScore",
         JArr [JObj [("riskScore", JStr "700");
                     ("Source", JObj [("Bureau", JObj [("symbol", JStr "TUC")])])]])].

Definition c9_document : dict :=
  match merged_report (JObj [("Borrower", c9_borrower)]) with
  | JObj d => d
  | _ => []
  end.

Definition c9_raw : dict :=
  [("credit_report_json", JObj (("rawReport", JStr "not json") :: c9_document))].

(** C10: a borrower whose [Name] is one object, or the array of that object. *)
Definition name_object : json :=
  JObj [("Name", JObj [("first", JStr "Ann"); ("last", JStr "Lee")])].

Definition c10_raw (names : json) : dict :=
  [("credit_report_json",
    merged_report (JObj [("Borrower", JObj [("Name", names)])]))].

(** A tidy input: one trade, a partition record with the key of that trade,
    and a nested payload with an Equifax report of another account. *)
Definition tidy_payload_text : string :=
  jtext "{'BundleComponents': {'BundleComponent': [{'Type': 'EQFReportV6', 'CreditReportType': {'Tradeline': [{'creditorName': 'Capital One', 'accountNumber': '517805XXXXXX'}]}}]}}".

Definition tidy_raw : dict :=
  [("trades", JObj [("trades", JArr [chase_trade])]);
   ("credit_report_json",
    JObj [("rawReport", JStr tidy_payload_text);
          ("BundleComponents",
           JObj [("BundleComponent",
                  JArr [JObj [("Type", JStr "MergeCreditReports");
                              ("TrueLinkCreditReportType",
                               JObj [("TradeLinePartition",
                                      JArr [JObj [("Tradeline", chase_tradeline)]])])]])])])].

(** Search results with one inquiry in a list and one public record that is
    not in a list. *)
Definition search_raw : dict :=
  [("search_results",
    JObj [("inquiries",
           JArr [JObj [("bureau", JStr "TUC");
                       ("subscriberName", JStr "Chase Bank");
                       ("inquiryDate", JStr "2025-07-23")]]);
          ("publicRecords",
           JObj [("type", JStr "Bankruptcy"); ("amount", JStr "1200")])])].

(** An input with none of the sources the function reads. *)
Definition statistics_raw : dict :=
  [("statistics", JObj [("count", JInt 3)]); ("trades", JNull)].

(** A link with one tradeline partition. *)
Definition chase_link : json :=
  JObj [("TradeLinePartition", JArr [JObj [("Tradeline", chase_tradeline)]])].

(** Accounts for the export of test_normalize.py: a limit that is the text of
    a number, a high balance that is no number, and an item that is not an
    object. *)
Definition export_raw : dict :=
  [("accounts",
    JArr [JObj [("institution", JObj [("name", JStr "Chase Bank")]);
                ("creditLimitAmount", JStr "5000");
                ("highCreditAmount", JStr "n/a")];
          JInt 3])].

(** A borrower with a name, a number, an address and a previous address. *)
Definition person_raw : dict :=
  [("credit_report_json",
    merged_report
      (JObj [("Borrower",
              JObj [("Name", JArr [name_object]);
                    ("SocialSecurityNumber", JStr " 123-45-6789 ");
                    ("BorrowerAddress",
                     JObj [("CreditAddress",
                            JObj [("unparsedStreet", JStr "1 Main St");
                                  ("city", JStr "Austin")])]);
                    ("PreviousAddress",
                     JObj [("CreditAddress", JObj [("city", JStr "Dallas")]);
                           ("dateReported", JStr "2020-01-01")])])]))].

(** An input that feeds the three account passes: one trade, a partition
    record of another account, and a nested payload with an Equifax report of
    a third one. *)
Definition carmax_tradeline : json :=
  JObj [("creditorName", JStr "CarMax Auto Finance");
        ("accountNumber", JStr "413944XX");
        ("Source", JObj [("Bureau", JObj [("symbol", JStr "EXP")])]);
        ("currentBalance", JStr "8867");
        ("dateReported", JStr "2025-07-01")].

Definition carmax_link : json :=
  JObj [("TradeLinePartition", JArr [JObj [("Tradeline", carmax_tradeline)]])].

Definition three_pass_raw : dict :=
  [("trades", JObj [("trades", JArr [chase_trade])]);
   ("credit_report_json",
    JObj [("rawReport", JStr tidy_payload_text);
          ("BundleComponents",
           JObj [("BundleComponent",
                  JArr [JObj [("Type", JStr "MergeCreditReports");
                              ("TrueLinkCreditReportType", carmax_link)]])])])].

(** A nested payload that is one integer literal of 4301 digits, one more
    than [int] converts. *)
Definition digits_raw : dict :=
  [("credit_report_json",
    JObj [("rawReport", JStr (String.concat "" (repeat "1" 4301)))])].

End Inputs.
(** * Properties *)

Section Properties.
Context {FL : PyFloat} {RT : PyRuntime}.

(** ** Results and loops *)

Lemma bind_ok {A B : Type} (r : result A) (k : A -> result B) (b : B) :
  bind r k = Ok b -> exists a, r = Ok a /\ k a = Ok b.
Proof.
  destruct r as [a|e]; simpl; intros H; [exists a; auto | discriminate].
Qed.

(** A loop invariant for [foldM]. *)
Lemma foldM_invariant {A S : Type} (P : S -> Prop) (step : A -> S -> result S)
  (l : list A) :
  (forall x s s', In x l -> P s -> step x s = Ok s' -> P s') ->
  forall s s', P s -> foldM step l s = Ok s' -> P s'.
Proof.
  induction l as [|x l IH]; intros Hstep s s' Hs H; simpl in H.
  - inversion H; subst; exact Hs.
  - apply bind_ok in H. destruct H as [s1 [H1 H2]].
    apply (IH (fun y t t' Hy => Hstep y t t' (or_intror Hy)) s1 s'); auto.
    apply (Hstep x s s1); simpl; auto.
Qed.

(** A loop invariant for [fold_try]: the state kept after an exception
    satisfies it too. *)
Lemma fold_try_invariant {A S : Type} (P : S -> Prop)
  (step : A -> S -> S * option exn) (l : list A) :
  (forall x s, In x l -> P s -> P (fst (step x s))) ->
  forall s, P s -> P (fst (fold_try step l s)).
Proof.
  induction l as [|x l IH]; intros Hstep s Hs; simpl; [exact Hs|].
  pose proof (Hstep x s (or_introl eq_refl) Hs) as Hx.
  destruct (step x s) as [s1 [e|]]; simpl in *; [exact Hx|].
  apply IH; [intros y t Hy; apply Hstep; right; exact Hy | exact Hx].
Qed.

(** ** Dicts *)

Lemma dict_get_set (d : dict) (k k' : string) (v : json) :
  dict_get (dict_set d k v) k' = if String.eqb k k' then Some v else dict_get d k'.
Proof.
  induction d as [|[k0 v0] d IH]; simpl.
  - reflexivity.
  - destruct (String.eqb k0 k) eqn:E0; simpl.
    + apply String.eqb_eq in E0; subst k0.
      destruct (String.eqb k k'); reflexivity.
    + destruct (String.eqb k0 k') eqn:E1.
      * apply String.eqb_eq in E1; subst k0.
        rewrite String.eqb_sym, E0. reflexivity.
      * exact IH.
Qed.

(** ** C1: the score set *)

Ltac split_matches :=
  repeat match goal with
         | |- context [match ?x with _ => _ end] => destruct x eqn:?
         end.

Ltac oblivious_case :=
  solve [ eexists (Raise _); intros; reflexivity
        | exists (Ok []); intros; reflexivity
        | eexists (Ok [(_, _)]); intros; reflexivity ].

Lemma bundle_score_oblivious (comp : json) : oblivious (bundle_score comp).
Proof.
  unfold oblivious, bundle_score, or_else, bind.
  split_matches; oblivious_case.
Qed.

Lemma foldM_oblivious {A : Type} (step : A -> dict -> result dict) (l : list A) :
  (forall x, oblivious (step x)) -> oblivious (foldM step l).
Proof.
  intros Hstep. induction l as [|x l IH].
  - exists (Ok []). reflexivity.
  - destruct (Hstep x) as [[ws|e] Hx]; destruct IH as [[ws'|e'] Hl].
    + exists (Ok (ws ++ ws')%list). intros s. simpl. rewrite Hx. simpl.
      rewrite Hl. unfold apply_writes. rewrite fold_left_app. reflexivity.
    + exists (Raise e'). intros s. simpl. rewrite Hx. simpl. apply Hl.
    + exists (Raise e). intros s. simpl. rewrite Hx. reflexivity.
    + exists (Raise e). intros s. simpl. rewrite Hx. reflexivity.
Qed.

(** Reading a key after the writes: the last write to the key if there is
    one, the value the set had before otherwise. *)
Lemma apply_writes_get (ws : list (string * json)) (s : dict) (k : string) :
  dict_get (apply_writes ws s) k =
  match dict_get (apply_writes ws []) k with
  | Some v => Some v
  | None => dict_get s k
  end.
Proof.
  unfold apply_writes.
  assert (G : forall a b : dict,
             (forall k, dict_get a k = match dict_get b k with
                                       | Some v => Some v
                                       | None => dict_get s k
                                       end) ->
             forall k,
               dict_get (fold_left (fun s kv => dict_set s (fst kv) (snd kv)) ws a) k =
               match dict_get (fold_left (fun s kv => dict_set s (fst kv) (snd kv)) ws b) k with
               | Some v => Some v
               | None => dict_get s k
               end).
  { induction ws as [|[k0 v0] ws IH]; intros a b Hab k'; simpl.
    - apply Hab.
    - apply IH. intros k1. rewrite !dict_get_set.
      destruct (String.eqb k0 k1); [reflexivity | apply Hab]. }
  apply G. intros k'. reflexivity.
Qed.

(** What a run that returns a report went through, section by section. *)
Lemma normalize_report_ok (raw ov : dict) (w : list warning) (rep : report) :
  normalize_report raw ov = (w, Ok rep) ->
  exists st true_link borrower w1 w2 w3,
    navigate (cr_json_of raw) = (w1, Ok st) /\
    fallback_lookup (cr_json_of raw) st = Ok (true_link, borrower) /\
    personal_section (cr_json_of raw) borrower = Ok (personal_info rep) /\
    score_section (cr_json_of raw) borrower ov = (w2, Ok (scores rep)) /\
    account_section raw (raw_report_of (cr_json_of raw)) true_link
    = (w3, Ok (accounts rep)) /\
    inquiry_section raw true_link borrower = Ok (inquiries rep) /\
    public_record_entries raw [] = Ok (public_records rep) /\
    employer_section (cr_json_of raw) borrower = Ok (employers rep) /\
    w = (w1 ++ w2 ++ w3)%list.
Proof.
  unfold normalize_report.
  set (cr_json := cr_json_of raw).
  destruct (navigate cr_json) as [w1 [st|e]] eqn:E1; [|discriminate].
  unfold run_bind at 1.
  destruct (fallback_lookup cr_json st) as [[true_link borrower]|e] eqn:E2;
    [|discriminate].
  unfold quiet at 1. unfold run_bind at 1.
  destruct (personal_section cr_json borrower) as [info|e] eqn:E3; [|discriminate].
  unfold quiet at 1. unfold run_bind at 1.
  destruct (score_section cr_json borrower ov) as [w2 [sc|e]] eqn:E4; [|discriminate].
  unfold run_bind at 1.
  destruct (account_section raw (raw_report_of cr_json) true_link)
    as [w3 [accts|e]] eqn:E5; [|discriminate].
  unfold run_bind at 1.
  destruct (inquiry_section raw true_link borrower) as [inqs|e] eqn:E6; [|discriminate].
  unfold quiet at 1. unfold run_bind at 1.
  destruct (public_record_entries raw []) as [prs|e] eqn:E7; [|discriminate].
  unfold quiet at 1. unfold run_bind at 1.
  destruct (employer_section cr_json borrower) as [emps|e] eqn:E8; [|discriminate].
  unfold quiet. simpl. intros H. inversion H; subst. simpl.
  exists st, true_link, borrower, w1, w2, w3.
  rewrite !app_nil_r. repeat split; auto.
Qed.

(** The three account passes of a run that returns. *)
Lemma account_section_ok (raw : dict) (raw_report_str true_link : json)
  (w : list warning) (accts : list json) :
  account_section raw raw_report_str true_link = (w, Ok accts) ->
  exists from_trades from_partition,
    trade_accounts raw [] = Ok from_trades /\
    partition_accounts true_link from_trades = Ok from_partition /\
    report_accounts raw_report_str from_partition = (accts, w).
Proof.
  unfold account_section, run_bind, quiet, printed.
  destruct (trade_accounts raw []) as [t|e]; [|discriminate].
  destruct (partition_accounts true_link t) as [p|e] eqn:E2; [|discriminate].
  destruct (report_accounts raw_report_str p) as [a w'] eqn:E3. simpl.
  intros H. inversion H; subst. exists t, p. auto.
Qed.

(** ** Reading fields *)

Lemma get_field (v : json) (k : string) (x : json) :
  get v k = Ok x -> x = field v k.
Proof.
  destruct v; simpl; try discriminate. unfold get, get_or.
  destruct (dict_get d k); intros H; inversion H; reflexivity.
Qed.

Lemma get_dict_field (v : json) (k : string) (x : json) :
  get_dict v k = Ok x -> x = field v k \/ (x = JObj [] /\ field v k = JNull).
Proof.
  destruct v; simpl; try discriminate. unfold get_dict, get_or.
  destruct (dict_get d k); intros H; inversion H; auto.
Qed.

(** ** C1: the structured scores *)

Lemma apply_writes_app (a b : list (string * json)) (s : dict) :
  apply_writes (a ++ b) s = apply_writes b (apply_writes a s).
Proof. unfold apply_writes. apply fold_left_app. Qed.

(** Reading a key after the writes: the last write to the key if there is
    one, the value the set had otherwise. *)
Lemma apply_writes_last (ws : list (string * json)) (s : dict) (k : string) :
  dict_get (apply_writes ws s) k =
  match last_write ws k with
  | Some v => Some v
  | None => dict_get s k
  end.
Proof.
  induction ws as [|[k0 v0] ws IH] using rev_ind; [reflexivity|].
  rewrite apply_writes_app. unfold last_write. rewrite rev_app_distr.
  cbn [rev app find fst apply_writes fold_left snd].
  rewrite dict_get_set.
  destruct (String.eqb k0 k); [reflexivity | exact IH].
Qed.

Lemma falsy_field (c : json) (k : string) : truthy c = false -> field c k = JNull.
Proof.
  destruct c; try reflexivity. destruct d; [reflexivity | discriminate].
Qed.

Lemma get_or_empty_field (c : json) (k : string) (x : json) :
  get (py_or c (JObj [])) k = Ok x -> x = field c k.
Proof.
  unfold py_or. destruct (truthy c) eqn:T; [apply get_field|].
  intros H. inversion H. symmetry. apply falsy_field. exact T.
Qed.

Lemma get_dict_fields (v : json) (k : string) (x : json) :
  get_dict v k = Ok x -> forall k', field x k' = field (field v k) k'.
Proof.
  intros H k'. apply get_dict_field in H. destruct H as [-> | [-> E]];
    [reflexivity | rewrite E; reflexivity].
Qed.

Lemma supplied_cons (f : json -> option (string * json)) (x : json)
  (l : list json) :
  supplied f (x :: l) = (supplied f [x] ++ supplied f l)%list.
Proof. unfold supplied. cbn [flat_map]. rewrite app_nil_r. reflexivity. Qed.

(** What one step of the bundle score pass writes is what the component
    supplies. *)
Lemma bundle_score_supplied (comp : json) (s s' : dict) :
  bundle_score comp s = Ok s' ->
  s' = apply_writes (supplied structured_bundle_score [comp]) s.
Proof.
  unfold bundle_score. intros H.
  apply bind_ok in H. destruct H as (bureau & Hb & H). apply get_field in Hb.
  apply bind_ok in H. destruct H as (c & Hc & H). apply get_field in Hc.
  cbv zeta in H.
  apply bind_ok in H. destruct H as (r & Hr & H). apply get_or_empty_field in Hr.
  apply bind_ok in H. destruct H as (score & Hs & H).
  assert (E : score = component_score comp).
  { unfold component_score. cbv zeta. rewrite <- Hc, <- Hr.
    unfold or_else in Hs. unfold py_or.
    destruct (truthy r); [inversion Hs; reflexivity|].
    apply get_or_empty_field in Hs. exact Hs. }
  unfold supplied, structured_bundle_score. cbn [flat_map].
  rewrite <- Hb, <- E, app_nil_r.
  destruct (truthy score && truthy bureau); [|inversion H; reflexivity].
  unfold first_bureau, bureau_tokens, carries. cbn [filter fst].
  apply bind_ok in H. destruct H as (tuc & -> & H).
  destruct tuc; [inversion H; reflexivity|].
  apply bind_ok in H. destruct H as (eqf & -> & H).
  destruct eqf; [inversion H; reflexivity|].
  apply bind_ok in H. destruct H as (exp & -> & H).
  destruct exp; inversion H; reflexivity.
Qed.

Lemma bundle_scores_supplied (comps : list json) (s s' : dict) :
  foldM bundle_score comps s = Ok s' ->
  s' = apply_writes (supplied structured_bundle_score comps) s.
Proof.
  revert s. induction comps as [|comp comps IH]; intros s H; simpl in H.
  - inversion H. reflexivity.
  - apply bind_ok in H. destruct H as (s1 & H1 & H).
    apply bundle_score_supplied in H1. apply IH in H. subst s1.
    rewrite (supplied_cons _ comp comps), apply_writes_app. exact H.
Qed.

Lemma bureau_is_names (symbol name : json) (token descr : string) (b : bool) :
  bureau_is symbol name token descr = Ok b ->
  b = (py_eq symbol (JStr token) || (truthy name && carries name descr)).
Proof.
  unfold bureau_is, carries. destruct (py_eq symbol (JStr token)).
  - intros H. inversion H. reflexivity.
  - destruct (truthy name).
    + intros ->. reflexivity.
    + intros H. inversion H. reflexivity.
Qed.

(** What one step of the CreditScore pass writes is what the entry
    supplies. *)
Lemma credit_score_supplied (cs : json) (s s' : dict) :
  credit_score cs s = Ok s' ->
  s' = apply_writes (supplied structured_credit_score [cs]) s.
Proof.
  unfold credit_score. intros H.
  apply bind_ok in H. destruct H as (v & Hv & H). apply get_field in Hv.
  apply bind_ok in H. destruct H as (source & Hso & H).
  apply bind_ok in H. destruct H as (bi & Hbi & H).
  apply bind_ok in H. destruct H as (symbol & Hsy & H). apply get_field in Hsy.
  apply bind_ok in H. destruct H as (name & Hna & H). apply get_field in Hna.
  pose proof (get_dict_fields _ _ _ Hso "Bureau") as F1.
  pose proof (get_dict_fields _ _ _ Hbi) as F2.
  rewrite (F2 "symbol"), F1 in Hsy. rewrite (F2 "description"), F1 in Hna.
  unfold supplied, structured_credit_score. cbn [flat_map]. cbv zeta.
  rewrite <- Hv, <- Hsy, <- Hna, app_nil_r.
  destruct (truthy v && truthy symbol); [|inversion H; reflexivity].
  unfold first_bureau, bureau_tokens. cbn [filter fst snd].
  apply bind_ok in H. destruct H as (tuc & Ht & H).
  apply bureau_is_names in Ht. rewrite <- Ht.
  destruct tuc; [inversion H; reflexivity|].
  apply bind_ok in H. destruct H as (eqf & He & H).
  apply bureau_is_names in He. rewrite <- He.
  destruct eqf; [inversion H; reflexivity|].
  apply bind_ok in H. destruct H as (exp & Hx & H).
  apply bureau_is_names in Hx. rewrite <- Hx.
  destruct exp; inversion H; reflexivity.
Qed.

(** The CreditScore pass reads the entries up to the first one that raises,
    and what it has written then stays. *)
Lemma credit_scores_supplied (raw_report_str borrower : json) (s s' : dict)
  (wc : list warning) :
  credit_scores raw_report_str borrower s = (s', wc) ->
  exists read rest,
    credit_score_entries raw_report_str borrower = (read ++ rest)%list /\
    s' = apply_writes (supplied structured_credit_score read) s /\
    (rest = [] \/ exists e, wc = [WarnCreditScores e]).
Proof.
  assert (G : forall l t t' oe,
             fold_try (fun cs u => attempt (credit_score cs u) u) l t = (t', oe) ->
             exists read rest,
               l = (read ++ rest)%list /\
               t' = apply_writes (supplied structured_credit_score read) t /\
               (rest = [] \/ exists e, oe = Some e)).
  { induction l as [|cs l IH]; intros t t' oe H; simpl in H.
    - inversion H. exists [], []. auto.
    - destruct (credit_score cs t) as [t1|e] eqn:E; simpl in H.
      + apply IH in H. destruct H as (read & rest & -> & -> & Hr).
        exists (cs :: read), rest. split; [reflexivity|]. split; [|exact Hr].
        apply credit_score_supplied in E. subst t1.
        rewrite (supplied_cons _ cs read), apply_writes_app. reflexivity.
      + inversion H. exists [], (cs :: l). split; [reflexivity|].
        split; [reflexivity|]. right. exists e. reflexivity. }
  unfold credit_scores, credit_score_entries.
  destruct (truthy raw_report_str && truthy borrower);
    [|intros Hc; inversion Hc; exists [], []; auto].
  destruct (get_list borrower "CreditScore") as [v|e].
  - destruct v; try solve [intros Hc; inversion Hc; exists [], []; auto].
    destruct (fold_try _ l s) as [t' oe] eqn:F. intros Hc. inversion Hc; subst.
    apply G in F. destruct F as (read & rest & -> & -> & Hr).
    exists read, rest. split; [reflexivity|]. split; [reflexivity|].
    destruct Hr as [-> | [e ->]]; [left; reflexivity | right; exists e; reflexivity].
  - intros Hc; inversion Hc. exists [], []. auto.
Qed.

(** C1, as amended: a structured score wins.  The override is the set the
    structured passes write into.  Every bundle component of the credit
    report whose Type carries a bureau token and whose CreditScoreType has a
    riskScore or a score writes that score under its bureau, in the order
    of the components; then every entry that is read of the CreditScore array
    of the borrower writes its riskScore under the bureau its source
    names.  For every bureau the score of the report is the last of these
    writes, and the override value only when there is none.  All entries of
    the array are read unless the pass printed its warning. *)
Theorem structured_score_wins (raw ov : dict) (w : list warning) (rep : report) :
  normalize_report raw ov = (w, Ok rep) ->
  exists st true_link borrower w1 comps read rest,
    navigate (cr_json_of raw) = (w1, Ok st) /\
    fallback_lookup (cr_json_of raw) st = Ok (true_link, borrower) /\
    score_components (cr_json_of raw) = Ok comps /\
    credit_score_entries (raw_report_of (cr_json_of raw)) borrower
    = (read ++ rest)%list /\
    (rest = [] \/ exists e, In (WarnCreditScores e) w) /\
    let writes := (supplied structured_bundle_score comps
                   ++ supplied structured_credit_score read)%list in
    scores rep = apply_writes writes ov /\
    forall bureau,
      dict_get (scores rep) bureau =
      match last_write writes bureau with
      | Some structured => Some structured
      | None => dict_get ov bureau
      end.
Proof.
  intros H. apply normalize_report_ok in H.
  destruct H as (st & tl & b & w1 & w2 & w3 & Hn & Hf & _ & Hs & _ & _ & _ & _ & Hw).
  assert (S : exists comps read rest,
             score_components (cr_json_of raw) = Ok comps /\
             credit_score_entries (raw_report_of (cr_json_of raw)) b
             = (read ++ rest)%list /\
             (rest = [] \/ exists e, w2 = [WarnCreditScores e]) /\
             scores rep = apply_writes (supplied structured_bundle_score comps
                                        ++ supplied structured_credit_score read) ov).
  { unfold score_section in Hs. unfold score_components.
    destruct (is_dict (cr_json_of raw)) eqn:D.
    - unfold run_bind, quiet, printed in Hs.
      destruct (bundle_scores (cr_json_of raw) ov) as [s1|e] eqn:B;
        [|discriminate].
      destruct (credit_scores (raw_report_of (cr_json_of raw)) b s1)
        as [s2 wc] eqn:C.
      simpl in Hs. inversion Hs; subst.
      unfold bundle_scores in B.
      apply bind_ok in B. destruct B as (bc & -> & B).
      apply bind_ok in B. destruct B as (l & Hl & B).
      apply bind_ok in B. destruct B as (comps & Hc & B).
      cbn [bind]. rewrite Hl. cbn [bind]. rewrite Hc.
      apply bundle_scores_supplied in B.
      apply credit_scores_supplied in C.
      destruct C as (read & rest & Er & Es & Hr).
      exists comps, read, rest. split; [reflexivity|]. split; [exact Er|].
      split; [exact Hr|]. rewrite apply_writes_app, <- B. exact Es.
    - unfold quiet in Hs. inversion Hs; subst.
      exists [], [], []. split; [reflexivity|]. split; [|split; [auto | reflexivity]].
      unfold credit_score_entries, raw_report_of.
      destruct (cr_json_of raw); try reflexivity. discriminate. }
  destruct S as (comps & read & rest & Hc & Hr & Hq & Hsc).
  exists st, tl, b, w1, comps, read, rest.
  split; [exact Hn|]. split; [exact Hf|]. split; [exact Hc|]. split; [exact Hr|].
  split.
  { destruct Hq as [-> | [e ->]]; [left; reflexivity|].
    right. exists e. subst w. apply in_or_app. right. apply in_or_app. left.
    left. reflexivity. }
  cbv zeta. split; [exact Hsc|].
  intros bureau. rewrite Hsc. apply apply_writes_last.
Qed.

(** ** C8: the two naming conventions *)

Ltac invert_binds H :=
  repeat (apply bind_ok in H; destruct H as (? & ? & H)).

Ltac same_value_case :=
  do 2 eexists; split; [reflexivity | split; reflexivity].

Ltac coerced_case :=
  do 3 eexists;
  split; [reflexivity | split; [reflexivity | split; [reflexivity | eassumption]]].

Lemma number_if_null : number_if JNull = Ok JNull.
Proof. reflexivity. Qed.

Lemma trade_account_dual (trade a : json) :
  trade_account trade = Ok a -> dual_full a.
Proof.
  intros H. unfold trade_account in H. invert_binds H.
  inversion H; subst; clear H.
  repeat split; repeat constructor; simpl; first [same_value_case | coerced_case].
Qed.

(** What one step of pass 2 does: nothing, or it appends the record of a
    tradeline with a creditor name and an account number that its check does
    not find. *)
Lemma partition_tradeline_step (partition_item tradeline : json)
  (accts accts' : list json) :
  partition_tradeline partition_item tradeline accts = Ok accts' ->
  accts' = accts \/
  exists n c b acct,
    account_number_of tradeline = Ok n /\
    creditor_name_of tradeline = Ok c /\
    b = field (field (field tradeline "Source") "Bureau") "symbol" /\
    is_duplicate accts n c b = Ok false /\
    truthy c = true /\ truthy n = true /\
    accts' = (accts ++ [acct])%list /\
    key_of acct = (safe_string n, safe_string c, safe_string b) /\
    dual_full acct.
Proof.
  intros H. unfold partition_tradeline in H.
  destruct (is_dict tradeline); simpl in H; [|inversion H; auto].
  apply bind_ok in H. destruct H as (source & Hsource & H).
  apply bind_ok in H. destruct H as (bureau_info & Hbureau & H).
  apply bind_ok in H. destruct H as (b & Hb & H).
  apply bind_ok in H. destruct H as (bureau_name & _ & H).
  apply bind_ok in H. destruct H as (c & Hc & H).
  apply bind_ok in H. destruct H as (n & Hn & H).
  invert_binds H.
  match goal with
  | D : is_duplicate accts n c b = Ok ?d |- _ => destruct d
  end; simpl in H; [inversion H; auto|].
  destruct (truthy c) eqn:Tc; simpl in H; [|inversion H; auto].
  destruct (truthy n) eqn:Tn; simpl in H; [|inversion H; auto].
  inversion H; subst accts'; clear H. right.
  exists n, c, b. eexists.
  split; [exact Hn|]. split; [exact Hc|].
  split.
  { apply get_field in Hb. subst b.
    apply get_dict_field in Hsource. apply get_dict_field in Hbureau.
    destruct Hsource as [-> | [-> Hs]].
    - destruct Hbureau as [-> | [-> Hbi]]; [reflexivity|].
      rewrite Hbi. reflexivity.
    - rewrite Hs. destruct Hbureau as [-> | [-> _]]; reflexivity. }
  split; [assumption|]. split; [exact Tc|]. split; [exact Tn|].
  split; [reflexivity|]. split; [reflexivity|].
  repeat split; repeat constructor; simpl;
    first [same_value_case | coerced_case
           | (do 3 eexists; split; [reflexivity|]; split; [|split; [reflexivity|]];
              [| apply number_if_null]; reflexivity)].
Qed.

(** What one step of pass 3 does: nothing, or it appends the record of a
    tradeline that its check does not find. *)
Lemma report_tradeline_step (bureau_symbol : string) (tradeline : json)
  (accts accts' : list json) :
  report_tradeline bureau_symbol tradeline accts = Ok accts' ->
  accts' = accts \/
  exists n c acct,
    account_number_of tradeline = Ok n /\
    creditor_name_of tradeline = Ok c /\
    is_duplicate_report accts n c = Ok false /\
    accts' = (accts ++ [acct])%list /\
    key_of acct = (safe_string n, safe_string c, safe_string (JStr bureau_symbol)) /\
    dual_base acct.
Proof.
  intros H. unfold report_tradeline in H.
  apply bind_ok in H. destruct H as (c & Hc & H).
  apply bind_ok in H. destruct H as (n & Hn & H).
  invert_binds H.
  match goal with
  | D : is_duplicate_report accts n c = Ok ?d |- _ => destruct d
  end; simpl in H; [inversion H; auto|].
  inversion H; subst accts'; clear H. right.
  exists n, c. eexists.
  split; [exact Hn|]. split; [exact Hc|]. split; [assumption|].
  split; [reflexivity|]. split; [reflexivity|].
  repeat split; repeat constructor; simpl; first [same_value_case | coerced_case].
Qed.

Lemma appendM_invariant {A : Type} (P : json -> Prop) (f : A -> result json)
  (l : list A) (out out' : list json) :
  (forall x y, In x l -> f x = Ok y -> P y) ->
  Forall P out -> appendM f l out = Ok out' -> Forall P out'.
Proof.
  intros Hf Hout H. unfold appendM in H.
  revert H. apply foldM_invariant; [|exact Hout].
  intros x s s' Hx Hs Hstep.
  apply bind_ok in Hstep. destruct Hstep as (y & Hy & Hs').
  inversion Hs'; subst. apply Forall_app. split; [exact Hs|].
  constructor; [|constructor]. apply (Hf x y); auto.
Qed.

Lemma trade_accounts_dual (raw : dict) (accts : list json) :
  trade_accounts raw [] = Ok accts -> Forall dual_full accts.
Proof.
  intros H. unfold trade_accounts in H. invert_binds H.
  revert H. apply appendM_invariant; [|constructor].
  intros t a _. apply trade_account_dual.
Qed.

Lemma partition_accounts_dual (true_link : json) (accts accts' : list json) :
  Forall dual_full accts ->
  partition_accounts true_link accts = Ok accts' ->
  Forall dual_full accts'.
Proof.
  intros Hacc H. unfold partition_accounts in H.
  destruct (truthy true_link); [|inversion H; subst; exact Hacc].
  invert_binds H.
  revert H. apply foldM_invariant; [|exact Hacc].
  intros item s s' _ Hs Hitem. unfold partition_item_accounts in Hitem.
  invert_binds Hitem. revert Hitem. apply foldM_invariant; [|exact Hs].
  intros tl t t' _ Ht Hstep.
  apply partition_tradeline_step in Hstep.
  destruct Hstep as [-> | (n & c & b & acct & _ & _ & _ & _ & _ & _ & -> & _ & Hd)];
    [exact Ht|].
  apply Forall_app. split; [exact Ht | constructor; [exact Hd | constructor]].
Qed.

Lemma report_accounts_dual (raw_report_str : json) (accts accts' : list json)
  (w : list warning) :
  report_accounts raw_report_str accts = (accts', w) ->
  exists extra, accts' = (accts ++ extra)%list /\ Forall dual_base extra.
Proof.
  intros H.
  set (P := fun s : list json =>
              exists extra, s = (accts ++ extra)%list /\ Forall dual_base extra).
  assert (P0 : P accts) by (exists []; rewrite app_nil_r; auto).
  assert (Pc : forall comp s, P s -> P (fst (report_component comp s))).
  { intros comp s Hs. unfold report_component.
    destruct (get comp "Type") as [t|e]; [|exact Hs].
    destruct (is_bureau_report t); [|exact Hs].
    destruct (bureau_symbol_of t) as [sym|e]; simpl; [|exact Hs].
    destruct (report_tradelines comp) as [tls|e]; simpl; [|exact Hs].
    apply fold_try_invariant; [|exact Hs].
    intros tl a _ Ha. unfold attempt.
    destruct (report_tradeline sym tl a) as [a'|e] eqn:E; [|exact Ha].
    simpl. apply report_tradeline_step in E.
    destruct E as [-> | (n & c & acct & _ & _ & _ & -> & _ & Hd)]; [exact Ha|].
    destruct Ha as (extra & -> & Hex).
    exists (extra ++ [acct])%list. rewrite app_assoc. split; [reflexivity|].
    apply Forall_app. split; [exact Hex | constructor; [exact Hd | constructor]]. }
  unfold report_accounts in H.
  destruct (truthy raw_report_str); [|inversion H; subst; exact P0].
  destruct (payload_components raw_report_str) as [comps|e].
  - pose proof (fold_try_invariant P report_component comps
                  (fun x s _ Hs => Pc x s Hs) accts P0) as Hf.
    destruct (fold_try report_component comps accts) as [a oe].
    inversion H; subst. exact Hf.
  - inversion H; subst. exact P0.
Qed.

Lemma foldM_prefix {A : Type} (step : A -> list json -> result (list json))
  (l : list A) (out out' : list json) :
  (forall x s s', step x s = Ok s' -> exists e, s' = (s ++ e)%list) ->
  foldM step l out = Ok out' -> exists e, out' = (out ++ e)%list.
Proof.
  intros Hstep.
  apply (foldM_invariant (fun s => exists e, s = (out ++ e)%list)).
  - intros x s s' _ (e & ->) Hs. destruct (Hstep x _ _ Hs) as (e' & ->).
    exists (e ++ e')%list. rewrite app_assoc. reflexivity.
  - exists []. rewrite app_nil_r. reflexivity.
Qed.

Lemma partition_accounts_prefix (true_link : json) (accts accts' : list json) :
  partition_accounts true_link accts = Ok accts' ->
  exists e, accts' = (accts ++ e)%list.
Proof.
  unfold partition_accounts.
  destruct (truthy true_link);
    [|intros H; inversion H; exists []; rewrite app_nil_r; reflexivity].
  intros H. invert_binds H. revert H. apply foldM_prefix.
  intros item s s' Hs. unfold partition_item_accounts in Hs.
  invert_binds Hs. revert Hs. apply foldM_prefix.
  intros tl t t' Ht. apply partition_tradeline_step in Ht.
  destruct Ht as [-> | (n & c & b & acct & _ & _ & _ & _ & _ & _ & -> & _)].
  - exists []. rewrite app_nil_r. reflexivity.
  - eexists. reflexivity.
Qed.

(** What the three account passes contribute, each pinned by the pass that
    makes it. *)
Lemma account_passes (raw ov : dict) (w : list warning) (rep : report) :
  normalize_report raw ov = (w, Ok rep) ->
  exists st true_link borrower w1 w3 from_trades from_partition from_reports,
    navigate (cr_json_of raw) = (w1, Ok st) /\
    fallback_lookup (cr_json_of raw) st = Ok (true_link, borrower) /\
    trade_accounts raw [] = Ok from_trades /\
    partition_accounts true_link from_trades
    = Ok (from_trades ++ from_partition)%list /\
    report_accounts (raw_report_of (cr_json_of raw))
                    (from_trades ++ from_partition)%list
    = ((from_trades ++ from_partition) ++ from_reports, w3)%list /\
    accounts rep = (from_trades ++ from_partition ++ from_reports)%list.
Proof.
  intros H. apply normalize_report_ok in H.
  destruct H as (st & tl & b & w1 & w2 & w3 & Hn & Hf & _ & _ & Ha & _).
  apply account_section_ok in Ha. destruct Ha as (t & p & Ht & Hp & Hr).
  destruct (partition_accounts_prefix _ _ _ Hp) as (e2 & ->).
  destruct (report_accounts_dual _ _ _ _ Hr) as (e3 & He3 & _).
  exists st, tl, b, w1, w3, t, e2, e3.
  split; [exact Hn|]. split; [exact Hf|]. split; [exact Ht|].
  split; [exact Hp|]. split; [rewrite Hr, He3; reflexivity|].
  rewrite He3, app_assoc. reflexivity.
Qed.


(** ** Values that [safe_string] leaves as they are *)

Lemma clean_safe_string (v : json) : clean v = true -> safe_string v = v.
Proof.
  destruct v; simpl; try discriminate; auto.
  intros H. apply andb_true_iff in H. destruct H as [Hn He].
  apply String.eqb_eq in He. unfold safe_string. simpl. rewrite He, Hn.
  reflexivity.
Qed.

(** ** C9: a nested payload that does not parse *)

Lemma dict_get_remove (d : dict) (k k' : string) :
  dict_get (dict_remove d k) k' = if String.eqb k k' then None else dict_get d k'.
Proof.
  induction d as [|[k0 v0] d IH]; simpl.
  - destruct (String.eqb k k'); reflexivity.
  - destruct (String.eqb k0 k) eqn:E0.
    + apply String.eqb_eq in E0; subst k0. rewrite IH.
      destruct (String.eqb k k'); reflexivity.
    + simpl. destruct (String.eqb k0 k') eqn:E1; [|exact IH].
      apply String.eqb_eq in E1; subst k0.
      rewrite String.eqb_sym, E0. reflexivity.
Qed.

(** What [json.loads] raises: the handler of the first parse catches the
    [TypeError] and the [JSONDecodeError], and lets the plain [ValueError] and
    the [RecursionError] through. *)
Lemma loads_raise_cases (v : json) (e : exn) :
  loads v = Raise e ->
  parse_handler e = true \/
  (parse_handler e = false /\ (e = ValueError \/ e = RecursionError)).
Proof.
  destruct v; simpl; intros H; try (inversion H; left; reflexivity).
  destruct (json_loads s); inversion H; auto.
Qed.

(** The first parse: the failure is caught and printed, the locals stay
    [None]. *)
Lemma navigate_unparseable (c : dict) (v : json) (e : exn) :
  dict_get c "rawReport" = Some v -> truthy v = true -> loads v = Raise e ->
  parse_handler e = true ->
  navigate (JObj c) = ([WarnRawReport e], Ok (JNull, JNull)).
Proof.
  intros Hv Ht Hl Hc. unfold navigate, parse_raw_report, raw_report_of. simpl.
  rewrite Hv, Ht, Hl, Hc. reflexivity.
Qed.

(** The second parse, in pass 3: the failure is caught and printed, the
    accounts stay as they are. *)
Lemma report_accounts_unparseable (v : json) (e : exn) (accts : list json) :
  truthy v = true -> loads v = Raise e ->
  report_accounts v accts = (accts, [WarnBureauReports e]).
Proof.
  intros Ht Hl. unfold report_accounts, payload_components.
  rewrite Ht, Hl. reflexivity.
Qed.

Lemma credit_scores_absent (borrower : json) (s : dict) :
  credit_scores JNull borrower s = (s, []).
Proof. reflexivity. Qed.

Lemma report_accounts_absent (accts : list json) :
  report_accounts JNull accts = (accts, []).
Proof. reflexivity. Qed.

Lemma endpoint_other (raw : dict) (k : string) (v : json) :
  String.eqb "credit_report_json" k = false ->
  endpoint (dict_set raw "credit_report_json" v) k = endpoint raw k.
Proof. intros H. unfold endpoint. rewrite dict_get_set, H. reflexivity. Qed.

(** [normalize_report] section by section, with what is printed. *)
Lemma normalize_report_sections (raw ov : dict) :
  normalize_report raw ov =
  let cr_json := cr_json_of raw in
  match navigate cr_json with
  | (w1, Raise e) => (w1, Raise e)
  | (w1, Ok st) =>
  match fallback_lookup cr_json st with
  | Raise e => (w1, Raise e)
  | Ok (true_link, borrower) =>
  match personal_section cr_json borrower with
  | Raise e => (w1, Raise e)
  | Ok info =>
  match score_section cr_json borrower ov with
  | (w2, Raise e) => ((w1 ++ w2)%list, Raise e)
  | (w2, Ok sc) =>
  match account_section raw (raw_report_of cr_json) true_link with
  | (w3, Raise e) => ((w1 ++ w2 ++ w3)%list, Raise e)
  | (w3, Ok accts) =>
  match inquiry_section raw true_link borrower with
  | Raise e => ((w1 ++ w2 ++ w3)%list, Raise e)
  | Ok inqs =>
  match public_record_entries raw [] with
  | Raise e => ((w1 ++ w2 ++ w3)%list, Raise e)
  | Ok prs =>
  match employer_section cr_json borrower with
  | Raise e => ((w1 ++ w2 ++ w3)%list, Raise e)
  | Ok emps => ((w1 ++ w2 ++ w3)%list, Ok (mkReport info sc accts inqs prs emps))
  end end end end end end end end.
Proof.
  unfold normalize_report. cbv zeta.
  destruct (navigate (cr_json_of raw)) as [w1 [st|e]]; [|reflexivity].
  unfold run_bind at 1.
  destruct (fallback_lookup (cr_json_of raw) st) as [[true_link borrower]|e];
    [|simpl; rewrite app_nil_r; reflexivity].
  unfold quiet at 1. unfold run_bind at 1.
  destruct (personal_section (cr_json_of raw) borrower) as [info|e];
    [|simpl; rewrite app_nil_r; reflexivity].
  unfold quiet at 1. unfold run_bind at 1.
  destruct (score_section (cr_json_of raw) borrower ov) as [w2 [sc|e]];
    [|simpl; reflexivity].
  unfold run_bind at 1.
  destruct (account_section raw (raw_report_of (cr_json_of raw)) true_link)
    as [w3 [accts|e]]; [|simpl; reflexivity].
  unfold run_bind at 1.
  destruct (inquiry_section raw true_link borrower) as [inqs|e];
    [|simpl; rewrite app_nil_r; reflexivity].
  unfold quiet at 1. unfold run_bind at 1.
  destruct (public_record_entries raw []) as [prs|e];
    [|simpl; rewrite app_nil_r; reflexivity].
  unfold quiet at 1. unfold run_bind at 1.
  destruct (employer_section (cr_json_of raw) borrower) as [emps|e];
    simpl; rewrite app_nil_r; reflexivity.
Qed.

Lemma score_section_dict (c : dict) (borrower : json) (s : dict) :
  score_section (JObj c) borrower s =
  match bundle_scores (JObj c) s with
  | Ok s' => (snd (credit_scores (raw_report_of (JObj c)) borrower s'),
              Ok (fst (credit_scores (raw_report_of (JObj c)) borrower s')))
  | Raise e => ([], Raise e)
  end.
Proof.
  unfold score_section, run_bind, quiet, printed. simpl.
  destruct (bundle_scores (JObj c) s); reflexivity.
Qed.

Lemma account_section_passes (raw : dict) (raw_report_str true_link : json) :
  account_section raw raw_report_str true_link =
  match trade_accounts raw [] with
  | Raise e => ([], Raise e)
  | Ok t =>
      match partition_accounts true_link t with
      | Raise e => ([], Raise e)
      | Ok p => (snd (report_accounts raw_report_str p),
                 Ok (fst (report_accounts raw_report_str p)))
      end
  end.
Proof.
  unfold account_section, run_bind, quiet, printed.
  destruct (trade_accounts raw []); [|reflexivity].
  destruct (partition_accounts true_link a); reflexivity.
Qed.

(** X5: A nested payload that [json.loads] refuses with an exception the
    handler of the first parse catches (a [JSONDecodeError], or the [TypeError]
    of a payload that is no text): the run ends as the run without the
    payload ends.  When that run raises, this one raises the same exception;
    when it returns a report, this one returns the same report, except that
    the score pass over the borrower's CreditScore array, which is gated on
    the raw text and not on its parse, runs on the borrower the fallback
    lookup of the outer document finds.  Both failed parses are printed. *)
Theorem unparseable_payload_recovered (raw ov c : dict) (v : json) (e : exn) :
  cr_json_of raw = JObj c ->
  dict_get c "rawReport" = Some v ->
  truthy v = true ->
  loads v = Raise e ->
  parse_handler e = true ->
  match normalize_report (without_raw_report raw) ov with
  | (_, Raise x) =>
      exists w, normalize_report raw ov = (WarnRawReport e :: w, Raise x)
  | (_, Ok rep') =>
      exists true_link borrower,
        fallback_lookup (JObj c) (JNull, JNull) = Ok (true_link, borrower) /\
        normalize_report raw ov =
        ((WarnRawReport e :: snd (credit_scores v borrower (scores rep'))
          ++ [WarnBureauReports e])%list,
         Ok (with_scores rep' (fst (credit_scores v borrower (scores rep')))))
  end.
Proof.
  intros Hcr Hv Ht Hl Hc.
  set (c' := dict_remove c "rawReport").
  assert (F1 : cr_json_of (without_raw_report raw) = JObj c').
  { unfold without_raw_report. rewrite Hcr. unfold cr_json_of.
    rewrite dict_get_set, String.eqb_refl. reflexivity. }
  assert (F2 : navigate (JObj c') = ([], Ok (JNull, JNull))).
  { unfold navigate, parse_raw_report, raw_report_of, c'. simpl.
    rewrite dict_get_remove. reflexivity. }
  assert (F3 : forall st, fallback_lookup (JObj c') st = fallback_lookup (JObj c) st).
  { intros st. unfold fallback_lookup, lookup_merged, get_dict, get_or, c'.
    rewrite dict_get_remove. reflexivity. }
  assert (F5 : forall s, bundle_scores (JObj c') s = bundle_scores (JObj c) s).
  { intros s. unfold bundle_scores, get, get_or, c'.
    rewrite dict_get_remove. reflexivity. }
  assert (F6 : raw_report_of (JObj c') = JNull).
  { unfold raw_report_of, c'. rewrite dict_get_remove. reflexivity. }
  assert (F6' : raw_report_of (JObj c) = v).
  { unfold raw_report_of. rewrite Hv. reflexivity. }
  assert (F7 : trade_accounts (without_raw_report raw) [] = trade_accounts raw []).
  { unfold without_raw_report. rewrite Hcr. unfold trade_accounts.
    rewrite dict_get_set. reflexivity. }
  assert (F8 : forall out, search_inquiries (without_raw_report raw) out
                           = search_inquiries raw out).
  { intros out. unfold without_raw_report. rewrite Hcr. unfold search_inquiries.
    rewrite endpoint_other by reflexivity. reflexivity. }
  assert (F8' : public_record_entries (without_raw_report raw) []
                = public_record_entries raw []).
  { unfold without_raw_report. rewrite Hcr. unfold public_record_entries.
    rewrite endpoint_other by reflexivity. reflexivity. }
  assert (F9 : forall b, employer_section (JObj c') b = employer_section (JObj c) b).
  { intros b. unfold employer_section, fallback_employers, get, get_or, c'.
    rewrite dict_get_remove. reflexivity. }
  assert (F10 : forall tl b, inquiry_section (without_raw_report raw) tl b
                              = inquiry_section raw tl b).
  { intros tl b. unfold inquiry_section. rewrite F8. reflexivity. }
  rewrite (normalize_report_sections raw), (normalize_report_sections (without_raw_report raw)).
  cbv zeta.
  rewrite F1, Hcr, F2, (navigate_unparseable c v e Hv Ht Hl Hc), F3, F6, F6'.
  destruct (fallback_lookup (JObj c) (JNull, JNull)) as [[true_link borrower]|x];
    [|exists []; reflexivity].
  replace (personal_section (JObj c') borrower)
    with (personal_section (JObj c) borrower) by reflexivity.
  destruct (personal_section (JObj c) borrower) as [info|x];
    [|exists []; reflexivity].
  rewrite !score_section_dict, F5, F6, F6'.
  destruct (bundle_scores (JObj c) ov) as [s|x]; [|exists []; reflexivity].
  rewrite credit_scores_absent. simpl fst. simpl snd.
  rewrite !account_section_passes, F7.
  destruct (trade_accounts raw []) as [t|x]; [|eexists; reflexivity].
  destruct (partition_accounts true_link t) as [p|x]; [|eexists; reflexivity].
  rewrite report_accounts_absent, (report_accounts_unparseable v e p Ht Hl).
  simpl fst. simpl snd. rewrite F10, F8', F9.
  destruct (inquiry_section raw true_link borrower) as [inqs|x];
    [|eexists; reflexivity].
  destruct (public_record_entries raw []) as [prs|x]; [|eexists; reflexivity].
  destruct (employer_section (JObj c) borrower) as [emps|x];
    [|eexists; reflexivity].
  exists true_link, borrower. split; reflexivity.
Qed.

(** ** The first parse *)

Lemma get_or_raise (v : json) (k : string) (default : json) (e : exn) :
  get_or v k default = Raise e -> e = AttributeError.
Proof. destruct v; simpl; intros H; inversion H; reflexivity. Qed.

Lemma iter_raise (v : json) (e : exn) : iter v = Raise e -> e = TypeError.
Proof. destruct v; simpl; intros H; inversion H; reflexivity. Qed.

Lemma find_merged_caught (comps : list json) (st : locals) (e : exn) :
  snd (find_merged comps st) = Some e -> parse_handler e = true.
Proof.
  induction comps as [|comp rest IH]; simpl; [discriminate|].
  destruct (get comp "Type") as [t|x] eqn:Et.
  - destruct (py_eq t (JStr "MergeCreditReports")); [|exact IH].
    destruct (get_dict comp "TrueLinkCreditReportType") as [tl|x] eqn:El.
    + destruct (get_dict tl "Borrower") as [b|x] eqn:Eb; simpl; [discriminate|].
      intros H; inversion H; subst. apply get_or_raise in Eb. subst. reflexivity.
    + simpl. intros H; inversion H; subst. apply get_or_raise in El. subst.
      reflexivity.
  - simpl. intros H; inversion H; subst. apply get_or_raise in Et. subst.
    reflexivity.
Qed.

Lemma lookup_merged_caught (doc : json) (st : locals) (e : exn) :
  snd (lookup_merged doc st) = Some e -> parse_handler e = true.
Proof.
  unfold lookup_merged.
  destruct (get_dict doc "BundleComponents") as [bc|x] eqn:Eb.
  - destruct (is_dict bc); [|discriminate].
    destruct (get_list bc "BundleComponent") as [lst|x] eqn:El.
    + destruct (iter (wrap_dict lst)) as [comps|x] eqn:Ei.
      * apply find_merged_caught.
      * simpl. intros H; inversion H; subst. apply iter_raise in Ei. subst.
        reflexivity.
    + simpl. intros H; inversion H; subst. apply get_or_raise in El. subst.
      reflexivity.
  - simpl. intros H; inversion H; subst. apply get_or_raise in Eb. subst.
    reflexivity.
Qed.

(** X4: How the first parse of rawReport (main.py 83-107) ends.  It ends
    normally and prints nothing; or it ends normally and prints one warning,
    for an exception its handler catches: every exception of the lookups in
    the parsed payload is one of those; or it raises, and then what it raises
    is the plain [ValueError] or the [RecursionError] that [json.loads] itself
    raised on rawReport, and nothing is printed. *)
Theorem first_parse_outcome (cr_json : json) :
  (exists st, navigate cr_json = ([], Ok st)) \/
  (exists st e,
     navigate cr_json = ([WarnRawReport e], Ok st) /\ parse_handler e = true) \/
  (exists e,
     navigate cr_json = ([], Raise e) /\
     loads (raw_report_of cr_json) = Raise e /\
     (e = ValueError \/ e = RecursionError)).
Proof.
  unfold navigate. destruct (is_dict cr_json); [|left; eexists; reflexivity].
  unfold parse_raw_report.
  destruct (truthy (raw_report_of cr_json)); [|left; eexists; reflexivity].
  destruct (loads (raw_report_of cr_json)) as [doc|x] eqn:El.
  - pose proof (lookup_merged_caught doc (JNull, JNull)) as Hc.
    destruct (lookup_merged doc (JNull, JNull)) as [st [x|]]; simpl in Hc.
    + rewrite (Hc x eq_refl). right. left. exists st, x. split; auto.
    + left. exists st. reflexivity.
  - destruct (loads_raise_cases _ _ El) as [Hc | [Hc Hx]]; rewrite Hc.
    + right. left. exists (JNull, JNull), x. split; [reflexivity | exact Hc].
    + right. right. exists x. split; [reflexivity|]. split; [reflexivity | exact Hx].
Qed.

(** ** Absent sources *)

(** X6: Endpoints that are missing or empty: the report is empty, the score set
    is the override, nothing is printed and nothing raises. *)
Theorem absent_sources_empty_report (raw ov : dict) :
  cr_json_of raw = JObj [] ->
  truthy (endpoint raw "trades") = false ->
  truthy (endpoint raw "search_results") = false ->
  normalize_report raw ov = ([], Ok (mkReport (JObj []) ov [] [] [] [])).
Proof.
  intros Hc Ht Hs. rewrite normalize_report_sections. cbv zeta. rewrite Hc.
  assert (Ea : account_section raw (raw_report_of (JObj [])) JNull = ([], Ok [])).
  { rewrite account_section_passes. unfold trade_accounts.
    fold (endpoint raw "trades"). unfold py_or. rewrite Ht. reflexivity. }
  assert (Ei : inquiry_section raw JNull JNull = Ok []).
  { unfold inquiry_section, search_inquiries, py_or. rewrite Hs. reflexivity. }
  assert (Ep : public_record_entries raw [] = Ok []).
  { unfold public_record_entries, py_or. rewrite Hs. reflexivity. }
  change (navigate (JObj [])) with (([] : list warning), Ok (JNull, JNull)).
  cbv beta iota.
  change (fallback_lookup (JObj []) (JNull, JNull)) with (Ok (JNull, JNull)).
  cbv beta iota.
  change (personal_section (JObj []) JNull) with (Ok (JObj [])).
  change (score_section (JObj []) JNull ov) with (([] : list warning), Ok ov).
  cbv beta iota.
  rewrite Ea, Ei, Ep. reflexivity.
Qed.

(** ** The coercers [safe_number] and [safe_string] *)

(** X1: [safe_number] catches [TypeError] and [ValueError] only: it raises
    exactly when its argument is an [int] (or a [bool]) that [float] cannot
    hold, and what it raises then is [OverflowError]. *)
Theorem safe_number_raises_iff (val : json) (e : exn) :
  safe_number val = Raise e <->
  e = OverflowError /\ exists z, as_num val = Some (inl z) /\ float_of_int z = None.
Proof.
  split.
  - destruct val; simpl; try discriminate.
    + destruct b; simpl; destruct (float_of_int _) eqn:E; simpl; try discriminate;
        intros H; inversion H; split; eauto.
    + destruct (float_of_int z) eqn:E; simpl; try discriminate.
      intros H; inversion H; split; eauto.
    + destruct (String.eqb s ""); try discriminate.
      destruct (float_of_str s); discriminate.
  - intros [-> (z & Hz & Hf)].
    destruct val; simpl in Hz; try discriminate.
    + inversion Hz; subst. destruct b; simpl; rewrite Hf; reflexivity.
    + inversion Hz; subst. simpl. rewrite Hf. reflexivity.
Qed.

(** X2: What [safe_number] returns is null or a float, and for a text it is the
    float [float] reads in it, null when the text is empty or [float] refuses
    it. *)
Theorem safe_number_returns (val x : json) :
  safe_number val = Ok x ->
  (x = JNull \/ exists f, x = JFloat f) /\
  forall s, val = JStr s ->
    x = match float_of_str s with
        | Some f => if String.eqb s "" then JNull else JFloat f
        | None => JNull
        end.
Proof.
  intros H. split.
  - destruct val; simpl in H.
    + inversion H; auto.
    + destruct b; simpl in H; destruct (float_of_int _); inversion H; eauto.
    + destruct (float_of_int z); inversion H; eauto.
    + inversion H; eauto.
    + destruct (String.eqb s ""); [inversion H; auto|].
      destruct (float_of_str s); inversion H; eauto.
    + inversion H; auto.
    + inversion H; auto.
  - intros s ->. simpl in H.
    destruct (String.eqb s ""); destruct (float_of_str s); inversion H; reflexivity.
Qed.

Lemma drop_while_head (p : ascii -> bool) (l : list ascii) :
  match drop_while p l with
  | [] => True
  | c :: _ => p c = false
  end.
Proof.
  induction l as [|c l IH]; simpl; [exact I|].
  destruct (p c) eqn:E; [exact IH | exact E].
Qed.

Lemma drop_while_fixed (p : ascii -> bool) (l : list ascii) :
  match l with
  | [] => True
  | c :: _ => p c = false
  end -> drop_while p l = l.
Proof. destruct l as [|c l]; simpl; [reflexivity|]. intros ->. reflexivity. Qed.

Lemma drop_while_suffix (p : ascii -> bool) (l : list ascii) :
  exists d, l = (d ++ drop_while p l)%list.
Proof.
  induction l as [|c l [d IH]]; simpl; [exists []; reflexivity|].
  destruct (p c); [|exists []; reflexivity].
  exists (c :: d). simpl. rewrite <- IH. reflexivity.
Qed.

(** Stripping a stripped text changes nothing. *)
Lemma strip_with_idempotent (p : ascii -> bool) (s : string) :
  strip_with p (strip_with p s) = strip_with p s.
Proof.
  unfold strip_with, chars, of_chars.
  rewrite list_ascii_of_string_of_list_ascii.
  set (m := drop_while p (list_ascii_of_string s)).
  set (r := drop_while p (rev m)).
  assert (Hr : drop_while p r = r) by (apply drop_while_fixed, drop_while_head).
  assert (Hm : drop_while p (rev r) = rev r).
  { apply drop_while_fixed.
    destruct (drop_while_suffix p (rev m)) as [d Hd]. fold r in Hd.
    assert (E : m = (rev r ++ rev d)%list).
    { rewrite <- rev_app_distr, <- Hd, rev_involutive. reflexivity. }
    pose proof (drop_while_head p (list_ascii_of_string s)) as Hh. fold m in Hh.
    destruct (rev r) as [|c t]; [exact I|]. rewrite E in Hh. exact Hh. }
  rewrite Hm, rev_involutive, Hr. reflexivity.
Qed.

Lemma safe_string_is_clean (val : json) : clean (safe_string val) = true.
Proof.
  assert (G : forall u, clean (if nonempty (strip u) then JStr (strip u) else JNull)
                        = true).
  { intros u. destruct (nonempty (strip u)) eqn:E; [|reflexivity].
    unfold clean. rewrite E. unfold strip. rewrite strip_with_idempotent.
    rewrite String.eqb_refl. reflexivity. }
  unfold safe_string. destruct val; try reflexivity; apply G.
Qed.

(** X3: What [safe_string] returns is null or a non-empty text without
    surrounding whitespace, so that applying it again changes nothing. *)
Theorem safe_string_clean (val : json) :
  clean (safe_string val) = true /\ safe_string (safe_string val) = safe_string val.
Proof.
  split; [apply safe_string_is_clean|].
  exact (clean_safe_string _ (safe_string_is_clean val)).
Qed.

(** ** The keys of the score set *)

Lemma extends_override_set (ov s : dict) (b : string) (v : json) :
  In b bureau_names -> extends_override ov s -> extends_override ov (dict_set s b v).
Proof.
  intros Hb Hs k. rewrite dict_get_set.
  destruct (String.eqb b k) eqn:E.
  - apply String.eqb_eq in E. subst k. split; [tauto | discriminate].
  - apply Hs.
Qed.

Lemma bundle_score_writes_bureau (comp : json) (s s' : dict) :
  bundle_score comp s = Ok s' ->
  s' = s \/ exists b v, In b bureau_names /\ s' = dict_set s b v.
Proof.
  unfold bundle_score, or_else, bind, bureau_names.
  split_matches; intros H; inversion H; subst; simpl; eauto 8.
Qed.

Lemma credit_score_writes_bureau (cs : json) (s s' : dict) :
  credit_score cs s = Ok s' ->
  s' = s \/ exists b v, In b bureau_names /\ s' = dict_set s b v.
Proof.
  unfold credit_score, or_else, bind, bureau_names.
  split_matches; intros H; inversion H; subst; simpl; eauto 8.
Qed.

Lemma score_section_extends (cr_json borrower : json) (ov sc : dict)
  (w : list warning) :
  score_section cr_json borrower ov = (w, Ok sc) -> extends_override ov sc.
Proof.
  assert (P0 : extends_override ov ov) by (intros k; split; auto).
  unfold score_section. destruct (is_dict cr_json).
  2:{ intros H; inversion H; subst; exact P0. }
  unfold run_bind, quiet, printed.
  destruct (bundle_scores cr_json ov) as [s|e] eqn:Eb; [|discriminate].
  assert (Ps : extends_override ov s).
  { unfold bundle_scores in Eb. invert_binds Eb. revert Eb.
    apply foldM_invariant; [|exact P0].
    intros comp t t' _ Pt Hstep. apply bundle_score_writes_bureau in Hstep.
    destruct Hstep as [-> | (b & v & Hb & ->)]; [exact Pt|].
    apply extends_override_set; assumption. }
  destruct (credit_scores (raw_report_of cr_json) borrower s) as [s2 w2] eqn:Ec.
  simpl. intros H; inversion H; subst.
  unfold credit_scores in Ec.
  destruct (truthy (raw_report_of cr_json) && truthy borrower);
    [|inversion Ec; subst; exact Ps].
  destruct (get_list borrower "CreditScore") as [cs|e].
  2:{ inversion Ec; subst; exact Ps. }
  destruct cs; try (inversion Ec; subst; exact Ps).
  assert (Hstep : forall x t, extends_override ov t ->
                         extends_override ov (fst (attempt (credit_score x t) t))).
  { intros x t Pt. destruct (credit_score x t) as [t'|e] eqn:E; simpl; [|exact Pt].
    apply credit_score_writes_bureau in E.
    destruct E as [-> | (b & v & Hb & ->)]; [exact Pt|].
    apply extends_override_set; assumption. }
  pose proof (fold_try_invariant (extends_override ov)
                (fun cs s => attempt (credit_score cs s) s) l
                (fun x t _ => Hstep x t) s Ps) as Hf.
  destruct (fold_try (fun cs s => attempt (credit_score cs s) s) l s) as [s3 oe].
  inversion Ec; subst. exact Hf.
Qed.

(** X7: The score passes write the three bureau keys and nothing else: every
    other key of the report's score set holds what the override holds for it,
    and no key of the override is lost. *)
Theorem scores_extend_override (raw ov : dict) (w : list warning) (rep : report) :
  normalize_report raw ov = (w, Ok rep) -> extends_override ov (scores rep).
Proof.
  intros H. apply normalize_report_ok in H.
  destruct H as (st & tl & b & w1 & w2 & w3 & _ & _ & _ & Hs & _).
  exact (score_section_extends _ _ _ _ _ Hs).
Qed.

(** ** One object in the place of an array of objects *)

(** Two inputs on which every section computes the same give the same
    result. *)
Lemma normalize_report_congruence (raw1 raw2 ov : dict) :
  navigate (cr_json_of raw1) = navigate (cr_json_of raw2) ->
  (forall st, fallback_lookup (cr_json_of raw1) st = fallback_lookup (cr_json_of raw2) st) ->
  (forall b, personal_section (cr_json_of raw1) b = personal_section (cr_json_of raw2) b) ->
  (forall b s, score_section (cr_json_of raw1) b s = score_section (cr_json_of raw2) b s) ->
  raw_report_of (cr_json_of raw1) = raw_report_of (cr_json_of raw2) ->
  (forall b, employer_section (cr_json_of raw1) b = employer_section (cr_json_of raw2) b) ->
  trade_accounts raw1 [] = trade_accounts raw2 [] ->
  (forall out, search_inquiries raw1 out = search_inquiries raw2 out) ->
  public_record_entries raw1 [] = public_record_entries raw2 [] ->
  normalize_report raw1 ov = normalize_report raw2 ov.
Proof.
  intros Hn Hf Hp Hs Hr He Ht Hi Hpr.
  rewrite !normalize_report_sections. cbv zeta.
  rewrite Hn. destruct (navigate (cr_json_of raw2)) as [w1 [st|e]]; [|reflexivity].
  rewrite Hf. destruct (fallback_lookup (cr_json_of raw2) st) as [[tl b]|e];
    [|reflexivity].
  rewrite Hp, Hs, Hr, He, Hpr, !account_section_passes, Ht.
  unfold inquiry_section. rewrite Hi. reflexivity.
Qed.

Lemma dict_set_truthy (d : dict) (k : string) (v : json) :
  truthy (JObj (dict_set d k v)) = true.
Proof.
  destruct d as [|[k0 v0] d]; simpl; [reflexivity|].
  destruct (String.eqb k0 k); reflexivity.
Qed.

Lemma get_or_set (d : dict) (k k' : string) (v default : json) :
  get_or (JObj (dict_set d k v)) k' default =
  if String.eqb k k' then Ok v else get_or (JObj d) k' default.
Proof.
  unfold get_or. rewrite dict_get_set. destruct (String.eqb k k'); reflexivity.
Qed.

Lemma endpoint_set (raw : dict) (k k' : string) (v : json) :
  endpoint (dict_set raw k v) k' = if String.eqb k k' then v else endpoint raw k'.
Proof.
  unfold endpoint. rewrite dict_get_set. destruct (String.eqb k k'); reflexivity.
Qed.

Lemma cr_json_of_set (raw : dict) (k : string) (v : json) :
  String.eqb k "credit_report_json" = false ->
  cr_json_of (dict_set raw k v) = cr_json_of raw.
Proof. intros H. unfold cr_json_of. rewrite dict_get_set, H. reflexivity. Qed.

(** The items of a loop over one object are the items of the loop over the
    array of that object. *)
Lemma iter_wrap_object (o : dict) :
  iter (wrap_dict (JObj o)) = iter (wrap_dict (JArr [JObj o])).
Proof. reflexivity. Qed.

Lemma trade_accounts_set (raw t : dict) (x : json) (out : list json) :
  trade_accounts (dict_set raw "trades" (JObj (dict_set t "trades" x))) out =
  (trades <- iter (wrap_dict x) ;; appendM trade_account trades out).
Proof.
  unfold trade_accounts. rewrite dict_get_set, String.eqb_refl.
  unfold py_or. rewrite dict_set_truthy.
  unfold get_list. rewrite get_or_set, String.eqb_refl. reflexivity.
Qed.

(** X8: The trade list given as one object is read as the array of that object:
    the two inputs give the same result. *)
Theorem trades_shape_tolerance (raw t o ov : dict) :
  normalize_report (dict_set raw "trades" (JObj (dict_set t "trades" (JObj o)))) ov =
  normalize_report (dict_set raw "trades" (JObj (dict_set t "trades" (JArr [JObj o])))) ov.
Proof.
  apply normalize_report_congruence;
    rewrite ?cr_json_of_set by reflexivity; try reflexivity.
  - rewrite !trade_accounts_set. reflexivity.
  - intros out. unfold search_inquiries. rewrite !endpoint_set. reflexivity.
  - unfold public_record_entries. rewrite !endpoint_set. reflexivity.
Qed.

Lemma search_list_set (raw sr : dict) (k k' : string) (x : json) :
  get_list (py_or (endpoint (dict_set raw "search_results" (JObj (dict_set sr k x)))
                            "search_results") (JObj [])) k' =
  if String.eqb k k' then Ok x else get_list (JObj sr) k'.
Proof.
  rewrite endpoint_set, String.eqb_refl. unfold py_or. rewrite dict_set_truthy.
  unfold get_list. apply get_or_set.
Qed.

(** X9: The inquiries, or the public records, of the search results given as one
    object are read as the array of that object. *)
Theorem search_results_shape_tolerance (raw sr o ov : dict) (k : string) :
  k = "inquiries" \/ k = "publicRecords" ->
  normalize_report (dict_set raw "search_results" (JObj (dict_set sr k (JObj o)))) ov =
  normalize_report
    (dict_set raw "search_results" (JObj (dict_set sr k (JArr [JObj o])))) ov.
Proof.
  intros Hk. apply normalize_report_congruence;
    rewrite ?cr_json_of_set by reflexivity; try reflexivity.
  - unfold trade_accounts. rewrite !dict_get_set. reflexivity.
  - intros out. unfold search_inquiries. rewrite !search_list_set.
    destruct Hk as [-> | ->]; reflexivity.
  - unfold public_record_entries. rewrite !search_list_set.
    destruct Hk as [-> | ->]; reflexivity.
Qed.

Lemma cr_json_of_report (raw : dict) (v : json) :
  cr_json_of (dict_set raw "credit_report_json" v) = v.
Proof. unfold cr_json_of. rewrite dict_get_set, String.eqb_refl. reflexivity. Qed.

Lemma other_endpoints_of_report (raw ov : dict) (v1 v2 : json) :
  trade_accounts (dict_set raw "credit_report_json" v1) []
  = trade_accounts (dict_set raw "credit_report_json" v2) [] /\
  (forall out, search_inquiries (dict_set raw "credit_report_json" v1) out
               = search_inquiries (dict_set raw "credit_report_json" v2) out) /\
  public_record_entries (dict_set raw "credit_report_json" v1) []
  = public_record_entries (dict_set raw "credit_report_json" v2) [].
Proof.
  split; [|split].
  - unfold trade_accounts. rewrite !dict_get_set. reflexivity.
  - intros out. unfold search_inquiries. rewrite !endpoint_set. reflexivity.
  - unfold public_record_entries. rewrite !endpoint_set. reflexivity.
Qed.

(** X10: The bundle component list of the outer credit report given as one
    component is read as the array of that component, by the borrower lookup
    and by the score pass. *)
Theorem bundle_component_shape_tolerance (raw c bc o ov : dict) :
  normalize_report
    (dict_set raw "credit_report_json"
       (JObj (dict_set c "BundleComponents"
                (JObj (dict_set bc "BundleComponent" (JObj o)))))) ov =
  normalize_report
    (dict_set raw "credit_report_json"
       (JObj (dict_set c "BundleComponents"
                (JObj (dict_set bc "BundleComponent" (JArr [JObj o])))))) ov.
Proof.
  destruct (other_endpoints_of_report raw ov
              (JObj (dict_set c "BundleComponents"
                       (JObj (dict_set bc "BundleComponent" (JObj o)))))
              (JObj (dict_set c "BundleComponents"
                       (JObj (dict_set bc "BundleComponent" (JArr [JObj o]))))))
    as (Ht & Hi & Hp).
  apply normalize_report_congruence; rewrite ?cr_json_of_report; auto.
  - unfold navigate, raw_report_of. rewrite !dict_get_set. reflexivity.
  - intros st. unfold fallback_lookup, lookup_merged, get_dict, get_list.
    rewrite !get_or_set, !String.eqb_refl. cbv beta iota. simpl is_dict.
    cbv beta iota. rewrite !get_or_set, !String.eqb_refl. reflexivity.
  - intros b s. unfold score_section, bundle_scores, get, get_list, raw_report_of.
    rewrite !get_or_set, !String.eqb_refl, !dict_get_set. simpl bind.
    unfold py_or. rewrite !dict_set_truthy, !get_or_set, !String.eqb_refl.
    reflexivity.
  - unfold raw_report_of. rewrite !dict_get_set. reflexivity.
  - intros b. unfold employer_section, fallback_employers, get.
    rewrite !get_or_set. reflexivity.
Qed.

(** X11: The employers of the outer document's borrower block (main.py 718-726)
    given as one object are read as the array of that object. *)
Theorem fallback_employer_shape_tolerance (raw c bo o ov : dict) :
  normalize_report
    (dict_set raw "credit_report_json"
       (JObj (dict_set c "Borrower" (JObj (dict_set bo "Employer" (JObj o)))))) ov =
  normalize_report
    (dict_set raw "credit_report_json"
       (JObj (dict_set c "Borrower" (JObj (dict_set bo "Employer" (JArr [JObj o])))))) ov.
Proof.
  destruct (other_endpoints_of_report raw ov
              (JObj (dict_set c "Borrower" (JObj (dict_set bo "Employer" (JObj o)))))
              (JObj (dict_set c "Borrower"
                       (JObj (dict_set bo "Employer" (JArr [JObj o]))))))
    as (Ht & Hi & Hp).
  apply normalize_report_congruence; rewrite ?cr_json_of_report; auto.
  - unfold navigate, raw_report_of. rewrite !dict_get_set. reflexivity.
  - intros st. unfold fallback_lookup, lookup_merged, get_dict.
    rewrite !get_or_set. reflexivity.
  - intros b s. unfold score_section, bundle_scores, get, raw_report_of.
    rewrite !get_or_set, !dict_get_set. reflexivity.
  - unfold raw_report_of. rewrite !dict_get_set. reflexivity.
  - intros b. unfold employer_section, fallback_employers, get, get_list.
    rewrite !get_or_set, !String.eqb_refl. simpl bind. unfold py_or.
    rewrite !dict_set_truthy, !get_or_set, !String.eqb_refl. reflexivity.
Qed.

(** X12: The addresses, previous addresses, birth dates, inquiries and employers
    of the borrower block given as one object are read as the array of that
    object by every extractor that reads the borrower. *)
Theorem borrower_shape_tolerance (b o : dict) (k : string) :
  In k ["BorrowerAddress"; "PreviousAddress"; "Birth"; "Inquiry"; "Employer"] ->
  let b1 := JObj (dict_set b k (JObj o)) in
  let b2 := JObj (dict_set b k (JArr [JObj o])) in
  extract_personal_info b1 = extract_personal_info b2 /\
  (forall raw_report_str s, credit_scores raw_report_str b1 s
                            = credit_scores raw_report_str b2 s) /\
  (forall out, borrower_inquiries b1 out = borrower_inquiries b2 out) /\
  (forall out, borrower_employers b1 out = borrower_employers b2 out).
Proof.
  intros Hk b1 b2. subst b1 b2.
  assert (Hk' : k = "BorrowerAddress" \/ k = "PreviousAddress" \/ k = "Birth"
                \/ k = "Inquiry" \/ k = "Employer")
    by (simpl in Hk; intuition congruence).
  clear Hk.
  split; [|split; [|split]].
  - unfold extract_personal_info, extract_name, name_from_fields, extract_ssn,
      extract_address, extract_birth_date, get, get_list, get_dict.
    rewrite !get_or_set.
    destruct Hk' as [-> | [-> | [-> | [-> | ->]]]]; reflexivity.
  - intros rs s. unfold credit_scores, get_list.
    rewrite !dict_set_truthy, !get_or_set.
    destruct Hk' as [-> | [-> | [-> | [-> | ->]]]]; reflexivity.
  - intros out. unfold borrower_inquiries, get_list.
    rewrite !dict_set_truthy, !get_or_set.
    destruct Hk' as [-> | [-> | [-> | [-> | ->]]]]; reflexivity.
  - intros out. unfold borrower_employers, get_list.
    rewrite !dict_set_truthy, !get_or_set.
    destruct Hk' as [-> | [-> | [-> | [-> | ->]]]]; reflexivity.
Qed.

(** X13: The tradeline partition and the inquiry partition of the merged report
    given as one object are read as the array of that object. *)
Theorem partition_shape_tolerance (true_link o : dict) (k : string) :
  k = "TradeLinePartition" \/ k = "InquiryPartition" ->
  let t1 := JObj (dict_set true_link k (JObj o)) in
  let t2 := JObj (dict_set true_link k (JArr [JObj o])) in
  (forall accts, partition_accounts t1 accts = partition_accounts t2 accts) /\
  (forall out, partition_inquiries t1 out = partition_inquiries t2 out).
Proof.
  intros Hk t1 t2. subst t1 t2. split.
  - intros accts. unfold partition_accounts, get_list.
    rewrite !dict_set_truthy, !get_or_set.
    destruct Hk as [-> | ->]; reflexivity.
  - intros out. unfold partition_inquiries, get_list.
    rewrite !dict_set_truthy, !get_or_set.
    destruct Hk as [-> | ->]; reflexivity.
Qed.

(** ** Entities are carried one for one *)

Lemma appendM_one_for_one (f : json -> result json) (l : list json)
  (out out' : list json) :
  appendM f l out = Ok out' ->
  exists ys, out' = (out ++ ys)%list /\ one_for_one f l ys.
Proof.
  unfold appendM, one_for_one. revert out.
  induction l as [|x l IH]; intros out H; simpl in H.
  - inversion H. exists []. rewrite app_nil_r. split; [reflexivity | constructor].
  - apply bind_ok in H. destruct H as (s & Hs & H).
    apply bind_ok in Hs. destruct Hs as (y & Hy & Hs). inversion Hs; subst s.
    destruct (IH _ H) as (ys & -> & Hys).
    exists (y :: ys). rewrite <- app_assoc. split; [reflexivity|].
    constructor; assumption.
Qed.

Lemma trade_accounts_list (raw : dict) (out : list json) :
  trade_accounts raw out = (trades <- trade_list raw ;; appendM trade_account trades out).
Proof.
  unfold trade_accounts, trade_list, endpoint.
  destruct (get_list _ _); simpl; [|reflexivity].
  destruct (iter _); reflexivity.
Qed.

Lemma partition_tradelines_named (item : json) (l : list json)
  (accts accts' : list json) :
  foldM (partition_tradeline item) l accts = Ok accts' ->
  exists extra,
    accts' = (accts ++ extra)%list /\
    Forall (fun a => exists t, In t l /\ built_from_named t a) extra.
Proof.
  revert accts. induction l as [|t l IH]; intros accts H; simpl in H.
  - inversion H. exists []. rewrite app_nil_r. auto.
  - apply bind_ok in H. destruct H as (s & Hs & H).
    destruct (IH _ H) as (extra & -> & Hex).
    assert (Hex' : Forall (fun a => exists u, In u (t :: l) /\ built_from_named u a)
                          extra).
    { revert Hex. apply Forall_impl. intros a (u & Hu & Hb).
      exists u. split; [right; exact Hu | exact Hb]. }
    apply partition_tradeline_step in Hs.
    destruct Hs as [-> | (n & c & b & acct & Hn & Hc & Hb & _ & Tc & Tn & -> & Hk & _)].
    + exists extra. split; [reflexivity | exact Hex'].
    + exists (acct :: extra). rewrite <- app_assoc. split; [reflexivity|].
      constructor; [|exact Hex'].
      exists t. split; [left; reflexivity|].
      exists c, n. subst b. auto.
Qed.

Lemma partition_items_named (items : list json) (accts accts' seen : list json) :
  foldM partition_item_accounts items accts = Ok accts' ->
  exists tls extra,
    foldM (fun item seen =>
             tradeline_data <- get_dict item "Tradeline" ;;
             Ok (seen ++ tradelines_of tradeline_data)%list) items seen
    = Ok (seen ++ tls)%list /\
    accts' = (accts ++ extra)%list /\
    Forall (fun a => exists t, In t tls /\ built_from_named t a) extra.
Proof.
  revert accts seen. induction items as [|item items IH]; intros accts seen H;
    simpl in H.
  - inversion H. exists [], []. rewrite !app_nil_r. auto.
  - apply bind_ok in H. destruct H as (s & Hs & H).
    unfold partition_item_accounts in Hs.
    apply bind_ok in Hs. destruct Hs as (td & Htd & Hs).
    apply partition_tradelines_named in Hs. destruct Hs as (e1 & -> & He1).
    destruct (IH _ (seen ++ tradelines_of td)%list H) as (tls & e2 & Hf & -> & He2).
    exists (tradelines_of td ++ tls)%list, (e1 ++ e2)%list.
    split; [|split].
    + simpl. rewrite Htd. simpl. rewrite Hf, app_assoc. reflexivity.
    + rewrite app_assoc. reflexivity.
    + apply Forall_app. split.
      * revert He1. apply Forall_impl. intros a (u & Hu & Hb).
        exists u. split; [apply in_or_app; left; exact Hu | exact Hb].
      * revert He2. apply Forall_impl. intros a (u & Hu & Hb).
        exists u. split; [apply in_or_app; right; exact Hu | exact Hb].
Qed.

(** X14: Pass 2 changes no accumulated entry, and every entry it appends is
    built from one of the tradelines of the partition, a tradeline that has a
    creditor name and an account number (main.py 546): the key of the entry is
    the trimmed text of that number, of that name and of the bureau symbol of
    that tradeline. *)
Theorem partition_appends_named (true_link : json) (accts accts' : list json) :
  partition_accounts true_link accts = Ok accts' ->
  exists tradelines extra,
    partition_tradelines true_link = Ok tradelines /\
    accts' = (accts ++ extra)%list /\
    Forall (fun a => exists t, In t tradelines /\ built_from_named t a) extra.
Proof.
  unfold partition_accounts, partition_tradelines.
  destruct (truthy true_link).
  - intros H.
    apply bind_ok in H. destruct H as (tp & Htp & H).
    apply bind_ok in H. destruct H as (items & Hit & H).
    rewrite Htp. cbn [bind]. rewrite Hit. cbn [bind].
    apply (partition_items_named items accts accts' []) in H.
    destruct H as (tls & extra & Hf & He & Hx).
    exists tls, extra. split; [exact Hf|]. split; [exact He | exact Hx].
  - intros H. inversion H. exists [], []. rewrite app_nil_r. auto.
Qed.

(** X15: The first account pass drops, merges and reorders nothing: the accounts
    of the report start with one account for each trade of the trade list,
    in order, and the bundle-derived accounts come after them. *)
Theorem trades_come_first (raw ov : dict) (w : list warning) (rep : report) :
  normalize_report raw ov = (w, Ok rep) ->
  exists trades from_trades extra,
    trade_list raw = Ok trades /\
    one_for_one trade_account trades from_trades /\
    accounts rep = (from_trades ++ extra)%list.
Proof.
  intros H. apply normalize_report_ok in H.
  destruct H as (st & tl & b & w1 & w2 & w3 & _ & _ & _ & _ & Ha & _).
  apply account_section_ok in Ha. destruct Ha as (t & p & Ht & Hp & Hr).
  rewrite trade_accounts_list in Ht.
  apply bind_ok in Ht. destruct Ht as (trades & Hl & Ht).
  apply appendM_one_for_one in Ht. destruct Ht as (ys & -> & Hys).
  apply partition_accounts_prefix in Hp. destruct Hp as (e2 & ->).
  apply report_accounts_dual in Hr. destruct Hr as (e3 & -> & _).
  exists trades, ys, (e2 ++ e3)%list.
  split; [exact Hl|]. split; [exact Hys|].
  simpl. rewrite app_assoc. reflexivity.
Qed.

Lemma search_inquiries_list (raw : dict) (out : list json) :
  search_inquiries raw out =
  (items <- search_list raw "inquiries" ;; appendM search_inquiry items out).
Proof.
  unfold search_inquiries, search_list.
  destruct (get_list _ _); simpl; [|reflexivity].
  destruct (iter _); reflexivity.
Qed.

Lemma public_record_entries_list (raw : dict) (out : list json) :
  public_record_entries raw out =
  (items <- search_list raw "publicRecords" ;; appendM public_record items out).
Proof.
  unfold public_record_entries, search_list.
  destruct (get_list _ _); simpl; [|reflexivity].
  destruct (iter _); reflexivity.
Qed.

(** X16: No inquiry and no public record of the search results is dropped or
    merged: the inquiries of the report start with one entry for each inquiry
    of the search results, in order, and the public records are one entry for
    each public record of the search results, in order. *)
Theorem search_results_one_for_one (raw ov : dict) (w : list warning) (rep : report) :
  normalize_report raw ov = (w, Ok rep) ->
  exists iqs from_search more prs,
    search_list raw "inquiries" = Ok iqs /\
    one_for_one search_inquiry iqs from_search /\
    inquiries rep = (from_search ++ more)%list /\
    search_list raw "publicRecords" = Ok prs /\
    one_for_one public_record prs (public_records rep).
Proof.
  intros H. apply normalize_report_ok in H.
  destruct H as (st & tl & b & w1 & w2 & w3 & _ & _ & _ & _ & _ & Hi & Hp & _).
  unfold inquiry_section in Hi.
  apply bind_ok in Hi. destruct Hi as (i1 & H1 & Hi).
  apply bind_ok in Hi. destruct Hi as (i2 & H2 & H3).
  rewrite search_inquiries_list in H1.
  apply bind_ok in H1. destruct H1 as (iqs & Hl & H1).
  apply appendM_one_for_one in H1. destruct H1 as (ys & -> & Hys).
  rewrite public_record_entries_list in Hp.
  apply bind_ok in Hp. destruct Hp as (prs & Hpl & Hp).
  apply appendM_one_for_one in Hp. destruct Hp as (zs & -> & Hzs).
  assert (E2 : exists e, i2 = (ys ++ e)%list).
  { unfold partition_inquiries in H2.
    destruct (truthy tl); [|inversion H2; exists []; rewrite app_nil_r; reflexivity].
    invert_binds H2. revert H2. apply foldM_prefix.
    intros it s s' Hs. unfold partition_inquiry in Hs.
    apply bind_ok in Hs. destruct Hs as (d & _ & Hs).
    destruct (truthy d); [|inversion Hs; exists []; rewrite app_nil_r; reflexivity].
    invert_binds Hs. inversion Hs. eexists. reflexivity. }
  destruct E2 as (e2 & ->).
  assert (E3 : exists e, inquiries rep = ((ys ++ e2) ++ e)%list).
  { unfold borrower_inquiries in H3.
    destruct (truthy b); [|inversion H3; exists []; rewrite app_nil_r; reflexivity].
    invert_binds H3. apply appendM_one_for_one in H3.
    destruct H3 as (e & -> & _). exists e. reflexivity. }
  destruct E3 as (e3 & E3).
  exists iqs, ys, (e2 ++ e3)%list, prs.
  split; [exact Hl|]. split; [exact Hys|].
  split; [rewrite E3, app_assoc; reflexivity|].
  split; [exact Hpl | exact Hzs].
Qed.

(** ** The exceptions the function lets through *)

Lemma raises_only_ok {A : Type} (a : A) : raises_only (Ok a).
Proof. intros e H; discriminate. Qed.

Lemma raises_only_bind {A B : Type} (r : result A) (k : A -> result B) :
  raises_only r -> (forall a, raises_only (k a)) -> raises_only (bind r k).
Proof.
  intros Hr Hk e H. destruct r as [a|x]; simpl in H;
    [exact (Hk a e H) | inversion H; subst; exact (Hr e eq_refl)].
Qed.

Lemma raises_only_get_or (v : json) (k : string) (d : json) :
  raises_only (get_or v k d).
Proof. intros e H. apply get_or_raise in H. subst. reflexivity. Qed.

Lemma raises_only_get (v : json) (k : string) : raises_only (get v k).
Proof. apply raises_only_get_or. Qed.

Lemma raises_only_get_dict (v : json) (k : string) : raises_only (get_dict v k).
Proof. apply raises_only_get_or. Qed.

Lemma raises_only_get_list (v : json) (k : string) : raises_only (get_list v k).
Proof. apply raises_only_get_or. Qed.

Lemma raises_only_get_str (v : json) (k : string) : raises_only (get_str v k).
Proof. apply raises_only_get_or. Qed.

Lemma raises_only_iter (v : json) : raises_only (iter v).
Proof. intros e H. apply iter_raise in H. subst. reflexivity. Qed.

Lemma raises_only_str_in (s : string) (v : json) : raises_only (str_in s v).
Proof. intros e H. destruct v; simpl in H; inversion H; reflexivity. Qed.

Lemma raises_only_py_strip (v : json) : raises_only (py_strip v).
Proof. intros e H. destruct v; simpl in H; inversion H; reflexivity. Qed.

Lemma raises_only_strs (parts : list json) : raises_only (strs parts).
Proof.
  induction parts as [|p parts IH]; simpl; [apply raises_only_ok|].
  destruct p; try (intros e H; inversion H; reflexivity).
  apply raises_only_bind; [exact IH | intros l; apply raises_only_ok].
Qed.

Lemma raises_only_py_join (sep : string) (parts : list json) :
  raises_only (py_join sep parts).
Proof.
  unfold py_join. apply raises_only_bind;
    [apply raises_only_strs | intros l; apply raises_only_ok].
Qed.

Lemma raises_only_safe_number (val : json) : raises_only (safe_number val).
Proof.
  intros e. destruct val; simpl; try discriminate.
  - destruct b; simpl; destruct (float_of_int _); simpl; try discriminate;
      intros H; inversion H; reflexivity.
  - destruct (float_of_int z); simpl; try discriminate.
    intros H; inversion H; reflexivity.
  - destruct (String.eqb s ""); try discriminate.
    destruct (float_of_str s); discriminate.
Qed.

Lemma raises_only_number_if (x : json) : raises_only (number_if x).
Proof.
  unfold number_if. destruct (truthy x);
    [apply raises_only_safe_number | apply raises_only_ok].
Qed.

Lemma raises_only_or_else (a : json) (b : result json) :
  raises_only b -> raises_only (or_else a b).
Proof. unfold or_else. destruct (truthy a); [intros _; apply raises_only_ok | auto]. Qed.

Lemma raises_only_index0_cons (x : json) (l : list json) :
  raises_only (index0 (JArr (x :: l))).
Proof. apply raises_only_ok. Qed.

(** [v[0]] after the wrap of a dict and the test [if v]: no [KeyError], the
    dict is in a list, and no [IndexError], the value is not empty. *)
Lemma raises_only_index0_wrap (v : json) :
  truthy (wrap_dict v) = true -> raises_only (index0 (wrap_dict v)).
Proof.
  intros T e H. destruct v; simpl in *; try discriminate;
    try (inversion H; reflexivity).
  - destruct s; [discriminate | inversion H].
  - destruct l; [discriminate | inversion H].
Qed.

Lemma raises_only_foldM {A S : Type} (step : A -> S -> result S) (l : list A) (s : S) :
  (forall x t, raises_only (step x t)) -> raises_only (foldM step l s).
Proof.
  intros Hstep. revert s. induction l as [|x l IH]; intros s; simpl.
  - apply raises_only_ok.
  - apply raises_only_bind; [apply Hstep | intros t; apply IH].
Qed.

Lemma raises_only_appendM {A : Type} (f : A -> result json) (l : list A)
  (out : list json) :
  (forall x, raises_only (f x)) -> raises_only (appendM f l out).
Proof.
  intros Hf. unfold appendM. apply raises_only_foldM. intros x t.
  apply raises_only_bind; [apply Hf | intros y; apply raises_only_ok].
Qed.

Create HintDb raises discriminated.

#[local] Hint Resolve raises_only_ok raises_only_get_or raises_only_get
  raises_only_get_dict raises_only_get_list raises_only_get_str raises_only_iter
  raises_only_str_in raises_only_py_strip raises_only_py_join
  raises_only_safe_number raises_only_number_if raises_only_index0_cons
  raises_only_foldM raises_only_appendM : raises.

Ltac raises_step :=
  match goal with
  | |- raises_only (Ok _) => apply raises_only_ok
  | |- raises_only (bind _ _) => apply raises_only_bind; [|intros ?]
  | |- raises_only (or_else _ _) => apply raises_only_or_else
  | |- raises_only (match ?x with _ => _ end) => destruct x
  | |- _ => solve [auto with raises]
  end.

Ltac raises := cbv zeta; repeat raises_step.

Lemma raises_only_name_fields (d : json) : raises_only (name_fields d).
Proof. unfold name_fields. raises. Qed.

Lemma raises_only_join_name (parts : list json) : raises_only (join_name parts).
Proof. unfold join_name. raises. Qed.

#[local] Hint Resolve raises_only_name_fields raises_only_join_name : raises.

Lemma raises_only_find_primary (names : list json) : raises_only (find_primary names).
Proof. induction names as [|n names IH]; simpl; raises. Qed.

#[local] Hint Resolve raises_only_find_primary : raises.

Lemma raises_only_name_from_array (names name : json) :
  raises_only (name_from_array names name).
Proof. unfold name_from_array. raises. Qed.

Lemma raises_only_name_from_first (names name : json) :
  raises_only (name_from_first names name).
Proof. unfold name_from_first. raises. Qed.

Lemma raises_only_name_from_fields (borrower name : json) :
  raises_only (name_from_fields borrower name).
Proof. unfold name_from_fields. raises. Qed.

Lemma raises_only_name_of_items (items : list json) (name : json) :
  raises_only (name_of_items items name).
Proof. induction items as [|i items IH]; simpl; raises. Qed.

#[local] Hint Resolve raises_only_name_from_array raises_only_name_from_first
  raises_only_name_from_fields raises_only_name_of_items : raises.

Lemma raises_only_extract_name (borrower : json) : raises_only (extract_name borrower).
Proof. unfold extract_name. raises. Qed.

Lemma raises_only_extract_ssn (borrower : json) : raises_only (extract_ssn borrower).
Proof. unfold extract_ssn. raises. Qed.

Lemma raises_only_get_stripped (a : json) (k : string) : raises_only (get_stripped a k).
Proof. unfold get_stripped. raises. Qed.

#[local] Hint Resolve raises_only_get_stripped : raises.

Lemma raises_only_extract_address (borrower : json) :
  raises_only (extract_address borrower).
Proof.
  unfold extract_address. apply raises_only_bind; [auto with raises | intros a].
  cbv zeta. destruct (truthy (wrap_dict a)) eqn:T; [|apply raises_only_ok].
  apply raises_only_bind; [apply raises_only_index0_wrap; exact T | intros o].
  raises.
Qed.

Lemma raises_only_extract_birth_date (borrower : json) :
  raises_only (extract_birth_date borrower).
Proof.
  unfold extract_birth_date. apply raises_only_bind; [auto with raises | intros a].
  cbv zeta. destruct (truthy (wrap_dict a)) eqn:T; [|apply raises_only_ok].
  apply raises_only_bind; [apply raises_only_index0_wrap; exact T | intros o].
  raises.
Qed.

Lemma raises_only_street_parts (a : json) (keys : list string) :
  raises_only (street_parts a keys).
Proof. induction keys as [|k keys IH]; simpl; raises. Qed.

#[local] Hint Resolve raises_only_street_parts : raises.

Lemma raises_only_previous_address (prev_addr : json) :
  raises_only (previous_address prev_addr).
Proof. unfold previous_address. raises. Qed.

#[local] Hint Resolve raises_only_extract_name raises_only_extract_ssn
  raises_only_extract_address raises_only_extract_birth_date
  raises_only_previous_address : raises.

Lemma raises_only_extract_personal_info (borrower : json) :
  raises_only (extract_personal_info borrower).
Proof. unfold extract_personal_info. raises. Qed.

Lemma raises_only_bundle_score (comp : json) (s : dict) :
  raises_only (bundle_score comp s).
Proof. unfold bundle_score. raises. Qed.

#[local] Hint Resolve raises_only_extract_personal_info raises_only_bundle_score
  : raises.

Lemma raises_only_bundle_scores (cr_json : json) (s : dict) :
  raises_only (bundle_scores cr_json s).
Proof. unfold bundle_scores. raises. Qed.

Lemma raises_only_trade_account (trade : json) : raises_only (trade_account trade).
Proof. unfold trade_account. raises. Qed.

#[local] Hint Resolve raises_only_bundle_scores raises_only_trade_account : raises.

Lemma raises_only_trade_accounts (raw : dict) (accts : list json) :
  raises_only (trade_accounts raw accts).
Proof. unfold trade_accounts. raises. Qed.

Lemma raises_only_creditor_name_of (t : json) : raises_only (creditor_name_of t).
Proof. unfold creditor_name_of. raises. Qed.

Lemma raises_only_account_number_of (t : json) : raises_only (account_number_of t).
Proof. unfold account_number_of. raises. Qed.

Lemma raises_only_account_status_of (t : json) : raises_only (account_status_of t).
Proof. unfold account_status_of. raises. Qed.

Lemma raises_only_get2 (v : json) (k1 k2 : string) : raises_only (get2 v k1 k2).
Proof. unfold get2. raises. Qed.

Lemma raises_only_is_duplicate (accts : list json) (n c b : json) :
  raises_only (is_duplicate accts n c b).
Proof. induction accts as [|a accts IH]; simpl; raises. Qed.

#[local] Hint Resolve raises_only_trade_accounts raises_only_creditor_name_of
  raises_only_account_number_of raises_only_account_status_of raises_only_get2
  raises_only_is_duplicate : raises.

Lemma raises_only_partition_tradeline (item tl : json) (accts : list json) :
  raises_only (partition_tradeline item tl accts).
Proof. unfold partition_tradeline. raises. Qed.

#[local] Hint Resolve raises_only_partition_tradeline : raises.

Lemma raises_only_partition_item_accounts (item : json) (accts : list json) :
  raises_only (partition_item_accounts item accts).
Proof. unfold partition_item_accounts. raises. Qed.

#[local] Hint Resolve raises_only_partition_item_accounts : raises.

Lemma raises_only_partition_accounts (true_link : json) (accts : list json) :
  raises_only (partition_accounts true_link accts).
Proof. unfold partition_accounts. raises. Qed.

Lemma raises_only_search_inquiry (iq : json) : raises_only (search_inquiry iq).
Proof. unfold search_inquiry. raises. Qed.

Lemma raises_only_partition_inquiry (item : json) (out : list json) :
  raises_only (partition_inquiry item out).
Proof. unfold partition_inquiry. raises. Qed.

Lemma raises_only_borrower_inquiry (iq : json) : raises_only (borrower_inquiry iq).
Proof. unfold borrower_inquiry. raises. Qed.

Lemma raises_only_public_record (pr : json) : raises_only (public_record pr).
Proof. unfold public_record. raises. Qed.

Lemma raises_only_borrower_employer (emp : json) : raises_only (borrower_employer emp).
Proof. unfold borrower_employer. raises. Qed.

Lemma raises_only_fallback_employer (emp : json) : raises_only (fallback_employer emp).
Proof. unfold fallback_employer. raises. Qed.

#[local] Hint Resolve raises_only_partition_accounts raises_only_search_inquiry
  raises_only_partition_inquiry raises_only_borrower_inquiry
  raises_only_public_record raises_only_borrower_employer
  raises_only_fallback_employer : raises.

Lemma raises_only_inquiry_section (raw : dict) (true_link borrower : json) :
  raises_only (inquiry_section raw true_link borrower).
Proof.
  unfold inquiry_section, search_inquiries, partition_inquiries, borrower_inquiries.
  raises.
Qed.

Lemma raises_only_public_record_entries (raw : dict) (out : list json) :
  raises_only (public_record_entries raw out).
Proof. unfold public_record_entries. raises. Qed.

Lemma raises_only_employer_section (cr_json borrower : json) :
  raises_only (employer_section cr_json borrower).
Proof.
  unfold employer_section, borrower_employers, fallback_employers. raises.
Qed.

Lemma raises_only_personal_section (cr_json borrower : json) :
  raises_only (personal_section cr_json borrower).
Proof. unfold personal_section. raises. Qed.

Lemma find_merged_shape (comps : list json) (st : locals) (e : exn) :
  snd (find_merged comps st) = Some e -> shape_error e = true.
Proof.
  induction comps as [|comp rest IH]; simpl; [discriminate|].
  destruct (get comp "Type") as [t|x] eqn:Et.
  - destruct (py_eq t (JStr "MergeCreditReports")); [|exact IH].
    destruct (get_dict comp "TrueLinkCreditReportType") as [tl|x] eqn:El.
    + destruct (get_dict tl "Borrower") as [b|x] eqn:Eb; simpl; [discriminate|].
      intros H; inversion H; subst. exact (raises_only_get_dict _ _ _ Eb).
    + simpl. intros H; inversion H; subst. exact (raises_only_get_dict _ _ _ El).
  - simpl. intros H; inversion H; subst. exact (raises_only_get _ _ _ Et).
Qed.

Lemma raises_only_fallback_lookup (cr_json : json) (st : locals) :
  raises_only (fallback_lookup cr_json st).
Proof.
  unfold fallback_lookup.
  destruct (is_dict cr_json && negb (truthy (snd st))); [|apply raises_only_ok].
  unfold lookup_merged.
  destruct (get_dict cr_json "BundleComponents") as [bc|x] eqn:Eb.
  - destruct (is_dict bc); [|apply raises_only_ok].
    destruct (get_list bc "BundleComponent") as [lst|x] eqn:El.
    + destruct (iter (wrap_dict lst)) as [comps|x] eqn:Ei.
      * pose proof (find_merged_shape comps st) as Hc.
        destruct (find_merged comps st) as [st' [x|]]; simpl in Hc;
          [|apply raises_only_ok].
        intros e H; inversion H; subst. apply Hc. reflexivity.
      * intros e H; inversion H; subst. exact (raises_only_iter _ _ Ei).
    + intros e H; inversion H; subst. exact (raises_only_get_list _ _ _ El).
  - intros e H; inversion H; subst. exact (raises_only_get_dict _ _ _ Eb).
Qed.

Lemma run_raises_only_bind {A B : Type} (m : run A) (k : A -> run B) :
  run_raises_only m -> (forall a, run_raises_only (k a)) ->
  run_raises_only (run_bind m k).
Proof.
  intros Hm Hk w e H. destruct m as [w1 [a|x]]; simpl in H.
  - destruct (k a) as [w2 r] eqn:Ek. inversion H; subst.
    exact (Hk a w2 e Ek).
  - inversion H; subst. exact (Hm w e eq_refl).
Qed.

Lemma run_raises_only_quiet {A : Type} (r : result A) :
  raises_only r -> run_raises_only (quiet r).
Proof. intros Hr w e H. inversion H; subst. apply Hr. reflexivity. Qed.

Lemma run_raises_only_printed {A : Type} (p : A * list warning) :
  run_raises_only (printed p).
Proof. intros w e H. discriminate. Qed.

Lemma run_bind_raise {A B : Type} (m : run A) (k : A -> run B)
  (w : list warning) (e : exn) :
  run_bind m k = (w, Raise e) ->
  m = (w, Raise e) \/ exists a w1 w2, m = (w1, Ok a) /\ k a = (w2, Raise e).
Proof.
  destruct m as [w1 [a|x]]; simpl.
  - destruct (k a) as [w2 r] eqn:Ek. intros H. inversion H; subst.
    right. exists a, w1, w2. split; [reflexivity | exact Ek].
  - intros H. left. inversion H; subst. reflexivity.
Qed.

(** What the first parse raises is what [json.loads] raised on rawReport and
    the handler does not catch. *)
Lemma navigate_raise (cr_json : json) (w : list warning) (e : exn) :
  navigate cr_json = (w, Raise e) ->
  loads (raw_report_of cr_json) = Raise e /\ (e = ValueError \/ e = RecursionError).
Proof.
  unfold navigate. destruct (is_dict cr_json); [|discriminate].
  unfold parse_raw_report.
  destruct (truthy (raw_report_of cr_json)); [|discriminate].
  destruct (loads (raw_report_of cr_json)) as [doc|x] eqn:El.
  - pose proof (lookup_merged_caught doc (JNull, JNull)) as Hc.
    destruct (lookup_merged doc (JNull, JNull)) as [st [x|]]; simpl in Hc;
      [|discriminate].
    rewrite (Hc x eq_refl). discriminate.
  - destruct (loads_raise_cases _ _ El) as [Hc | [Hc Hx]]; rewrite Hc;
      [discriminate|].
    intros H. inversion H; subst. split; [reflexivity | exact Hx].
Qed.

(** X17: An exception [normalize_report] ends with is an [AttributeError], a
    [TypeError] or an [OverflowError], raised on a document of the wrong shape
    or on an oversized number, or it is the plain [ValueError] or the
    [RecursionError] that [json.loads] raised on rawReport in the first parse:
    no [KeyError], no [IndexError], no [JSONDecodeError], and no [ValueError]
    from anything but that parse. *)
Theorem escaping_exceptions (raw ov : dict) (w : list warning) (e : exn) :
  normalize_report raw ov = (w, Raise e) ->
  e = AttributeError \/ e = TypeError \/ e = OverflowError \/
  ((e = ValueError \/ e = RecursionError) /\
   loads (raw_report_of (cr_json_of raw)) = Raise e).
Proof.
  intros H. unfold normalize_report in H. cbv zeta in H.
  apply run_bind_raise in H.
  destruct H as [Hn | (st & w1 & w2 & _ & Hk)].
  { apply navigate_raise in Hn. destruct Hn as [Hl Hx]. auto. }
  assert (S : shape_error e = true).
  { match type of Hk with
    | ?t = _ => assert (R : run_raises_only t)
    end; [|exact (R _ _ Hk)].
    apply run_raises_only_bind;
      [apply run_raises_only_quiet, raises_only_fallback_lookup | intros [tl b]].
    apply run_raises_only_bind;
      [apply run_raises_only_quiet, raises_only_personal_section | intros info].
    apply run_raises_only_bind; [|intros sc].
    { unfold score_section. destruct (is_dict (cr_json_of raw));
        [|apply run_raises_only_quiet, raises_only_ok].
      apply run_raises_only_bind;
        [apply run_raises_only_quiet, raises_only_bundle_scores | intros s].
      apply run_raises_only_printed. }
    apply run_raises_only_bind; [|intros accts].
    { unfold account_section.
      apply run_raises_only_bind;
        [apply run_raises_only_quiet, raises_only_trade_accounts | intros t].
      apply run_raises_only_bind;
        [apply run_raises_only_quiet, raises_only_partition_accounts | intros p].
      apply run_raises_only_printed. }
    apply run_raises_only_bind;
      [apply run_raises_only_quiet, raises_only_inquiry_section | intros inqs].
    apply run_raises_only_bind;
      [apply run_raises_only_quiet, raises_only_public_record_entries | intros prs].
    apply run_raises_only_bind;
      [apply run_raises_only_quiet, raises_only_employer_section | intros emps].
    apply run_raises_only_quiet, raises_only_ok. }
  destruct e; simpl in S; try discriminate; auto.
Qed.

(** ** main_fixed.py against main.py *)

Lemma appendM_of_one_for_one (f : json -> result json) (l ys out : list json) :
  one_for_one f l ys -> appendM f l out = Ok (out ++ ys)%list.
Proof.
  unfold appendM, one_for_one. intros H. revert out.
  induction H as [|x y l ys Hxy _ IH]; intros out; simpl.
  - rewrite app_nil_r. reflexivity.
  - rewrite Hxy. simpl. rewrite IH, <- app_assoc. reflexivity.
Qed.

Lemma appendM_from_empty (f : json -> result json) (l out out' : list json) :
  appendM f l out = Ok out' ->
  exists ys, appendM f l [] = Ok ys /\ out' = (out ++ ys)%list.
Proof.
  intros H. apply appendM_one_for_one in H. destruct H as (ys & -> & Hys).
  exists ys. split; [|reflexivity].
  exact (appendM_of_one_for_one f l ys [] Hys).
Qed.

Lemma personal_section_fixed (cr_json borrower info : json) :
  personal_section cr_json borrower = Ok info ->
  exists info',
    main_fixed.personal_section cr_json borrower = Ok info' /\
    forall k, k <> "previous_addresses" -> field info' k = field info k.
Proof.
  unfold personal_section, main_fixed.personal_section.
  destruct (is_dict cr_json && truthy borrower).
  - unfold extract_personal_info, main_fixed.extract_personal_info. intros H.
    apply bind_ok in H. destruct H as (name & -> & H).
    apply bind_ok in H. destruct H as (ssn & -> & H).
    apply bind_ok in H. destruct H as (addr & -> & H).
    apply bind_ok in H. destruct H as (birth & -> & H).
    invert_binds H. inversion H; subst info. cbn [bind].
    eexists. split; [reflexivity|]. intros k Hk.
    unfold field. cbn [dict_get].
    destruct (String.eqb "name" k); [reflexivity|].
    destruct (String.eqb "ssn" k); [reflexivity|].
    destruct (String.eqb "dateOfBirth" k); [reflexivity|].
    destruct (String.eqb "address" k); [reflexivity|].
    destruct (String.eqb "previous_addresses" k) eqn:E; [|reflexivity].
    apply String.eqb_eq in E. congruence.
  - intros H. inversion H; subst. eexists. split; [reflexivity | auto].
Qed.

(** X18: Whenever main.py's [normalize_report] returns a report, so does
    main_fixed.py's on the same input, and its report is the first pass of
    main.py's: the scores are the override as it was passed, the accounts and
    the inquiries are a prefix, the public records are the same, the
    employers are a suffix, and the personal info agrees on every key but
    the previous addresses. *)
Theorem fixed_is_first_pass (raw ov : dict) (w : list warning) (rep : report) :
  normalize_report raw ov = (w, Ok rep) ->
  exists w' rep',
    main_fixed.normalize_report raw ov = (w', Ok rep') /\
    scores rep' = ov /\
    (exists more, accounts rep = (accounts rep' ++ more)%list) /\
    (exists more, inquiries rep = (inquiries rep' ++ more)%list) /\
    public_records rep = public_records rep' /\
    (exists before, employers rep = (before ++ employers rep')%list) /\
    (forall k, k <> "previous_addresses" ->
       field (personal_info rep') k = field (personal_info rep) k).
Proof.
  intros H. apply normalize_report_ok in H.
  destruct H as (st & tl & b & w1 & w2 & w3 & Hn & Hf & Hp & _ & Ha & Hi & Hr & He & _).
  apply personal_section_fixed in Hp. destruct Hp as (info' & Hp & Hinfo).
  apply account_section_ok in Ha. destruct Ha as (t & p & Ht & Hpa & Hra).
  apply partition_accounts_prefix in Hpa. destruct Hpa as (e2 & ->).
  apply report_accounts_dual in Hra. destruct Hra as (e3 & Hacc & _).
  unfold inquiry_section in Hi.
  apply bind_ok in Hi. destruct Hi as (i1 & H1 & Hi).
  apply bind_ok in Hi. destruct Hi as (i2 & H2 & H3).
  assert (E2 : exists e, i2 = (i1 ++ e)%list).
  { unfold partition_inquiries in H2.
    destruct (truthy tl); [|inversion H2; exists []; rewrite app_nil_r; reflexivity].
    invert_binds H2. revert H2. apply foldM_prefix.
    intros it s s' Hs. unfold partition_inquiry in Hs.
    apply bind_ok in Hs. destruct Hs as (d & _ & Hs).
    destruct (truthy d); [|inversion Hs; exists []; rewrite app_nil_r; reflexivity].
    invert_binds Hs. inversion Hs. eexists. reflexivity. }
  destruct E2 as (q2 & ->).
  assert (E3 : exists e, inquiries rep = ((i1 ++ q2) ++ e)%list).
  { unfold borrower_inquiries in H3.
    destruct (truthy b); [|inversion H3; exists []; rewrite app_nil_r; reflexivity].
    invert_binds H3. apply appendM_one_for_one in H3.
    destruct H3 as (e & -> & _). exists e. reflexivity. }
  destruct E3 as (q3 & E3).
  unfold employer_section in He.
  apply bind_ok in He. destruct He as (m1 & _ & He).
  unfold fallback_employers in He.
  apply bind_ok in He. destruct He as (bo & Hbo & He).
  apply bind_ok in He. destruct He as (el & Hel & He).
  apply bind_ok in He. destruct He as (items & Hit & He).
  apply appendM_from_empty in He. destruct He as (m2 & Hm2 & Hemp).
  exists w1, (mkReport info' ov t i1 (public_records rep) m2).
  split.
  { unfold main_fixed.normalize_report. cbv zeta.
    rewrite Hn. unfold run_bind at 1. rewrite Hf. unfold quiet at 1.
    unfold run_bind at 1. rewrite Hp. unfold quiet at 1.
    unfold run_bind at 1. rewrite Ht. unfold quiet at 1.
    unfold run_bind at 1. rewrite H1. unfold quiet at 1.
    unfold run_bind at 1. rewrite Hr. unfold quiet at 1.
    unfold run_bind at 1. unfold fallback_employers.
    rewrite Hbo. simpl bind. rewrite Hel. simpl bind. rewrite Hit. simpl bind.
    rewrite Hm2. unfold quiet. simpl. rewrite app_nil_r. reflexivity. }
  simpl. split; [reflexivity|].
  split; [exists (e2 ++ e3)%list; rewrite Hacc, app_assoc; reflexivity|].
  split; [exists (q2 ++ q3)%list; rewrite E3, app_assoc; reflexivity|].
  split; [reflexivity|].
  split; [exists m1; exact Hemp | exact Hinfo].
Qed.

(** ** The fallback of [main] *)

Lemma bundle_scores_oblivious (cr_json : json) : oblivious (bundle_scores cr_json).
Proof.
  unfold bundle_scores.
  destruct (get cr_json "BundleComponents") as [bc|e];
    [|exists (Raise e); reflexivity].
  simpl bind.
  destruct (get_list (py_or bc (JObj [])) "BundleComponent") as [comps|e];
    [|exists (Raise e); reflexivity].
  simpl bind.
  destruct (iter (wrap_dict comps)) as [l|e]; [|exists (Raise e); reflexivity].
  simpl bind. apply foldM_oblivious. exact bundle_score_oblivious.
Qed.

(** X19: When [main] reads the scores in the credit report, the bundle pass of
    [normalize_report] finds the same components again and writes the same
    scores: it returns, and every key reads as it did. *)
Theorem fallback_scores_stable (aggregated s : dict) :
  is_dict (cr_json_of aggregated) = true ->
  main_fallback_scores aggregated = Ok s ->
  exists s',
    bundle_scores (cr_json_of aggregated) s = Ok s' /\
    forall k, dict_get s' k = dict_get s k.
Proof.
  unfold main_fallback_scores, cr_json_of.
  destruct (bundle_scores_oblivious
              (match dict_get aggregated "credit_report_json" with
               | Some v => v
               | None => JObj []
               end)) as [r Hr].
  destruct (dict_get aggregated "credit_report_json") as [cr|].
  - intros D. rewrite D. rewrite (Hr []), (Hr s).
    destruct r as [ws|e]; [|discriminate].
    intros H. inversion H; subst s. eexists. split; [reflexivity|].
    intros k. rewrite apply_writes_get.
    destruct (dict_get (apply_writes ws []) k); reflexivity.
  - intros _ H. inversion H; subst s. exists []. split; reflexivity.
Qed.

(** ** test_normalize.py *)

Lemma clean_amount_not_text (v : json) : is_text (test_normalize.clean_amount v) = false.
Proof.
  destruct v; try reflexivity. simpl. destruct (float_of_str s); reflexivity.
Qed.

Lemma account_records_forall (P : json -> Prop) (items : list json) :
  (forall acct, P (test_normalize.account_record acct)) ->
  Forall P (test_normalize.account_records items).
Proof.
  intros H. induction items as [|x items IH]; simpl; [constructor|].
  destruct x; try exact IH. constructor; [apply H | exact IH].
Qed.

(** X20: No cleaned amount of an exported record is a text: a text amount has
    become its float, or 0 when [float] refuses it. *)
Theorem exported_amounts_not_text (raw : dict) (records : list json) :
  test_normalize.normalize_and_export_test raw = Ok records ->
  Forall (fun r => forall k, In k cleaned_amounts -> is_text (field r k) = false)
         records.
Proof.
  unfold test_normalize.normalize_and_export_test. intros H.
  invert_binds H. inversion H; subst records.
  apply account_records_forall. intros acct k Hk.
  unfold cleaned_amounts in Hk. simpl in Hk.
  destruct Hk as [<- | [<- | [<- | []]]]; apply clean_amount_not_text.
Qed.

Lemma same_value_or (d : dict) (k1 k2 : string) (default : json) :
  same_value (JObj d) k1 k2 ->
  py_or (test_normalize.dget d k2 JNull) (test_normalize.dget d k1 default)
  = field (JObj d) k1.
Proof.
  intros (d' & v & E & H1 & H2). inversion E; subst d'.
  unfold test_normalize.dget, field, py_or. rewrite H1, H2.
  destruct (truthy v); reflexivity.
Qed.

Lemma account_record_exported (d : dict) :
  dual_base (JObj d) -> exported (JObj d) (test_normalize.account_record d).
Proof.
  intros [Ht _]. unfold text_pairs in Ht.
  inversion Ht as [|p1 l1 T1 Ht1]; subst.
  inversion Ht1 as [|p2 l2 T2 Ht2]; subst.
  inversion Ht2 as [|p3 l3 T3 Ht3]; subst.
  inversion Ht3 as [|p4 l4 _ Ht4]; subst.
  inversion Ht4 as [|p5 l5 T5 _]; subst.
  simpl fst in *. simpl snd in *.
  unfold exported.
  constructor; [|constructor; [|constructor; [|constructor; [|constructor]]]].
  - change (py_or (test_normalize.dget d "maskedAccountNumber" JNull)
                  (test_normalize.dget d "account_number" (JStr "Unknown"))
            = field (JObj d) "account_number").
    apply same_value_or. exact T5.
  - change (py_or (test_normalize.dget d "accountType" JNull)
                  (test_normalize.dget d "account_type" (JStr "Unknown"))
            = field (JObj d) "account_type").
    apply same_value_or. exact T1.
  - change (py_or (test_normalize.dget d "accountStatus" JNull)
                  (test_normalize.dget d "status" (JStr "Unknown"))
            = field (JObj d) "status").
    apply same_value_or. exact T2.
  - change (py_or (test_normalize.dget d "openDateFormatted" JNull)
                  (test_normalize.dget d "open_date" (JStr "Unknown"))
            = field (JObj d) "open_date").
    apply same_value_or. exact T3.
Qed.

Lemma account_records_exported (accts : list json) :
  Forall dual_base accts ->
  Forall2 exported accts (test_normalize.account_records accts).
Proof.
  induction 1 as [|a accts Ha _ IH]; simpl; [constructor|].
  assert (D : exists d, a = JObj d).
  { destruct Ha as [Ht _]. inversion Ht as [|p l (d & v & E & _) _]. eauto. }
  destruct D as (d & ->).
  constructor; [apply account_record_exported; exact Ha | exact IH].
Qed.

(** X21: The export of test_normalize.py takes every account of a report of
    [normalize_report]: it returns one record for each account, in order, and
    the record has the number, the type, the status and the open date of the
    account, never the placeholder. *)
Theorem report_accounts_exported (raw ov : dict) (w : list warning) (rep : report) :
  normalize_report raw ov = (w, Ok rep) ->
  exists records,
    test_normalize.normalize_and_export_test [("accounts", JArr (accounts rep))]
    = Ok records /\
    Forall2 exported (accounts rep) records.
Proof.
  intros H. apply normalize_report_ok in H.
  destruct H as (st & tl & b & w1 & w2 & w3 & _ & _ & _ & _ & Ha & _).
  apply account_section_ok in Ha. destruct Ha as (t & p & Ht & Hp & Hr).
  apply report_accounts_dual in Hr. destruct Hr as (extra & He & Hx).
  assert (Hd : Forall dual_base (accounts rep)).
  { rewrite He. apply Forall_app. split; [|exact Hx].
    apply (Forall_impl dual_base (fun a (F : dual_full a) => proj1 F)).
    apply (partition_accounts_dual tl t p); [|exact Hp].
    apply (trade_accounts_dual raw); exact Ht. }
  exists (test_normalize.account_records (accounts rep)).
  split; [reflexivity|]. apply account_records_exported. exact Hd.
Qed.

(** ** The shape of the report *)

Lemma safe_number_value (val x : json) :
  safe_number val = Ok x -> null_or_float x = true.
Proof.
  intros H. destruct val; simpl in H.
  - inversion H; reflexivity.
  - destruct b; simpl in H; destruct (float_of_int _); inversion H; reflexivity.
  - destruct (float_of_int z); inversion H; reflexivity.
  - inversion H; reflexivity.
  - destruct (String.eqb s ""); [inversion H; reflexivity|].
    destruct (float_of_str s); inversion H; reflexivity.
  - inversion H; reflexivity.
  - inversion H; reflexivity.
Qed.

Lemma extract_address_value (borrower a : json) :
  extract_address borrower = Ok a -> null_or_text a = true.
Proof.
  unfold extract_address. intros H.
  apply bind_ok in H. destruct H as (addrs & _ & H). cbv zeta in H.
  destruct (truthy (wrap_dict addrs)); [|inversion H; reflexivity].
  invert_binds H.
  match type of H with
  | Ok ?v = Ok _ => assert (E : a = v) by congruence
  end.
  rewrite E. destruct (filter nonempty _); reflexivity.
Qed.

Lemma previous_address_shape (prev_addr e : json) :
  previous_address prev_addr = Ok e -> previous_address_entry e.
Proof.
  unfold previous_address. intros H. invert_binds H.
  match type of H with
  | Ok (JObj [(_, ?a); (_, ?d); (_, ?b)]) = Ok _ =>
      assert (E : e = JObj [("address", a); ("date_reported", d); ("bureau", b)])
        by congruence;
      assert (Ca : clean a = true)
        by (destruct (nonempty _); [apply safe_string_is_clean | reflexivity])
  end.
  rewrite E. unfold previous_address_entry.
  split; [reflexivity|]. split; [exact Ca|].
  split; apply safe_string_is_clean.
Qed.

(** X22: The personal info of a report is the empty object, or an object with
    exactly the keys name, ssn, dateOfBirth, address and previous_addresses:
    the first three null or a non-empty text without surrounding whitespace,
    the address null or a text, and every previous address an object with the
    keys address, date_reported and bureau, each null or such a text. *)
Theorem personal_info_has_shape (raw ov : dict) (w : list warning) (rep : report) :
  normalize_report raw ov = (w, Ok rep) -> personal_info_shape (personal_info rep).
Proof.
  intros H. apply normalize_report_ok in H.
  destruct H as (st & tl & b & w1 & w2 & w3 & _ & _ & Hp & _).
  unfold personal_section in Hp.
  destruct (is_dict (cr_json_of raw) && truthy b);
    [|inversion Hp; left; reflexivity].
  right. unfold extract_personal_info in Hp.
  apply bind_ok in Hp. destruct Hp as (name & _ & Hp).
  apply bind_ok in Hp. destruct Hp as (ssn & _ & Hp).
  apply bind_ok in Hp. destruct Hp as (addr & Ha & Hp).
  apply bind_ok in Hp. destruct Hp as (birth & _ & Hp).
  apply bind_ok in Hp. destruct Hp as (pa & _ & Hp).
  apply bind_ok in Hp. destruct Hp as (items & _ & Hp).
  apply bind_ok in Hp. destruct Hp as (previous & Hprev & Hp).
  inversion Hp.
  split; [reflexivity|].
  split; [apply safe_string_is_clean|].
  split; [apply safe_string_is_clean|].
  split; [apply safe_string_is_clean|].
  split; [exact (extract_address_value _ _ Ha)|].
  exists previous. split; [reflexivity|].
  revert Hprev. apply appendM_invariant; [|constructor].
  intros x y _. apply previous_address_shape.
Qed.

Lemma foldM_forall {A : Type} (P : json -> Prop)
  (step : A -> list json -> result (list json)) (l : list A) (out out' : list json) :
  (forall x s s', Forall P s -> step x s = Ok s' -> Forall P s') ->
  Forall P out -> foldM step l out = Ok out' -> Forall P out'.
Proof.
  intros Hstep. apply (foldM_invariant (Forall P)).
  intros x s s' _. apply Hstep.
Qed.

Lemma Forall_snoc (P : json -> Prop) (l : list json) (x : json) :
  Forall P l -> P x -> Forall P (l ++ [x])%list.
Proof. intros Hl Hx. apply Forall_app. split; [exact Hl | constructor; auto]. Qed.

(** X23: Every inquiry of a report is an object with exactly the keys bureau,
    business_name, inquiry_date and type, whichever of the three sources it
    comes from; every public record has exactly the keys type, date_filed,
    status and amount, the amount null or a float; every employer has exactly
    the keys name, date_reported and bureau. *)
Theorem entries_have_shape (raw ov : dict) (w : list warning) (rep : report) :
  normalize_report raw ov = (w, Ok rep) ->
  Forall (fun e => field_names e = inquiry_keys) (inquiries rep) /\
  Forall (fun e => field_names e = public_record_keys /\
                   null_or_float (field e "amount") = true) (public_records rep) /\
  Forall (fun e => field_names e = employer_keys) (employers rep).
Proof.
  intros H. apply normalize_report_ok in H.
  destruct H as (st & tl & b & w1 & w2 & w3 & _ & _ & _ & _ & _ & Hi & Hp & He & _).
  split; [|split].
  - unfold inquiry_section in Hi.
    apply bind_ok in Hi. destruct Hi as (i1 & H1 & Hi).
    apply bind_ok in Hi. destruct Hi as (i2 & H2 & H3).
    assert (F1 : Forall (fun e => field_names e = inquiry_keys) i1).
    { unfold search_inquiries in H1. invert_binds H1. revert H1.
      apply appendM_invariant; [|constructor].
      intros it y _ Hy. unfold search_inquiry in Hy. invert_binds Hy.
      inversion Hy. reflexivity. }
    assert (F2 : Forall (fun e => field_names e = inquiry_keys) i2).
    { unfold partition_inquiries in H2.
      destruct (truthy tl); [|inversion H2; subst; exact F1].
      invert_binds H2. revert H2. apply foldM_forall; [|exact F1].
      intros it s s' Hs Hx. unfold partition_inquiry in Hx.
      apply bind_ok in Hx. destruct Hx as (d & _ & Hx).
      destruct (truthy d); [|inversion Hx; subst; exact Hs].
      invert_binds Hx. inversion Hx. apply Forall_snoc; [exact Hs | reflexivity]. }
    unfold borrower_inquiries in H3.
    destruct (truthy b); [|inversion H3; subst; exact F2].
    invert_binds H3. revert H3. apply appendM_invariant; [|exact F2].
    intros it y _ Hy. unfold borrower_inquiry in Hy. invert_binds Hy.
    inversion Hy. reflexivity.
  - unfold public_record_entries in Hp. invert_binds Hp. revert Hp.
    apply appendM_invariant; [|constructor].
    intros it y _ Hy. unfold public_record in Hy.
    apply bind_ok in Hy. destruct Hy as (t & _ & Hy).
    apply bind_ok in Hy. destruct Hy as (d & _ & Hy).
    apply bind_ok in Hy. destruct Hy as (s & _ & Hy).
    apply bind_ok in Hy. destruct Hy as (a & _ & Hy).
    apply bind_ok in Hy. destruct Hy as (amount & Hn & Hy).
    inversion Hy. split; [reflexivity|].
    exact (safe_number_value _ _ Hn).
  - unfold employer_section in He.
    apply bind_ok in He. destruct He as (e1 & H1 & H2).
    assert (F1 : Forall (fun e => field_names e = employer_keys) e1).
    { unfold borrower_employers in H1.
      destruct (truthy b); [|inversion H1; constructor].
      invert_binds H1. revert H1. apply appendM_invariant; [|constructor].
      intros it y _ Hy. unfold borrower_employer in Hy. invert_binds Hy.
      inversion Hy. reflexivity. }
    unfold fallback_employers in H2. invert_binds H2. revert H2.
    apply appendM_invariant; [|exact F1].
    intros it y _ Hy. unfold fallback_employer in Hy. invert_binds Hy.
    inversion Hy. reflexivity.
Qed.

Lemma trade_account_keys (trade a : json) :
  trade_account trade = Ok a -> field_names a = account_keys.
Proof.
  unfold trade_account. intros H. invert_binds H. inversion H. reflexivity.
Qed.

Lemma partition_tradeline_keys (item tl : json) (accts accts' : list json) :
  Forall (fun a => field_names a = account_keys) accts ->
  partition_tradeline item tl accts = Ok accts' ->
  Forall (fun a => field_names a = account_keys) accts'.
Proof.
  intros Ha H. unfold partition_tradeline in H.
  destruct (negb (is_dict tl)); [inversion H; subst; exact Ha|].
  invert_binds H. inversion H.
  match goal with
  | |- Forall _ (if ?c then _ else _) => destruct c
  end; [|exact Ha].
  apply Forall_snoc; [exact Ha | reflexivity].
Qed.

Lemma report_tradeline_keys (sym : string) (tl : json) (accts accts' : list json) :
  report_tradeline sym tl accts = Ok accts' ->
  accts' = accts \/
  exists a, accts' = (accts ++ [a])%list /\ field_names a = bureau_report_account_keys.
Proof.
  intros H. unfold report_tradeline in H. invert_binds H. inversion H.
  match goal with
  | |- (if ?c then _ else _) = _ \/ _ => destruct c
  end; [|left; reflexivity].
  right. eexists. split; reflexivity.
Qed.

Lemma report_accounts_keys (raw_report_str : json) (accts accts' : list json)
  (w : list warning) :
  report_accounts raw_report_str accts = (accts', w) ->
  exists extra,
    accts' = (accts ++ extra)%list /\
    Forall (fun a => field_names a = bureau_report_account_keys) extra.
Proof.
  intros H.
  set (P := fun s : list json =>
              exists extra,
                s = (accts ++ extra)%list /\
                Forall (fun a => field_names a = bureau_report_account_keys) extra).
  assert (P0 : P accts) by (exists []; rewrite app_nil_r; auto).
  assert (Pc : forall comp s, P s -> P (fst (report_component comp s))).
  { intros comp s Hs. unfold report_component.
    destruct (get comp "Type") as [t|e]; [|exact Hs].
    destruct (is_bureau_report t); [|exact Hs].
    destruct (bureau_symbol_of t) as [sym|e]; simpl; [|exact Hs].
    destruct (report_tradelines comp) as [tls|e]; simpl; [|exact Hs].
    apply fold_try_invariant; [|exact Hs].
    intros tl a _ Ha. unfold attempt.
    destruct (report_tradeline sym tl a) as [a'|e] eqn:E; [|exact Ha].
    simpl. apply report_tradeline_keys in E.
    destruct E as [-> | (acct & -> & Hk)]; [exact Ha|].
    destruct Ha as (extra & -> & Hex).
    exists (extra ++ [acct])%list. rewrite app_assoc. split; [reflexivity|].
    apply Forall_snoc; assumption. }
  unfold report_accounts in H.
  destruct (truthy raw_report_str); [|inversion H; subst; exact P0].
  destruct (payload_components raw_report_str) as [comps|e].
  - pose proof (fold_try_invariant P report_component comps
                  (fun x s _ Hs => Pc x s Hs) accts P0) as Hf.
    destruct (fold_try report_component comps accts) as [a oe].
    inversion H; subst. exact Hf.
  - inversion H; subst. exact P0.
Qed.

(** X24: The accounts of a report are the accounts of the trade list, the
    accounts the tradeline partition pass appends for the link that the parse
    and the fallback lookup find, and the accounts the bureau report pass
    appends, in that order.  Those of the first two passes have exactly the
    32 keys of [account_keys], in that order; those of the third have exactly
    the 21 keys that are left without the payment, the payment history, the
    late counts, the last report, the account age and the member code. *)
Theorem accounts_have_keys (raw ov : dict) (w : list warning) (rep : report) :
  normalize_report raw ov = (w, Ok rep) ->
  exists st true_link borrower w1 w3 from_trades from_partition from_reports,
    navigate (cr_json_of raw) = (w1, Ok st) /\
    fallback_lookup (cr_json_of raw) st = Ok (true_link, borrower) /\
    trade_accounts raw [] = Ok from_trades /\
    partition_accounts true_link from_trades
    = Ok (from_trades ++ from_partition)%list /\
    report_accounts (raw_report_of (cr_json_of raw))
                    (from_trades ++ from_partition)%list
    = ((from_trades ++ from_partition) ++ from_reports, w3)%list /\
    accounts rep = (from_trades ++ from_partition ++ from_reports)%list /\
    Forall (fun a => field_names a = account_keys) from_trades /\
    Forall (fun a => field_names a = account_keys) from_partition /\
    Forall (fun a => field_names a = bureau_report_account_keys) from_reports.
Proof.
  intros H. destruct (account_passes raw ov w rep H)
    as (st & tl & b & w1 & w3 & t & e2 & e3 & Hn & Hf & Ht & Hp & Hr & Ha).
  exists st, tl, b, w1, w3, t, e2, e3.
  split; [exact Hn|]. split; [exact Hf|]. split; [exact Ht|].
  split; [exact Hp|]. split; [exact Hr|]. split; [exact Ha|].
  assert (Ft : Forall (fun a => field_names a = account_keys) t).
  { clear Hp Hr Ha. unfold trade_accounts in Ht. invert_binds Ht. revert Ht.
    apply appendM_invariant; [|constructor].
    intros it y _. apply trade_account_keys. }
  assert (Fp : forall p, partition_accounts tl t = Ok p ->
                         Forall (fun a => field_names a = account_keys) p).
  { intros p Hq. unfold partition_accounts in Hq.
    destruct (truthy tl); [|inversion Hq; subst p; exact Ft].
    invert_binds Hq. revert Hq. apply foldM_forall; [|exact Ft].
    intros item s s' Hs Hitem. unfold partition_item_accounts in Hitem.
    invert_binds Hitem. revert Hitem. apply foldM_forall; [|exact Hs].
    intros it u u'. apply partition_tradeline_keys. }
  apply Fp in Hp. apply Forall_app in Hp. destruct Hp as [_ Hp].
  split; [exact Ft|]. split; [exact Hp|].
  destruct (report_accounts_keys _ _ _ _ Hr) as (x & Hx & Dx).
  apply app_inv_head in Hx. subst x. exact Dx.
Qed.

(** ** Warnings *)

(** X25: Without a nested payload nothing is printed: when the credit report
    is no object, or its rawReport is absent, null or empty, [normalize_report]
    prints no warning, however it ends. *)
Theorem no_payload_no_warning (raw ov : dict) (w : list warning) (r : result report) :
  truthy (raw_report_of (cr_json_of raw)) = false ->
  normalize_report raw ov = (w, r) -> w = [].
Proof.
  intros T. rewrite normalize_report_sections. cbv zeta.
  assert (N : fst (navigate (cr_json_of raw)) = []).
  { unfold navigate, parse_raw_report. rewrite T.
    destruct (is_dict (cr_json_of raw)); reflexivity. }
  assert (S : forall b s, fst (score_section (cr_json_of raw) b s) = []).
  { intros b s. unfold score_section, credit_scores. rewrite T.
    destruct (is_dict (cr_json_of raw)); [|reflexivity].
    simpl. destruct (bundle_scores (cr_json_of raw) s); reflexivity. }
  assert (A : forall tl, fst (account_section raw (raw_report_of (cr_json_of raw)) tl)
                         = []).
  { intros tl. unfold account_section, report_accounts. rewrite T.
    simpl. destruct (trade_accounts raw []) as [t|e]; [|reflexivity].
    simpl. destruct (partition_accounts tl t); reflexivity. }
  destruct (navigate (cr_json_of raw)) as [w1 [st|e]]; simpl in N; subst w1;
    [|intros H; inversion H; reflexivity].
  destruct (fallback_lookup (cr_json_of raw) st) as [[tl b]|e];
    [|intros H; inversion H; reflexivity].
  destruct (personal_section (cr_json_of raw) b);
    [|intros H; inversion H; reflexivity].
  pose proof (S b ov) as Sb.
  destruct (score_section (cr_json_of raw) b ov) as [w2 [sc|e]]; simpl in Sb;
    subst w2; [|intros H; inversion H; reflexivity].
  pose proof (A tl) as At.
  destruct (account_section raw (raw_report_of (cr_json_of raw)) tl)
    as [w3 [accts|e]]; simpl in At; subst w3;
    [|intros H; inversion H; reflexivity].
  destruct (inquiry_section raw tl b); [|intros H; inversion H; reflexivity].
  destruct (public_record_entries raw []); [|intros H; inversion H; reflexivity].
  destruct (employer_section (cr_json_of raw) b);
    intros H; inversion H; reflexivity.
Qed.

End Properties.

(** * The properties on concrete inputs *)

Section Examples.
#[local] Existing Instance Ref.float.
#[local] Existing Instance Ref.runtime.

(** C1, counterexample: a bundle component typed for TransUnion carries the
    score 700 and the override gives 640 for TransUnion; the report holds 700,
    not the override value. *)
Lemma override_is_overwritten :
  exists rep,
    normalize_report c1_raw c1_override = ([], Ok rep) /\
    dict_get c1_override "TransUnion" = Some (JStr "640") /\
    dict_get (scores rep) "TransUnion" = Some (JStr "700").
Proof.
  eexists. split; [reflexivity|]. split; reflexivity.
Qed.

(** C1, witness of [structured_score_wins]: a score block for each bureau, a
    CreditScore entry for Equifax, and an override for the three bureaus.  The
    report holds the scores of the blocks for TransUnion and Experian and the
    score of the entry, the later write, for Equifax; no override value is
    left. *)
Lemma structured_score_wins_witness :
  exists rep st true_link borrower w1 comps read rest,
    normalize_report c1_three c1_three_override = ([], Ok rep) /\
    scores rep = [("TransUnion", JStr "700"); ("Equifax", JStr "705");
                  ("Experian", JStr "720")] /\
    supplied structured_bundle_score comps
    = [("Experian", JStr "720"); ("Equifax", JStr "710");
       ("TransUnion", JStr "700")] /\
    supplied structured_credit_score read = [("Equifax", JStr "705")] /\
    navigate (cr_json_of c1_three) = (w1, Ok st) /\
    fallback_lookup (cr_json_of c1_three) st = Ok (true_link, borrower) /\
    score_components (cr_json_of c1_three) = Ok comps /\
    credit_score_entries (raw_report_of (cr_json_of c1_three)) borrower
    = (read ++ rest)%list /\
    (rest = [] \/ exists e, In (WarnCreditScores e) []) /\
    let writes := (supplied structured_bundle_score comps
                   ++ supplied structured_credit_score read)%list in
    scores rep = apply_writes writes c1_three_override /\
    forall bureau,
      dict_get (scores rep) bureau =
      match last_write writes bureau with
      | Some structured => Some structured
      | None => dict_get c1_three_override bureau
      end.
Proof.
  assert (E : normalize_report c1_three c1_three_override
              = ([], Ok (report_value (normalize_report c1_three c1_three_override))))
    by reflexivity.
  destruct (structured_score_wins c1_three c1_three_override [] _ E)
    as (st & tl & b & w1 & comps & read & rest & Hn & Hf & Hc & Hr & Hq & Hs).
  exists (report_value (normalize_report c1_three c1_three_override)),
         st, tl, b, w1, comps, read, rest.
  split; [exact E|]. split; [reflexivity|].
  assert (Cv : score_components (cr_json_of c1_three)
               = Ok [score_block "EXPVantageScore" "720";
                     score_block "EQFVantageScore" "710";
                     score_block "TUCVantageScore" "700"]) by reflexivity.
  assert (Rr : rest = []).
  { destruct Hq as [Hq | [e []]]. exact Hq. }
  assert (Nv : exists l bo,
             navigate (cr_json_of c1_three) = ([], Ok (l, bo)) /\
             fallback_lookup (cr_json_of c1_three) (l, bo) = Ok (l, bo) /\
             exists en,
               credit_score_entries (raw_report_of (cr_json_of c1_three)) bo = [en] /\
               supplied structured_credit_score [en] = [("Equifax", JStr "705")]).
  { do 2 eexists. split; [reflexivity|]. split; [reflexivity|].
    eexists. split; reflexivity. }
  destruct Nv as (l & bo & Nv & Fv & en & Ev & Sv).
  split.
  { rewrite Cv in Hc. inversion Hc. reflexivity. }
  split.
  { rewrite Nv in Hn. inversion Hn; subst st w1.
    rewrite Fv in Hf. inversion Hf; subst tl b.
    rewrite Ev, Rr, app_nil_r in Hr. subst read. exact Sv. }
  exact (conj Hn (conj Hf (conj Hc (conj Hr (conj Hq Hs))))).
Defined.

(** C2, the code at the failing input: no trade, and a tradeline partition
    that holds one record twice, its creditor name written with a blank on
    either side.  The account is stored under the trimmed name, and the check of
    pass 2 compares that stored name with the name as the record has it
    (main.py 540-542): it finds no entry, and the output holds two entries with
    one key.  With the name written without the blanks the second record is
    dropped. *)
Lemma padded_duplicates_are_kept :
  exists rep a b rep' a',
    normalize_report (c2_partition (JStr " Chase Bank ")) [] = ([], Ok rep) /\
    accounts rep = [a; b] /\
    key_of a = (JStr "438854XXXXXXXXXX", JStr "Chase Bank", JStr "TUC") /\
    key_of b = key_of a /\
    normalize_report (c2_partition (JStr "Chase Bank")) [] = ([], Ok rep') /\
    accounts rep' = [a'] /\
    key_of a' = key_of a.
Proof.
  do 5 eexists. split; [reflexivity|]. split; [reflexivity|].
  split; [reflexivity|]. split; [reflexivity|]. split; [reflexivity|].
  split; reflexivity.
Qed.

(** C6, the code at the failing input: one trade, and a partition record with
    the number and the bureau of that trade and its creditor name written
    with a blank on either side.  The key of the record is the key of the
    trade, yet the check of pass 2 compares the stored name with the name as
    the record has it (main.py 540-542) and appends the record: the output
    holds two entries for the key, the second with the balance of the
    partition record.  With the name written without the blanks the output
    holds the account of the trade only. *)
Lemma padded_partition_record_is_kept :
  exists rep a b rep',
    normalize_report (c6_partition (JStr " Chase Bank ")) [] = ([], Ok rep) /\
    accounts rep = [a; b] /\
    key_of a = (JStr "438854XXXXXXXXXX", JStr "Chase Bank", JStr "TUC") /\
    key_of b = key_of a /\
    field a "currentBalanceAmount" = JStr "887" /\
    field b "currentBalanceAmount" = JStr "1" /\
    normalize_report (c6_partition (JStr "Chase Bank")) [] = ([], Ok rep') /\
    accounts rep' = [a].
Proof.
  do 4 eexists. split; [reflexivity|]. split; [reflexivity|].
  split; [reflexivity|]. split; [reflexivity|]. split; [reflexivity|].
  split; [reflexivity|]. split; reflexivity.
Qed.

(** C3, the code at the failing input: TransUnion and Equifax report the same
    creditor and account number.  The check of pass 2 finds no entry with the
    key of the Equifax record, the check of pass 3 calls it a duplicate, and
    the output holds the TransUnion entry only. *)
Lemma bureau_check_ignores_bureau :
  exists rep tuc,
    normalize_report c3_raw [] = ([], Ok rep) /\
    accounts rep = [tuc] /\
    key_of tuc = (JStr "438854XXXXXXXXXX", JStr "Chase Bank", JStr "TUC") /\
    is_duplicate [tuc] (JStr "438854XXXXXXXXXX") (JStr "Chase Bank") (JStr "EQF")
    = Ok false /\
    is_duplicate_report [tuc] (JStr "438854XXXXXXXXXX") (JStr "Chase Bank")
    = Ok true.
Proof.
  do 2 eexists. split; [reflexivity|].
  split; [reflexivity|]. repeat split; reflexivity.
Qed.

(** C4, the code at the failing input: a trade list whose only element is the
    number 1.  Pass 1 calls [get] on every element of the list (main.py 326):
    [normalize_report] raises [AttributeError] and returns no report.  Pass 2
    skips a tradeline that is no object (main.py 442-443): on a partition
    with that element it returns, with no account. *)
Lemma non_object_trade_raises :
  normalize_report c4_raw [] = ([], Raise AttributeError) /\
  partition_accounts
    (JObj [("TradeLinePartition", JArr [JObj [("Tradeline", JArr [JInt 1])]])]) []
  = Ok [].
Proof. split; reflexivity. Qed.

(** C5, the code at the failing input: the tradeline of a TransUnion report has
    neither creditor name nor account number; pass 3 appends an account for
    it, with a null institution name and a null account number. *)
Lemma nameless_tradeline_is_appended :
  exists rep acct,
    normalize_report c5_raw [] = ([], Ok rep) /\
    accounts rep = [acct] /\
    key_of acct = (JNull, JNull, JStr "TUC").
Proof.
  do 2 eexists. split; [reflexivity|].
  split; reflexivity.
Qed.

(** C7, the code at the failing input: a trade whose balance is the JSON number
    0.  [safe_number] gives 0.0 for it, and the original-name field holds its
    text, but the [balance] field is null. *)
Lemma zero_balance_is_null :
  exists rep acct,
    normalize_report c7_raw [] = ([], Ok rep) /\
    accounts rep = [acct] /\
    field acct "currentBalanceAmount" = JStr "0" /\
    field acct "balance" = JNull /\
    safe_number (JInt 0) = Ok (JFloat (S754_zero false)).
Proof.
  do 2 eexists. split; [reflexivity|].
  split; [reflexivity|]. repeat split; reflexivity.
Qed.


(** C9, the code at the failing input: the nested payload is an integer
    literal of 4301 digits, which [json.loads] refuses with a plain
    [ValueError].  The handler of the first parse names [JSONDecodeError],
    [AttributeError] and [TypeError] (main.py 106) and does not catch it: the
    failure is not recovered, nothing is logged, and the run ends with the
    exception.  The handler of the bureau report pass, which parses the same
    payload, catches every exception (main.py 632) and this one with them. *)
Lemma uncaught_parse_failure_ends_run :
  loads (raw_report_of (cr_json_of digits_raw)) = Raise ValueError /\
  parse_handler ValueError = false /\
  normalize_report digits_raw [] = ([], Raise ValueError) /\
  report_accounts (raw_report_of (cr_json_of digits_raw)) []
  = ([], [WarnBureauReports ValueError]).
Proof.
  split; [reflexivity|]. split; [reflexivity|]. split; reflexivity.
Qed.

(** C10, the code at the failing input: the borrower's [Name] is one name
    object.  The name extraction reads [Name] only when it is a list
    (main.py 133 and 155), without the wrap of an object that the other
    fields get: the report has no name, and with the one-element array of that
    object it has the name Ann Lee. *)
Lemma bare_name_object_is_ignored :
  exists rep rep',
    normalize_report (c10_raw name_object) [] = ([], Ok rep) /\
    normalize_report (c10_raw (JArr [name_object])) [] = ([], Ok rep') /\
    field (personal_info rep) "name" = JNull /\
    field (personal_info rep') "name" = JStr "Ann Lee".
Proof.
  do 2 eexists. split; [reflexivity|].
  split; [reflexivity|]. split; reflexivity.
Qed.


(** Witness of [unparseable_payload_recovered]: the payload of [c9_raw] is
    not JSON; without the payload the report has no score, with it the report
    has the score of the borrower of the outer document, and both passes over
    the payload print their warning. *)
Lemma unparseable_payload_recovered_witness :
  cr_json_of c9_raw = JObj (("rawReport", JStr "not json") :: c9_document) /\
  loads (JStr "not json") = Raise JSONDecodeError /\
  parse_handler JSONDecodeError = true /\
  exists rep' true_link borrower,
    normalize_report (without_raw_report c9_raw) [] = ([], Ok rep') /\
    scores rep' = [] /\
    fallback_lookup (JObj (("rawReport", JStr "not json") :: c9_document))
      (JNull, JNull) = Ok (true_link, borrower) /\
    normalize_report c9_raw [] =
    ((WarnRawReport JSONDecodeError
      :: snd (credit_scores (JStr "not json") borrower (scores rep'))
      ++ [WarnBureauReports JSONDecodeError])%list,
     Ok (with_scores rep'
           (fst (credit_scores (JStr "not json") borrower (scores rep'))))).
Proof.
  assert (H1 : cr_json_of c9_raw
               = JObj (("rawReport", JStr "not json") :: c9_document))
    by reflexivity.
  assert (H2 : dict_get (("rawReport", JStr "not json") :: c9_document) "rawReport"
               = Some (JStr "not json")) by reflexivity.
  assert (H3 : truthy (JStr "not json") = true) by reflexivity.
  assert (H4 : loads (JStr "not json") = Raise JSONDecodeError) by reflexivity.
  split; [exact H1|]. split; [exact H4|]. split; [reflexivity|].
  exists (report_value (normalize_report (without_raw_report c9_raw) [])).
  assert (E : normalize_report (without_raw_report c9_raw) []
              = ([], Ok (report_value
                           (normalize_report (without_raw_report c9_raw) []))))
    by reflexivity.
  pose proof (unparseable_payload_recovered c9_raw [] _ _ _ H1 H2 H3 H4 eq_refl)
    as U.
  rewrite E in U. destruct U as (true_link & borrower & Hf & Hn).
  exists true_link, borrower.
  split; [exact E|]. split; [reflexivity|]. split; [exact Hf | exact Hn].
Defined.

(** Witness of [absent_sources_empty_report]: an input with statistics
    only. *)
Lemma absent_sources_empty_report_witness :
  cr_json_of statistics_raw = JObj [] /\
  truthy (endpoint statistics_raw "trades") = false /\
  truthy (endpoint statistics_raw "search_results") = false /\
  normalize_report statistics_raw c1_override
  = ([], Ok (mkReport (JObj []) c1_override [] [] [] [])).
Proof.
  assert (H1 : cr_json_of statistics_raw = JObj []) by reflexivity.
  assert (H2 : truthy (endpoint statistics_raw "trades") = false) by reflexivity.
  assert (H3 : truthy (endpoint statistics_raw "search_results") = false)
    by reflexivity.
  split; [exact H1|]. split; [exact H2|]. split; [exact H3|].
  exact (absent_sources_empty_report statistics_raw c1_override H1 H2 H3).
Defined.

(** Witness of [safe_number_returns]: the text 887. *)
Lemma safe_number_returns_witness :
  exists x,
    safe_number (JStr "887") = Ok x /\
    (x = JNull \/ exists f, x = JFloat f).
Proof.
  assert (E : safe_number (JStr "887")
              = Ok (field (trade_account_value chase_trade) "balance"))
    by reflexivity.
  exists (field (trade_account_value chase_trade) "balance").
  split; [exact E|].
  exact (proj1 (safe_number_returns _ _ E)).
Defined.

(** Witness of [scores_extend_override]: the structured score of [c1_raw]
    over the override [c1_override]. *)
Lemma scores_extend_override_witness :
  exists rep,
    normalize_report c1_raw c1_override = ([], Ok rep) /\
    extends_override c1_override (scores rep).
Proof.
  exists (report_value (normalize_report c1_raw c1_override)).
  assert (E : normalize_report c1_raw c1_override
              = ([], Ok (report_value (normalize_report c1_raw c1_override))))
    by reflexivity.
  split; [exact E|].
  exact (scores_extend_override c1_raw c1_override [] _ E).
Defined.

(** Witness of [search_results_shape_tolerance]: one inquiry. *)
Lemma search_results_shape_tolerance_witness :
  ("inquiries" = "inquiries" \/ "inquiries" = "publicRecords") /\
  normalize_report
    (dict_set [] "search_results"
       (JObj (dict_set [] "inquiries" (JObj [("bureau", JStr "TUC")])))) [] =
  normalize_report
    (dict_set [] "search_results"
       (JObj (dict_set [] "inquiries" (JArr [JObj [("bureau", JStr "TUC")]])))) [].
Proof.
  assert (H : "inquiries" = "inquiries" \/ "inquiries" = "publicRecords")
    by (left; reflexivity).
  split; [exact H|].
  exact (search_results_shape_tolerance [] [] [("bureau", JStr "TUC")] []
           "inquiries" H).
Defined.

(** Witness of [borrower_shape_tolerance]: one birth date. *)
Lemma borrower_shape_tolerance_witness :
  In "Birth" ["BorrowerAddress"; "PreviousAddress"; "Birth"; "Inquiry"; "Employer"] /\
  extract_personal_info
    (JObj (dict_set [] "Birth" (JObj [("date", JStr "1990-01-01")]))) =
  extract_personal_info
    (JObj (dict_set [] "Birth" (JArr [JObj [("date", JStr "1990-01-01")]]))).
Proof.
  assert (H : In "Birth"
                ["BorrowerAddress"; "PreviousAddress"; "Birth"; "Inquiry"; "Employer"])
    by (simpl; auto).
  split; [exact H|].
  exact (proj1 (borrower_shape_tolerance [] [("date", JStr "1990-01-01")]
                  "Birth" H)).
Defined.

(** Witness of [partition_shape_tolerance]: one tradeline partition. *)
Lemma partition_shape_tolerance_witness :
  ("TradeLinePartition" = "TradeLinePartition"
   \/ "TradeLinePartition" = "InquiryPartition") /\
  partition_accounts
    (JObj (dict_set [] "TradeLinePartition" (JObj [("Tradeline", chase_tradeline)])))
    [] =
  partition_accounts
    (JObj (dict_set [] "TradeLinePartition"
             (JArr [JObj [("Tradeline", chase_tradeline)]])))
    [].
Proof.
  assert (H : "TradeLinePartition" = "TradeLinePartition"
              \/ "TradeLinePartition" = "InquiryPartition")
    by (left; reflexivity).
  split; [exact H|].
  exact (proj1 (partition_shape_tolerance [] [("Tradeline", chase_tradeline)]
                  "TradeLinePartition" H) []).
Defined.

(** Witness of [partition_appends_named]: the one tradeline of [chase_link]
    has a creditor name and an account number, and pass 2 appends its
    account. *)
Lemma partition_appends_named_witness :
  exists accts' tradelines extra,
    partition_accounts chase_link [] = Ok accts' /\
    partition_tradelines chase_link = Ok tradelines /\
    tradelines = [chase_tradeline] /\
    accts' = ([] ++ extra)%list /\
    length extra = 1 /\
    Forall (fun a => exists t, In t tradelines /\ built_from_named t a) extra.
Proof.
  pose (v := match partition_accounts chase_link [] with
             | Ok l => l
             | Raise _ => []
             end).
  assert (E : partition_accounts chase_link [] = Ok v) by reflexivity.
  destruct (partition_appends_named chase_link [] v E)
    as (tradelines & extra & Ht & Hx & Hn).
  exists v, tradelines, extra.
  assert (T : partition_tradelines chase_link = Ok [chase_tradeline]) by reflexivity.
  split; [exact E|]. split; [exact Ht|].
  split; [rewrite T in Ht; inversion Ht; reflexivity|].
  split; [exact Hx|]. split; [|exact Hn].
  simpl in Hx. rewrite <- Hx. reflexivity.
Defined.

(** Witness of [trades_come_first] on the tidy input: the first account of
    the report is the account of the one trade. *)
Lemma trades_come_first_witness :
  exists rep trades from_trades extra,
    normalize_report tidy_raw [] = ([], Ok rep) /\
    trade_list tidy_raw = Ok trades /\
    one_for_one trade_account trades from_trades /\
    accounts rep = (from_trades ++ extra)%list.
Proof.
  assert (E : normalize_report tidy_raw []
              = ([], Ok (report_value (normalize_report tidy_raw []))))
    by reflexivity.
  destruct (trades_come_first tidy_raw [] [] _ E) as (trades & ft & extra & H).
  exists (report_value (normalize_report tidy_raw [])), trades, ft, extra.
  split; [exact E | exact H].
Defined.

(** Witness of [search_results_one_for_one]: one inquiry and one public
    record. *)
Lemma search_results_one_for_one_witness :
  exists rep iqs from_search more prs,
    normalize_report search_raw [] = ([], Ok rep) /\
    search_list search_raw "inquiries" = Ok iqs /\
    one_for_one search_inquiry iqs from_search /\
    inquiries rep = (from_search ++ more)%list /\
    search_list search_raw "publicRecords" = Ok prs /\
    one_for_one public_record prs (public_records rep).
Proof.
  assert (E : normalize_report search_raw []
              = ([], Ok (report_value (normalize_report search_raw []))))
    by reflexivity.
  destruct (search_results_one_for_one search_raw [] [] _ E)
    as (iqs & fs & more & prs & H).
  exists (report_value (normalize_report search_raw [])), iqs, fs, more, prs.
  split; [exact E | exact H].
Defined.

(** Witness of [escaping_exceptions]: a nested payload that is an integer
    literal over the digit limit; [json.loads] raises a plain [ValueError],
    which the handler of the first parse does not catch, and the run ends
    with it. *)
Lemma escaping_exceptions_witness :
  normalize_report digits_raw [] = ([], Raise ValueError) /\
  (ValueError = AttributeError \/ ValueError = TypeError
   \/ ValueError = OverflowError
   \/ ((ValueError = ValueError \/ ValueError = RecursionError) /\
       loads (raw_report_of (cr_json_of digits_raw)) = Raise ValueError)).
Proof.
  assert (E : normalize_report digits_raw [] = ([], Raise ValueError))
    by reflexivity.
  split; [exact E|].
  exact (escaping_exceptions digits_raw [] [] ValueError E).
Defined.

(** Witness of [fixed_is_first_pass] on the tidy input: main.py's report has
    two accounts, main_fixed.py's has the first of them. *)
Lemma fixed_is_first_pass_witness :
  exists rep w' rep',
    normalize_report tidy_raw [] = ([], Ok rep) /\
    main_fixed.normalize_report tidy_raw [] = (w', Ok rep') /\
    scores rep' = [] /\
    (exists more, accounts rep = (accounts rep' ++ more)%list) /\
    (exists more, inquiries rep = (inquiries rep' ++ more)%list) /\
    public_records rep = public_records rep' /\
    (exists before, employers rep = (before ++ employers rep')%list) /\
    (forall k, k <> "previous_addresses" ->
       field (personal_info rep') k = field (personal_info rep) k).
Proof.
  assert (E : normalize_report tidy_raw []
              = ([], Ok (report_value (normalize_report tidy_raw []))))
    by reflexivity.
  destruct (fixed_is_first_pass tidy_raw [] [] _ E) as (w' & rep' & H).
  exists (report_value (normalize_report tidy_raw [])), w', rep'.
  split; [exact E | exact H].
Defined.

(** Witness of [fallback_scores_stable]: the structured score of [c1_raw]. *)
Lemma fallback_scores_stable_witness :
  is_dict (cr_json_of c1_raw) = true /\
  main_fallback_scores c1_raw = Ok [("TransUnion", JStr "700")] /\
  exists s',
    bundle_scores (cr_json_of c1_raw) [("TransUnion", JStr "700")] = Ok s' /\
    forall k, dict_get s' k = dict_get [("TransUnion", JStr "700")] k.
Proof.
  assert (H1 : is_dict (cr_json_of c1_raw) = true) by reflexivity.
  assert (H2 : main_fallback_scores c1_raw = Ok [("TransUnion", JStr "700")])
    by reflexivity.
  split; [exact H1|]. split; [exact H2|].
  exact (fallback_scores_stable c1_raw _ H1 H2).
Defined.

(** Witness of [exported_amounts_not_text]: one account and one item that is
    no account; the export has one record. *)
Lemma exported_amounts_not_text_witness :
  exists r,
    test_normalize.normalize_and_export_test export_raw = Ok [r] /\
    field r "account_name" = JStr "Chase Bank" /\
    field r "high_balance" = JInt 0 /\
    Forall (fun r => forall k, In k cleaned_amounts -> is_text (field r k) = false)
           [r].
Proof.
  pose (r := match test_normalize.normalize_and_export_test export_raw with
             | Ok (r :: _) => r
             | _ => JNull
             end).
  assert (E : test_normalize.normalize_and_export_test export_raw = Ok [r])
    by reflexivity.
  exists r. split; [exact E|]. split; [reflexivity|]. split; [reflexivity|].
  exact (exported_amounts_not_text export_raw [r] E).
Defined.

(** Witness of [report_accounts_exported] on the tidy input: two accounts,
    two records. *)
Lemma report_accounts_exported_witness :
  exists rep records,
    normalize_report tidy_raw [] = ([], Ok rep) /\
    length (accounts rep) = 2 /\
    test_normalize.normalize_and_export_test [("accounts", JArr (accounts rep))]
    = Ok records /\
    Forall2 exported (accounts rep) records.
Proof.
  assert (E : normalize_report tidy_raw []
              = ([], Ok (report_value (normalize_report tidy_raw []))))
    by reflexivity.
  destruct (report_accounts_exported tidy_raw [] [] _ E) as (records & H).
  exists (report_value (normalize_report tidy_raw [])), records.
  split; [exact E|]. split; [reflexivity | exact H].
Defined.

(** Witness of [personal_info_has_shape]: a borrower with a name, a number
    with blanks around it, an address and one previous address. *)
Lemma personal_info_has_shape_witness :
  exists rep,
    normalize_report person_raw [] = ([], Ok rep) /\
    field (personal_info rep) "name" = JStr "Ann Lee" /\
    field (personal_info rep) "ssn" = JStr "123-45-6789" /\
    field (personal_info rep) "address" = JStr "1 Main St, Austin" /\
    personal_info_shape (personal_info rep).
Proof.
  exists (report_value (normalize_report person_raw [])).
  assert (E : normalize_report person_raw []
              = ([], Ok (report_value (normalize_report person_raw []))))
    by reflexivity.
  split; [exact E|]. split; [reflexivity|]. split; [reflexivity|].
  split; [reflexivity|].
  exact (personal_info_has_shape person_raw [] [] _ E).
Defined.

(** Witness of [entries_have_shape]: one inquiry and one public record. *)
Lemma entries_have_shape_witness :
  exists rep,
    normalize_report search_raw [] = ([], Ok rep) /\
    length (inquiries rep) = 1 /\
    length (public_records rep) = 1 /\
    Forall (fun e => field_names e = inquiry_keys) (inquiries rep) /\
    Forall (fun e => field_names e = public_record_keys /\
                     null_or_float (field e "amount") = true) (public_records rep) /\
    Forall (fun e => field_names e = employer_keys) (employers rep).
Proof.
  exists (report_value (normalize_report search_raw [])).
  assert (E : normalize_report search_raw []
              = ([], Ok (report_value (normalize_report search_raw []))))
    by reflexivity.
  split; [exact E|]. split; [reflexivity|]. split; [reflexivity|].
  exact (entries_have_shape search_raw [] [] _ E).
Defined.

(** Witness of [accounts_have_keys]: one trade, one record of the tradeline
    partition and one record of a bureau report; the report has three
    accounts, the last with the shorter key list. *)
Lemma accounts_have_keys_witness :
  exists rep st true_link borrower w1 w3 from_trades from_partition from_reports,
    normalize_report three_pass_raw [] = ([], Ok rep) /\
    length (accounts rep) = 3 /\
    map (fun a => length (field_names a)) (accounts rep) = [32; 32; 21] /\
    navigate (cr_json_of three_pass_raw) = (w1, Ok st) /\
    fallback_lookup (cr_json_of three_pass_raw) st = Ok (true_link, borrower) /\
    trade_accounts three_pass_raw [] = Ok from_trades /\
    partition_accounts true_link from_trades
    = Ok (from_trades ++ from_partition)%list /\
    report_accounts (raw_report_of (cr_json_of three_pass_raw))
                    (from_trades ++ from_partition)%list
    = ((from_trades ++ from_partition) ++ from_reports, w3)%list /\
    accounts rep = (from_trades ++ from_partition ++ from_reports)%list /\
    Forall (fun a => field_names a = account_keys) from_trades /\
    Forall (fun a => field_names a = account_keys) from_partition /\
    Forall (fun a => field_names a = bureau_report_account_keys) from_reports.
Proof.
  assert (E : normalize_report three_pass_raw []
              = ([], Ok (report_value (normalize_report three_pass_raw []))))
    by reflexivity.
  destruct (accounts_have_keys three_pass_raw [] [] _ E)
    as (st & tl & b & w1 & w3 & t & e2 & e3 & H).
  exists (report_value (normalize_report three_pass_raw [])),
         st, tl, b, w1, w3, t, e2, e3.
  split; [exact E|]. split; [reflexivity|]. split; [reflexivity | exact H].
Defined.

(** Witness of [no_payload_no_warning]: the input of the malformed trade has
    no credit report at all, and the run that raises prints nothing. *)
Lemma no_payload_no_warning_witness :
  truthy (raw_report_of (cr_json_of c4_raw)) = false /\
  exists w, normalize_report c4_raw [] = (w, Raise AttributeError) /\ w = [].
Proof.
  assert (T : truthy (raw_report_of (cr_json_of c4_raw)) = false) by reflexivity.
  assert (E : normalize_report c4_raw [] = ([], Raise AttributeError))
    by reflexivity.
  split; [exact T|]. exists []. split; [exact E|].
  exact (no_payload_no_warning c4_raw [] [] _ T E).
Defined.

End Examples.
